(** * Batch Enrollment Dashboard: loader, filter and aggregation pipeline

    A shallow embedding of [dashboard_app.py]: the cache-or-refresh loader
    [load_data_from_sheets], the filter stage of [update_dashboard], and
    the aggregates it derives (recent-window trend, revenue scaling, batch
    summary with its totals row), followed by the properties established
    about them. *)

From Stdlib Require Import List String Ascii Bool Arith ZArith QArith Lia.
From Stdlib Require Import Permutation Sorted Qfield.
Import ListNotations.

Set Implicit Arguments.
Close Scope Q_scope.

(* ================================================================== *)
(** * Python strings *)
(* ================================================================== *)

(** Strings are byte strings.  Bytes below 128 are ASCII characters; bytes
    from 128 on stand for the UTF-8 encoding of printable non-ASCII
    characters, which [str.lower] never maps to an ASCII letter that occurs
    in a header keyword and which [repr] prints as they are. *)
Module PyStr.

Local Open Scope string_scope.

Definition chr (n : nat) : ascii := ascii_of_nat n.
Definition ord (c : ascii) : nat := nat_of_ascii c.

Definition backslash : ascii := chr 92.
Definition squote : ascii := chr 39.
Definition dquote : ascii := chr 34.

Definition str1 (c : ascii) : string := String c EmptyString.


(** [c.lower()] on one character of an ASCII text. *)
Definition lower_char (c : ascii) : ascii :=
  let n := ord c in
  if (65 <=? n)%nat && (n <=? 90)%nat then chr (n + 32) else c.

(** [s.lower()] *)
Fixpoint lower (s : string) : string :=
  match s with
  | EmptyString => EmptyString
  | String c s' => String (lower_char c) (lower s')
  end.

(** [needle in hay] *)
Fixpoint contains (needle hay : string) : bool :=
  prefix needle hay ||
  match hay with
  | EmptyString => false
  | String _ hay' => contains needle hay'
  end.

Fixpoint mem_char (c : ascii) (s : string) : bool :=
  match s with
  | EmptyString => false
  | String d s' => Ascii.eqb c d || mem_char c s'
  end.

Definition hex_digit (n : nat) : ascii :=
  if (n <? 10)%nat then chr (48 + n) else chr (87 + n).

(** The quote character [repr] wraps a string in: a double quote when the
    string holds a single quote and no double quote, a single quote
    otherwise. *)
Definition repr_quote (s : string) : ascii :=
  if mem_char squote s && negb (mem_char dquote s) then dquote else squote.

(** How [repr] prints one character of an ASCII text inside quotes [q].
    (Outside ASCII, Python also escapes the characters that are not
    printable; here every other character is printed as it is.) *)
Definition repr_char (q c : ascii) : string :=
  let n := ord c in
  if Ascii.eqb c backslash then String backslash (str1 backslash)
  else if Ascii.eqb c q then String backslash (str1 q)
  else if (n =? 9)%nat then String backslash "t"
  else if (n =? 10)%nat then String backslash "n"
  else if (n =? 13)%nat then String backslash "r"
  else if (n <? 32)%nat || (n =? 127)%nat then
    String backslash
      (String "x" (String (hex_digit (n / 16)) (str1 (hex_digit (n mod 16)))))
  else str1 c.

Fixpoint repr_body (q : ascii) (s : string) : string :=
  match s with
  | EmptyString => EmptyString
  | String c s' => repr_char q c ++ repr_body q s'
  end.

(** [repr(s)] *)
Definition repr (s : string) : string :=
  let q := repr_quote s in
  String q (repr_body q s ++ str1 q).

Fixpoint join (sep : string) (l : list string) : string :=
  match l with
  | [] => EmptyString
  | [x] => x
  | x :: l' => x ++ sep ++ join sep l'
  end.

(** [str(row)] for a list of strings. *)
Definition str_list (row : list string) : string :=
  "[" ++ join ", " (map repr row) ++ "]".

(** Characters [str.strip()] removes: the ASCII white space. *)
Definition is_space (c : ascii) : bool :=
  let n := ord c in
  ((9 <=? n)%nat && (n <=? 13)%nat) || ((28 <=? n)%nat && (n <=? 32)%nat).

Fixpoint lstrip (s : string) : string :=
  match s with
  | EmptyString => EmptyString
  | String c s' => if is_space c then lstrip s' else s
  end.

Fixpoint rstrip (s : string) : string :=
  match s with
  | EmptyString => EmptyString
  | String c s' =>
      match rstrip s' with
      | EmptyString => if is_space c then EmptyString else str1 c
      | r => String c r
      end
  end.

(** [s.strip()] *)
Definition strip (s : string) : string := rstrip (lstrip s).

(** Decimal rendering of a natural number, as [str(n)] or an f-string
    field prints it. *)
Fixpoint digits (fuel n : nat) (acc : string) : string :=
  match fuel with
  | O => acc
  | S fuel' =>
      let acc' := String (chr (48 + n mod 10)) acc in
      if (n / 10 =? 0)%nat then acc' else digits fuel' (n / 10) acc'
  end.

Definition str_nat (n : nat) : string := digits (S n) n EmptyString.

(** Zero-padded decimal of width at least [w] ([%02d], [%04d]). *)
Fixpoint zfill (w : nat) (s : string) : string :=
  match w with
  | O => s
  | S w' => if (String.length s <? w)%nat then zfill w' (String "0" s) else s
  end.



Definition is_quote (q : ascii) : Prop := q = squote \/ q = dquote.

End PyStr.

(* ================================================================== *)
(** * Header-row detection *)
(* ================================================================== *)

Local Open Scope string_scope.
Local Open Scope list_scope.

Definition HEADER_KEYWORDS : list string :=
  ["batchid"; "_id"; "name"; "converteddate"].

(** [row and any(col in str(row).lower() for col in [...])] *)
Definition is_header_row (row : list string) : bool :=
  match row with
  | [] => false
  | _ => existsb (fun col => PyStr.contains col (PyStr.lower (PyStr.str_list row)))
                 HEADER_KEYWORDS
  end.

(** The [for i, row in enumerate(data)] loop, from index [i] on: the index
    at which it breaks, if it does. *)
Fixpoint scan_header (i : nat) (data : list (list string)) : option nat :=
  match data with
  | [] => None
  | row :: rest => if is_header_row row then Some i else scan_header (S i) rest
  end.

(** [header_row] after the loop: initialised to 0, overwritten on a match. *)
Definition header_row (data : list (list string)) : nat :=
  match scan_header 0 data with
  | Some i => i
  | None => 0
  end.




(* ================================================================== *)
(** * Tables *)
(* ================================================================== *)

(** A cell of a pandas frame: a Python string, a float, a timestamp, or the
    missing value (NaN, NaT, None).  A float is given by the rational
    number it is (infinities are left out); the arithmetic on floats,
    which rounds, is that of [Numeric] below.  Timestamps count
    nanoseconds since the epoch. *)
Inductive Cell : Type :=
| CStr (s : string)
| CNum (x : Q)
| CDate (t : Z)
| CNull.

Definition Row : Type := list Cell.

(** A frame: its column labels in order, and its rows, each row holding one
    cell per column, in column order. *)
Record DataFrame : Type := mkDataFrame {
  columns : list string;
  rows : list Row
}.

Definition notna (c : Cell) : bool :=
  match c with
  | CNull => false
  | _ => true
  end.

Module Pandas.

(** [c in df.columns] *)
Definition has_col (df : DataFrame) (c : string) : bool :=
  existsb (String.eqb c) (columns df).

Fixpoint count_label (c : string) (cols : list string) : nat :=
  match cols with
  | [] => 0
  | d :: cols' => (if String.eqb c d then 1 else 0) + count_label c cols'
  end.

(** Position of the first column labelled [c]. *)
Fixpoint col_index (c : string) (cols : list string) : option nat :=
  match cols with
  | [] => None
  | d :: cols' =>
      if String.eqb c d then Some 0%nat
      else option_map S (col_index c cols')
  end.

Definition cell_at (i : nat) (r : Row) : Cell := nth i r CNull.

(** The cell of row [r] under label [c]; [None] when the frame has no such
    column. *)
Definition cell (df : DataFrame) (c : string) (r : Row) : option Cell :=
  option_map (fun i => cell_at i r) (col_index c (columns df)).

(** [df[c]] as a Series.  With a label carried by two or more columns
    [df[c]] is a frame, not a Series: every use the program makes of it
    then raises, so the result is [None] there as for a missing label. *)
Definition series (df : DataFrame) (c : string) : option (list Cell) :=
  if (count_label c (columns df) =? 1)%nat then
    option_map (fun i => map (cell_at i) (rows df)) (col_index c (columns df))
  else None.

Fixpoint set_nth (i : nat) (v : Cell) (r : Row) : Row :=
  match i, r with
  | _, [] => []
  | O, _ :: r' => v :: r'
  | S i', x :: r' => x :: set_nth i' v r'
  end.

(** [df[c] = s]: overwrite the column labelled [c], or append a new last
    column when there is none. *)
Definition assign (df : DataFrame) (c : string) (s : list Cell) : DataFrame :=
  match col_index c (columns df) with
  | Some i =>
      mkDataFrame (columns df)
        (map (fun rv => set_nth i (snd rv) (fst rv)) (combine (rows df) s))
  | None =>
      mkDataFrame (columns df ++ [c])
        (map (fun rv => fst rv ++ [snd rv]) (combine (rows df) s))
  end.

Definition len (df : DataFrame) : nat := List.length (rows df).

Definition max_width (data : list (list string)) : nat :=
  fold_right (fun r m => Nat.max (List.length r) m) 0%nat data.

Definition pad (w : nat) (r : list string) : Row :=
  map CStr r ++ repeat CNull (w - List.length r).

(** [pd.DataFrame(data, columns=cols)] for a list of lists of strings:
    short rows are padded with missing values; it raises ([None]) when
    the widest row does not have as many cells as there are labels. *)
Definition DataFrame_of (data : list (list string)) (cols : list string)
  : option DataFrame :=
  match data with
  | [] => Some (mkDataFrame cols [])
  | _ =>
      if (max_width data =? List.length cols)%nat
      then Some (mkDataFrame cols (map (pad (List.length cols)) data))
      else None
  end.

(** [pd.DataFrame(columns=cols)] *)
Definition empty_frame (cols : list string) : DataFrame :=
  mkDataFrame cols [].

Fixpoint nodupb (l : list string) : bool :=
  match l with
  | [] => true
  | x :: l' => negb (existsb (String.eqb x) l') && nodupb l'
  end.

Fixpoint list_eqb (l1 l2 : list string) : bool :=
  match l1, l2 with
  | [], [] => true
  | x :: l1', y :: l2' => String.eqb x y && list_eqb l1' l2'
  | _, _ => false
  end.

(** Column union, in order of first appearance. *)
Definition union_columns (dfs : list DataFrame) : list string :=
  fold_left
    (fun acc df =>
       fold_left
         (fun acc' c => if existsb (String.eqb c) acc' then acc' else acc' ++ [c])
         (columns df) acc)
    dfs [].

(** A row of [df] laid out under the labels [cols]; a label [df] lacks
    gets the missing value. *)
Definition reindex (cols : list string) (df : DataFrame) (r : Row) : Row :=
  map (fun c => match cell df c r with
                | Some v => v
                | None => CNull
                end) cols.

(** [pd.concat(dfs, ignore_index=True)].  Frames with distinct labels are
    aligned on the union of their columns.  When some frame repeats a
    label, concatenation succeeds only if all frames carry the same
    labels in the same order, and is then positional; otherwise it
    raises.  It also raises on an empty list. *)
Definition concat (dfs : list DataFrame) : option DataFrame :=
  match dfs with
  | [] => None
  | df0 :: rest =>
      if forallb (fun df => nodupb (columns df)) dfs then
        let cols := union_columns dfs in
        Some (mkDataFrame cols
                (flat_map (fun df => map (reindex cols df) (rows df)) dfs))
      else if forallb (fun df => list_eqb (columns df) (columns df0)) rest then
        Some (mkDataFrame (columns df0) (flat_map rows dfs))
      else None
  end.

(** [df.dropna(how='all')] *)
Definition dropna_all (df : DataFrame) : DataFrame :=
  mkDataFrame (columns df) (filter (existsb notna) (rows df)).

(** [df[mask]] for a row predicate. *)
Definition select (p : Row -> bool) (df : DataFrame) : DataFrame :=
  mkDataFrame (columns df) (filter p (rows df)).

End Pandas.

(** What pandas' parsers do with the text of a cell.  They are the
    library's, not the program's: [parse_datetime col s] is the timestamp
    [pd.to_datetime] reads from [s] as an element of the column [col] (the
    format is inferred from the column), [parse_numeric s] the number
    [pd.to_numeric] reads from [s], each [None] where the text does not
    parse; [float32 x] is [x] rounded by [astype('float32')]. *)
Class Parsers : Type := {
  parse_datetime : list Cell -> string -> option Z;
  parse_numeric : string -> option Q;
  float32 : Q -> Q
}.

(** The numeric types of the columns the program adds up: the loader
    stores the amounts as [float32]; [pd.read_json] gives the column of a
    stored table the type [int64] when every amount is a whole number and
    [float64] otherwise. *)
Inductive Dtype : Type := Float32 | Float64 | Int64.

(** What numpy and pandas compute on the numbers of a column.  The
    operations are the library's, not the program's, and they round:
    [series_sum t l] is what [Series.sum()] returns for a column of type
    [t] that holds the values [l] in that order, [group_sum t l] what
    [GroupBy.sum()] returns for a group that holds [l], [true_divide t x y]
    one element of [column / y] for a column of type [t] and a Python
    integer [y], and [scalar_divide x y] is [x / y] for the scalar the sum
    of a [float32] column returns and a Python integer [y].  Rounding
    keeps the order of the quotients. *)
Class Numeric : Type := {
  series_sum : Dtype -> list Q -> Q;
  group_sum : Dtype -> list Q -> Q;
  true_divide : Dtype -> Q -> Q -> Q;
  scalar_divide : Q -> Q -> Q;
  true_divide_monotone :
    forall t x y c, (0 < c)%Q -> (x <= y)%Q ->
                    (true_divide t x c <= true_divide t y c)%Q
}.

(* ================================================================== *)
(** * The remote source *)
(* ================================================================== *)

Definition SPREADSHEET_ID : string :=
  "14XMNROBL6PT_GYq43AVJb9e_IowOZp_ZP_IpCwmQCgs".
Definition WORKSHEET_NAMES : list string := ["Foundation Data"; "CUET UG Data"].
Definition CACHE_DURATION : Q := 300.

(** Calls made to the outside while loading. *)
Inductive Event : Type :=
| EvCredentials
| EvAuthorize
| EvOpenByKey (key : string)
| EvWorksheet (name : string).

(** What the outside answers during one call of the loader. *)
Record Remote : Type := mkRemote {
  (** [os.getenv('GOOGLE_CREDENTIALS')] *)
  env_credentials : option string;
  (** [json.loads] and [from_service_account_info] accept that text *)
  env_credentials_valid : bool;
  (** [os.path.exists(SERVICE_ACCOUNT_FILE)] *)
  file_exists : bool;
  (** [from_service_account_file] accepts the file *)
  file_valid : bool;
  (** [gspread.authorize] returns *)
  authorize_ok : bool;
  (** [client.open_by_key] returns *)
  open_ok : bool;
  (** [spreadsheet.worksheet(name).get_all_values()], [None] when either
      call raises *)
  worksheet : string -> option (list (list string))
}.

Inductive Credentials : Type := FromEnvironment | FromFile.

(** [get_google_credentials]; [None] when it raises. *)
Definition get_google_credentials (R : Remote) : option Credentials :=
  let from_file :=
    if file_exists R then
      if file_valid R then Some FromFile else None
    else None in
  match env_credentials R with
  | Some (String _ _) =>
      if env_credentials_valid R then Some FromEnvironment else from_file
  | _ => from_file
  end.

(* ================================================================== *)
(** * Normalisation *)
(* ================================================================== *)

Definition EMPTY_COLUMNS : list string :=
  ["_id"; "batchid"; "plan"; "converteddate"; "name"; "net_amount";
   "coupondiscount"; "couponcode"; "couponid"; "donationamount";
   "Exam_2"; "order_type"; "batch_eligibility"; "startdate"; "ADD_ON_STORE";
   "leader_fin"; "type_2"].

(** The table returned when nothing could be loaded. *)
Definition EMPTY_SCHEMA : DataFrame := Pandas.empty_frame EMPTY_COLUMNS.

Definition numeric_cols : list string :=
  ["net_amount"; "coupondiscount"; "donationamount"; "ADD_ON_STORE"].

Definition string_cols : list string :=
  ["name"; "plan"; "Exam_2"; "order_type"; "batch_eligibility";
   "couponcode"; "couponid"; "leader_fin"; "type_2"].

(** Sequencing of steps that may raise. *)
Notation "'do' x <- e ; k" :=
  (match e with
   | Some x => k
   | None => None
   end) (at level 10, x name, e at level 100, k at level 200).

(** [df[dst] = df[src]] *)
Definition copy_column (df : DataFrame) (src dst : string) : option DataFrame :=
  option_map (Pandas.assign df dst) (Pandas.series df src).

(** [pd.DataFrame(data[header_row + 1:], columns=data[header_row])];
    [None] when the indexing or the constructor raises. *)
Definition raw_frame (data : list (list string)) : option DataFrame :=
  let h := header_row data in
  do hdr <- nth_error data h;
  Pandas.DataFrame_of (skipn (S h) data) hdr.

(** The body of the per-worksheet [try]: from the cell values of one
    worksheet to its frame; [None] when a statement of the body raises. *)
Definition sheet_frame (data : list (list string)) : option DataFrame :=
  do df0 <- raw_frame data;
  let df1 := mkDataFrame (map PyStr.strip (columns df0)) (rows df0) in
  do df2 <- (if Pandas.has_col df1 "batch_name" && negb (Pandas.has_col df1 "name")
             then copy_column df1 "batch_name" "name"
             else Some df1);
  if Pandas.has_col df2 "exam_2" && negb (Pandas.has_col df2 "Exam_2")
  then copy_column df2 "exam_2" "Exam_2"
  else if Pandas.has_col df2 "exam" && negb (Pandas.has_col df2 "Exam_2")
  then copy_column df2 "exam" "Exam_2"
  else Some df2.

(** The outcome of the outer [try] block. *)
Inductive Outcome : Type :=
| Raised                  (** an exception reached the outer handler *)
| NoData                  (** one of the two early returns of the empty table *)
| Loaded (df : DataFrame) (** the block ran to its last [return df] *).

Section Normalizer.

Context {P : Parsers}.

(** One element of [pd.to_datetime(s, errors='coerce')] *)
Definition to_datetime_cell (s : list Cell) (c : Cell) : Cell :=
  match c with
  | CStr x => match parse_datetime s x with
              | Some t => CDate t
              | None => CNull
              end
  | CDate t => CDate t
  | _ => CNull
  end.

(** [pd.to_datetime(s, errors='coerce')] *)
Definition to_datetime (s : list Cell) : list Cell :=
  map (to_datetime_cell s) s.

(** [pd.to_numeric(s, errors='coerce')] on one cell *)
Definition to_numeric (c : Cell) : Cell :=
  match c with
  | CStr x => match parse_numeric x with
              | Some q => CNum q
              | None => CNull
              end
  | CNum q => CNum q
  | _ => CNull
  end.

(** [.fillna(0)] on one cell *)
Definition fillna0 (c : Cell) : Cell :=
  match c with
  | CNull => CNum 0%Q
  | _ => c
  end.

(** [.astype('float32')] on one cell *)
Definition astype_float32 (c : Cell) : Cell :=
  match c with
  | CNum q => CNum (float32 q)
  | _ => c
  end.

(** [if c in df.columns: df[c] = pd.to_datetime(df[c], errors='coerce')] *)
Definition coerce_date (c : string) (df : DataFrame) : option DataFrame :=
  if Pandas.has_col df c then
    do s <- Pandas.series df c;
    Some (Pandas.assign df c (to_datetime s))
  else Some df.

(** One round of the loop over [numeric_cols]. *)
Definition coerce_numeric (c : string) (df : DataFrame) : option DataFrame :=
  if Pandas.has_col df c then
    do s <- Pandas.series df c;
    let df' := Pandas.assign df c (map (fun v => fillna0 (to_numeric v)) s) in
    do s' <- Pandas.series df' c;
    Some (Pandas.assign df' c (map astype_float32 s'))
  else Some df.

(** One round of the loop over [string_cols].  The conversion to the
    categorical dtype does not change any value; what can happen is that
    [df[c].dtype] raises (a repeated label) or that
    [df[c].nunique() / len(df)] divides by zero. *)
Definition categorise (c : string) (df : DataFrame) : option DataFrame :=
  if Pandas.has_col df c then
    do _s <- Pandas.series df c;
    if (Pandas.len df =? 0)%nat then None else Some df
  else Some df.

Fixpoint for_each (step : string -> DataFrame -> option DataFrame)
         (cols : list string) (df : DataFrame) : option DataFrame :=
  match cols with
  | [] => Some df
  | c :: cols' => do df' <- step c df; for_each step cols' df'
  end.

(** [df = df[df['converteddate'].notna()]] under its guard. *)
Definition drop_invalid_dates (df : DataFrame) : DataFrame :=
  match Pandas.col_index "converteddate" (columns df) with
  | Some i => Pandas.select (fun r => notna (Pandas.cell_at i r)) df
  | None => df
  end.

(** The statements of the outer [try] after the worksheet loop, up to the
    emptiness test. *)
Definition clean (all_dfs : list DataFrame) : option DataFrame :=
  do df <- Pandas.concat all_dfs;
  do df <- coerce_date "converteddate" df;
  do df <- coerce_date "startdate" df;
  do df <- for_each coerce_numeric numeric_cols df;
  do df <- for_each categorise string_cols df;
  Some (drop_invalid_dates (Pandas.dropna_all df)).

Definition normalize (all_dfs : list DataFrame) : Outcome :=
  match all_dfs with
  | [] => NoData
  | _ =>
      match clean all_dfs with
      | None => Raised
      | Some df => if (Pandas.len df =? 0)%nat then NoData else Loaded df
      end
  end.

(** The frames the worksheet loop collects: a worksheet whose fetch or
    whose frame construction raises is skipped. *)
Definition collect (R : Remote) (names : list string) : list DataFrame :=
  flat_map (fun name =>
              match worksheet R name with
              | Some data => match sheet_frame data with
                             | Some df => [df]
                             | None => []
                             end
              | None => []
              end) names.

(** The outer [try] block: the calls it makes and its outcome. *)
Definition fetch_and_normalize (R : Remote) : list Event * Outcome :=
  match get_google_credentials R with
  | None => ([EvCredentials], Raised)
  | Some _ =>
      if negb (authorize_ok R) then ([EvCredentials; EvAuthorize], Raised)
      else if negb (open_ok R)
      then ([EvCredentials; EvAuthorize; EvOpenByKey SPREADSHEET_ID], Raised)
      else ([EvCredentials; EvAuthorize; EvOpenByKey SPREADSHEET_ID]
              ++ map EvWorksheet WORKSHEET_NAMES,
            normalize (collect R WORKSHEET_NAMES))
  end.

End Normalizer.

(* ================================================================== *)
(** * The cache and the loader *)
(* ================================================================== *)

(** The process state the loader reads and writes: the frames allocated so
    far (a frame object is named by its position in [heap]), the two
    module-level cache variables, and the calls made to the outside. *)
Record World : Type := mkWorld {
  heap : list DataFrame;
  DATA_CACHE : option nat;
  CACHE_TIMESTAMP : option Q;
  calls : list Event
}.

(** State at import time. *)
Definition initial_world : World := mkWorld [] None None [].

(** The frame an object reference denotes. *)
Definition deref (w : World) (r : nat) : DataFrame := nth r (heap w) EMPTY_SCHEMA.

(** A new frame object; the reference returned is fresh. *)
Definition alloc (df : DataFrame) (w : World) : nat * World :=
  (List.length (heap w),
   mkWorld (heap w ++ [df]) (DATA_CACHE w) (CACHE_TIMESTAMP w) (calls w)).

(** [obj.copy()] *)
Definition copy (r : nat) (w : World) : nat * World := alloc (deref w r) w.

(** A caller mutating the frame object [r] in place. *)
Fixpoint set_frame (r : nat) (df : DataFrame) (h : list DataFrame) : list DataFrame :=
  match r, h with
  | _, [] => []
  | O, _ :: h' => df :: h'
  | S r', x :: h' => x :: set_frame r' df h'
  end.

Definition mutate (r : nat) (df : DataFrame) (w : World) : World :=
  mkWorld (set_frame r df (heap w)) (DATA_CACHE w) (CACHE_TIMESTAMP w) (calls w).

Definition Qltb (x y : Q) : bool := negb (Qle_bool y x).

(** The cache test at the top of the loader: the cached object when it is
    to be served. *)
Definition cache_hit (force_refresh : bool) (current_time : Q) (w : World)
  : option nat :=
  if negb force_refresh then
    match DATA_CACHE w, CACHE_TIMESTAMP w with
    | Some r, Some ts =>
        if Qltb (current_time - ts)%Q CACHE_DURATION then Some r else None
    | _, _ => None
    end
  else None.

Section Loader.

Context {P : Parsers}.

(** The state a miss leaves before the result is built: the calls of the
    attempt recorded, nothing else touched. *)
Definition attempted (R : Remote) (w : World) : World :=
  mkWorld (heap w) (DATA_CACHE w) (CACHE_TIMESTAMP w)
          (calls w ++ fst (fetch_and_normalize R)).

(** [load_data_from_sheets(force_refresh)], called when the clock reads
    [current_time] and the outside answers as [R]: the object returned
    and the state left behind. *)
Definition load_data_from_sheets (force_refresh : bool) (current_time : Q)
           (R : Remote) (w : World) : nat * World :=
  match cache_hit force_refresh current_time w with
  | Some r => copy r w
  | None =>
      let (evs, out) := fetch_and_normalize R in
      let w1 := mkWorld (heap w) (DATA_CACHE w) (CACHE_TIMESTAMP w)
                        (calls w ++ evs) in
      match out with
      | Loaded df =>
          let (r_df, w2) := alloc df w1 in
          let (r_cache, w3) := copy r_df w2 in
          (r_df, mkWorld (heap w3) (Some r_cache) (Some current_time) (calls w3))
      | NoData | Raised => alloc EMPTY_SCHEMA w1
      end
  end.

End Loader.

(** Number of fetch attempts recorded: every attempt starts by asking for
    the credentials. *)
Definition fetch_count (w : World) : nat :=
  List.length (filter (fun e => match e with
                                | EvCredentials => true
                                | _ => false
                                end) (calls w)).

(** The cache variable names an allocated object. *)
Definition cache_allocated (w : World) : Prop :=
  match DATA_CACHE w with
  | Some r => (r < List.length (heap w))%nat
  | None => True
  end.

(** ** Properties of tables *)

(** Every row has one cell per column. *)
Definition rectangular (df : DataFrame) : Prop :=
  Forall (fun r => List.length r = List.length (columns df)) (rows df).

Definition is_date (c : Cell) : Prop := exists t, c = CDate t.
Definition is_number (c : Cell) : Prop := exists x, c = CNum x.

(** The invariant of a normalised table, for the columns it has: the
    converted date of every row is a timestamp, and so is every cell of a
    numeric column a number. *)
Definition dates_valid (df : DataFrame) : Prop :=
  forall i, Pandas.col_index "converteddate" (columns df) = Some i ->
            Forall (fun r => is_date (Pandas.cell_at i r)) (rows df).

Definition numbers_valid (df : DataFrame) : Prop :=
  forall c i, In c numeric_cols ->
              Pandas.col_index c (columns df) = Some i ->
              Forall (fun r => is_number (Pandas.cell_at i r)) (rows df).

Definition normalized (df : DataFrame) : Prop :=
  dates_valid df /\ numbers_valid df.

(** Every cell of column [c], if the frame has it, satisfies [Q]. *)
Definition col_all (df : DataFrame) (c : string) (Q : Cell -> Prop) : Prop :=
  forall i, Pandas.col_index c (columns df) = Some i ->
            Forall (fun r => Q (Pandas.cell_at i r)) (rows df).

Definition date_or_null (c : Cell) : Prop := is_date c \/ c = CNull.

(** What a coercion step keeps: the labels, the shape, and every
    column other than the one it rewrites. *)
Definition keeps (c : string) (df df' : DataFrame) : Prop :=
  columns df' = columns df
  /\ rectangular df'
  /\ forall d Q, d <> c -> col_all df d Q -> col_all df' d Q.

(** The same two requirements read without the proviso: every row has a
    converted date that is a timestamp, and a number in every designated
    numeric field. *)
Definition every_record_dated (df : DataFrame) : Prop :=
  Forall (fun r => exists t, Pandas.cell df "converteddate" r = Some (CDate t))
         (rows df).

Definition every_record_numeric (df : DataFrame) : Prop :=
  forall c, In c numeric_cols ->
            Forall (fun r => exists x, Pandas.cell df c r = Some (CNum x)) (rows df).

Section Reachable.

Context {P : Parsers}.

(** States the process can be in: the state at import time, and any
    state a call of the loader leaves behind. *)
Inductive reachable : World -> Prop :=
| reachable_initial : reachable initial_world
| reachable_load : forall force_refresh current_time R w,
    reachable w ->
    reachable (snd (load_data_from_sheets force_refresh current_time R w)).

End Reachable.

(* ================================================================== *)
(** * The filter stage of [update_dashboard] *)
(* ================================================================== *)

(** The callback's inputs.  The two dates arrive as ISO date strings and
    pandas turns them into timestamps for the comparisons; they are held
    here as those timestamps.  A dropdown value is a list or [None]. *)
Record Selection : Type := mkSelection {
  start_date : Z;
  end_date : Z;
  batch_filter : option (list string);
  exam_filter : option (list string);
  plan_filter : option (list string)
}.

(** [f and len(f) > 0] *)
Definition truthy (f : option (list string)) : bool :=
  match f with
  | Some (_ :: _) => true
  | _ => false
  end.

Definition values_of (f : option (list string)) : list string :=
  match f with
  | Some l => l
  | None => []
  end.

(** One element of [series.isin(values)] *)
Definition isin (values : list string) (c : Cell) : bool :=
  match c with
  | CStr s => existsb (String.eqb s) values
  | _ => false
  end.

(** One element of [series >= t] and of [series <= t] on a datetime
    column; a comparison with the missing value is false. *)
Definition date_ge (c : Cell) (t : Z) : bool :=
  match c with
  | CDate d => (t <=? d)%Z
  | _ => false
  end.

Definition date_le (c : Cell) (t : Z) : bool :=
  match c with
  | CDate d => (d <=? t)%Z
  | _ => false
  end.

(** The date step, under its guard ['converteddate' in df.columns]. *)
Definition filter_dates (s e : Z) (df : DataFrame) : DataFrame :=
  match Pandas.col_index "converteddate" (columns df) with
  | Some i =>
      Pandas.select (fun r => date_ge (Pandas.cell_at i r) s
                              && date_le (Pandas.cell_at i r) e) df
  | None => df
  end.

(** A membership step, under its guard
    [f and len(f) > 0 and col in df.columns]. *)
Definition filter_isin (col : string) (f : option (list string))
           (df : DataFrame) : DataFrame :=
  if truthy f then
    match Pandas.col_index col (columns df) with
    | Some i => Pandas.select (fun r => isin (values_of f) (Pandas.cell_at i r)) df
    | None => df
    end
  else df.

(** [filtered_df] *)
Definition filter_data (df : DataFrame) (S : Selection) : DataFrame :=
  filter_isin "plan" (plan_filter S)
    (filter_isin "Exam_2" (exam_filter S)
       (filter_isin "name" (batch_filter S)
          (filter_dates (start_date S) (end_date S) df))).

(** The selection the specification calls [combine(S1, S2)]: the date
    ranges intersected, and in each dimension the two sets intersected when
    both are non-empty, an empty set standing for no restriction.  It is
    not part of the program. *)
Definition combine_dimension (a b : option (list string)) : option (list string) :=
  if truthy a then
    if truthy b
    then Some (filter (fun x => existsb (String.eqb x) (values_of b)) (values_of a))
    else a
  else b.

Definition combine_selections (S1 S2 : Selection) : Selection :=
  mkSelection (Z.max (start_date S1) (start_date S2))
              (Z.min (end_date S1) (end_date S2))
              (combine_dimension (batch_filter S1) (batch_filter S2))
              (combine_dimension (exam_filter S1) (exam_filter S2))
              (combine_dimension (plan_filter S1) (plan_filter S2)).

(** ** The filter as a row predicate *)

(** What the date step asks of a row of a table with labels [cols]. *)
Definition date_pred (cols : list string) (s e : Z) (r : Row) : bool :=
  match Pandas.col_index "converteddate" cols with
  | Some i => date_ge (Pandas.cell_at i r) s && date_le (Pandas.cell_at i r) e
  | None => true
  end.

(** What a membership step asks of a row. *)
Definition dim_pred (cols : list string) (col : string)
           (f : option (list string)) (r : Row) : bool :=
  if truthy f then
    match Pandas.col_index col cols with
    | Some i => isin (values_of f) (Pandas.cell_at i r)
    | None => true
    end
  else true.

(** The conjunction over the four dimensions. *)
Definition row_pred (cols : list string) (S : Selection) (r : Row) : bool :=
  date_pred cols (start_date S) (end_date S) r
  && dim_pred cols "name" (batch_filter S) r
  && dim_pred cols "Exam_2" (exam_filter S) r
  && dim_pred cols "plan" (plan_filter S) r.

(** Two sets of one dimension can be combined: when both name values,
    they have one in common. *)
Definition compatible_dimension (a b : option (list string)) : Prop :=
  truthy a = true -> truthy b = true -> truthy (combine_dimension a b) = true.

(* ================================================================== *)
(** * Grouping and sorting *)
(* ================================================================== *)

Section GroupBy.

Variables (K : Type) (eqb leb : K -> K -> bool).

(** Distinct values, in order of first appearance. *)
Fixpoint dedupe (l : list K) : list K :=
  match l with
  | [] => []
  | x :: l' => x :: filter (fun y => negb (eqb x y)) (dedupe l')
  end.

Fixpoint insert (x : K) (l : list K) : list K :=
  match l with
  | [] => [x]
  | y :: l' => if leb x y then x :: l else y :: insert x l'
  end.

(** Ascending for the order [leb]. *)
Definition sort (l : list K) : list K := fold_right insert [] l.

Variable key : Row -> option K.

Definition keys_of (rs : list Row) : list K :=
  flat_map (fun r => match key r with
                     | Some k => [k]
                     | None => []
                     end) rs.

Definition has_key (k : K) (r : Row) : bool :=
  match key r with
  | Some k' => eqb k' k
  | None => false
  end.

(** The row has a key: its cell in the grouping column is not missing. *)
Definition keyed (r : Row) : bool :=
  match key r with
  | Some _ => true
  | None => false
  end.

(** The distinct keys, ascending. *)
Definition group_keys (rs : list Row) : list K :=
  sort (dedupe (keys_of rs)).

(** [df.groupby(col)]: one group per distinct value of the key, groups in
    ascending key order; rows whose key is missing belong to no group. *)
Definition groupby (rs : list Row) : list (K * list Row) :=
  map (fun k => (k, filter (has_key k) rs)) (group_keys rs).

End GroupBy.

Definition str_key (i : nat) (r : Row) : option string :=
  match Pandas.cell_at i r with
  | CStr s => Some s
  | _ => None
  end.

Definition date_key (i : nat) (r : Row) : option Z :=
  match Pandas.cell_at i r with
  | CDate t => Some t
  | _ => None
  end.

Definition groupby_str (i : nat) (rs : list Row) : list (string * list Row) :=
  groupby String.eqb String.leb (str_key i) rs.

Definition groupby_date (i : nat) (rs : list Row) : list (Z * list Row) :=
  groupby Z.eqb Z.leb (date_key i) rs.

(** The number [Series.sum()] takes for a cell of a column of numbers: a
    missing value is replaced by 0 before the values are added. *)
Definition num_of (c : Cell) : Q :=
  match c with
  | CNum x => x
  | _ => 0%Q
  end.

(** The values [Series.sum()] adds up for the column at position [i]. *)
Definition values_fill0 (i : nat) (rs : list Row) : list Q :=
  map (fun r => num_of (Pandas.cell_at i r)) rs.

(** The values [GroupBy.sum()] adds up for the column at position [i]:
    missing values are skipped. *)
Definition values_skipna (i : nat) (rs : list Row) : list Q :=
  flat_map (fun r => match Pandas.cell_at i r with
                     | CNum x => [x]
                     | _ => []
                     end) rs.

(** [GroupBy.first]: the first value of the group that is not missing. *)
Definition first_at (i : nat) (rs : list Row) : Cell :=
  match filter notna (map (Pandas.cell_at i) rs) with
  | c :: _ => c
  | [] => CNull
  end.

(* ================================================================== *)
(** * Calendar dates *)
(* ================================================================== *)

Module Calendar.

Local Open Scope Z_scope.

Definition NS_PER_DAY : Z := 86400000000000.

(** [pd.Timedelta(days=n)] *)
Definition days (n : Z) : Z := n * NS_PER_DAY.

(** Days since the epoch of the calendar date a timestamp falls on. *)
Definition day_number (t : Z) : Z := t / NS_PER_DAY.

(** Year, month and day of a day number (proleptic Gregorian). *)
Definition civil (z0 : Z) : Z * Z * Z :=
  let z := z0 + 719468 in
  let era := z / 146097 in
  let doe := z - era * 146097 in
  let yoe := (doe - doe / 1460 + doe / 36524 - doe / 146096) / 365 in
  let doy := doe - (365 * yoe + yoe / 4 - yoe / 100) in
  let mp := (5 * doy + 2) / 153 in
  let d := doy - (153 * mp + 2) / 5 + 1 in
  let m := if mp <? 10 then mp + 3 else mp - 9 in
  let y := yoe + era * 400 + (if m <=? 2 then 1 else 0) in
  (y, m, d).

Definition month_abbr (m : Z) : string :=
  nth (Z.to_nat (m - 1))
      ["Jan"; "Feb"; "Mar"; "Apr"; "May"; "Jun";
       "Jul"; "Aug"; "Sep"; "Oct"; "Nov"; "Dec"] EmptyString.

(** [t.strftime('%d %b %Y')] *)
Definition strftime_d_b_Y (t : Z) : string :=
  let '(y, m, d) := civil (day_number t) in
  (PyStr.zfill 2 (PyStr.str_nat (Z.to_nat d)) ++ " " ++ month_abbr m ++ " "
     ++ PyStr.zfill 4 (PyStr.str_nat (Z.to_nat y)))%string.

End Calendar.

(* ================================================================== *)
(** * Aggregates of [update_dashboard] *)
(* ================================================================== *)

(** What the block that builds a figure comes to. *)
Inductive FigureResult (A : Type) : Type :=
| FigureRaised            (** a statement of the block raises *)
| NoFigure                (** the "No data available" figure *)
| Figure (x : A).

Arguments FigureRaised {A}.
Arguments NoFigure {A}.

(** The literal [10000000] every revenue figure is divided by. *)
Definition CRORE : Q := 10000000.

Section Aggregates.

Context {Num : Numeric}.

(** [rows[col].sum()] for the column of type [t] at position [i]. *)
Definition sum_at (t : Dtype) (i : nat) (rs : list Row) : Q :=
  series_sum t (values_fill0 i rs).

(** The sum [groupby(...)[col].sum()] or [agg({col: 'sum'})] gives the
    group [rs] for the column of type [t] at position [i]. *)
Definition group_sum_at (t : Dtype) (i : nat) (rs : list Row) : Q :=
  group_sum t (values_skipna i rs).

(** [total_enrollment = len(filtered_df)] *)
Definition total_enrollment (fdf : DataFrame) : nat := Pandas.len fdf.

(** [last_7_days_df] *)
Definition last_7_days_df (e : Z) (fdf : DataFrame) : DataFrame :=
  match Pandas.col_index "converteddate" (columns fdf) with
  | Some i =>
      Pandas.select
        (fun r => date_ge (Pandas.cell_at i r) (e - Calendar.days 7)%Z) fdf
  | None => fdf
  end.

(** [total_revenue] *)
Definition total_revenue (fdf : DataFrame) : Q :=
  match Pandas.col_index "net_amount" (columns fdf) with
  | Some i => sum_at Float32 i (rows fdf)
  | None => 0%Q
  end.

(** [total_revenue_cr]; without a "net_amount" column it is the integer 0
    divided by 10000000, that is 0.0. *)
Definition total_revenue_cr (fdf : DataFrame) : Q :=
  match Pandas.col_index "net_amount" (columns fdf) with
  | Some _ => scalar_divide (total_revenue fdf) CRORE
  | None => 0%Q
  end.

(** A row of [last_7_trend]. *)
Record TrendPoint : Type := mkTrendPoint {
  converteddate : Z;
  count : nat;
  date_display : string
}.

(** [last_7_trend].  [datetimelike] tells whether the "converteddate"
    column has a datetime type.  It has one in every table the loader
    built from worksheets ([pd.to_datetime], line 132) and in every
    selection of rows of such a table; in the empty table of the fixed
    schema the column has the object type, and [.dt] raises on it. *)
Definition last_7_trend (datetimelike : bool) (e : Z) (fdf : DataFrame)
  : FigureResult (list TrendPoint) :=
  let l7 := last_7_days_df e fdf in
  match Pandas.col_index "converteddate" (columns l7) with
  | Some i =>
      if datetimelike then
        Figure (map (fun g => mkTrendPoint (fst g) (List.length (snd g))
                                           (Calendar.strftime_d_b_Y (fst g)))
                    (groupby_date i (rows l7)))
      else FigureRaised
  | None => NoFigure
  end.



(** [.sort_values(ascending=False)] on (label, value) pairs.  The order
    pandas leaves between equal values is not specified; the order here is
    one of those it may produce. *)
Definition sort_desc_Q (l : list (string * Q)) : list (string * Q) :=
  sort (fun a b => Qle_bool (snd b) (snd a)) l.

(** [revenue_by_exam], before scaling *)
Definition revenue_by_exam (fdf : DataFrame) : option (list (string * Q)) :=
  match Pandas.col_index "Exam_2" (columns fdf),
        Pandas.col_index "net_amount" (columns fdf) with
  | Some i, Some j =>
      Some (firstn 10
              (sort_desc_Q
                 (map (fun g => (fst g, group_sum_at Float32 j (snd g)))
                      (groupby_str i (rows fdf)))))
  | _, _ => None
  end.

(** [revenue_by_exam_cr] *)
Definition revenue_by_exam_cr (fdf : DataFrame) : option (list (string * Q)) :=
  option_map (map (fun p => (fst p, true_divide Float32 (snd p) CRORE)))
             (revenue_by_exam fdf).

(** ** Rows a figure stands for *)

(** The row's converted date is the timestamp [t]. *)
Definition dated (df : DataFrame) (t : Z) (r : Row) : bool :=
  match Pandas.col_index "converteddate" (columns df) with
  | Some i => match Pandas.cell_at i r with
              | CDate d => Z.eqb d t
              | _ => false
              end
  | None => false
  end.

(** The row's cell under label [c] is the string [s]. *)
Definition labelled (df : DataFrame) (c s : string) (r : Row) : bool :=
  match Pandas.col_index c (columns df) with
  | Some i => match Pandas.cell_at i r with
              | CStr x => String.eqb x s
              | _ => false
              end
  | None => false
  end.

(** ** The batch table *)

(** Columns of the table shown: "Batch Name", "Exam Category",
    "Total Revenue (Rs Cr)", "Order Types", "Leader", "Total Enrollments". *)
Inductive TableColumn : Type :=
| BatchName | ExamCategory | TotalRevenueCr | OrderTypes | Leader
| TotalEnrollments.

Record SummaryRow : Type := mkSummaryRow {
  batch_name : string;
  exam_category : Cell;
  revenue_cr : option Q;
  order_types : option string;
  leader : option Cell;
  total_enrollments : nat
}.

(** A cell of the footer row: a text, the total count (printed with
    thousands separators), or the total revenue (printed with two
    decimals and the unit). *)
Inductive FooterCell : Type :=
| FText (s : string)
| FCount (n : nat)
| FRevenueCr (x : Q).

Record BatchTable : Type := mkBatchTable {
  table_columns : list TableColumn;
  table_rows : list SummaryRow;
  footer_cells : list FooterCell;
  (** the two numbers of the line under the table:
      "Showing <n> batches with total of <m> enrollments" *)
  caption_batches : nat;
  caption_enrollments : nat
}.

Inductive TableResult : Type :=
| TableRaised             (** [agg] raises: no "Exam_2" column *)
| NoTable                 (** "No data available": no "name" column *)
| Table (t : BatchTable).

Definition count_eq (i : nat) (v : string) (rs : list Row) : nat :=
  List.length (filter (fun r => match Pandas.cell_at i r with
                                | CStr s => String.eqb s v
                                | _ => false
                                end) rs).

(** The [order_type] aggregation of the table. *)
Definition order_type_tally (i : nat) (rs : list Row) : string :=
  (PyStr.str_nat (count_eq i "PRIMARY" rs) ++ " Primary, "
     ++ PyStr.str_nat (count_eq i "UPGRADE" rs) ++ " Upgrade")%string.

(** [filtered_df.groupby('name').size()] *)
Definition enrollment_counts (i : nat) (rs : list Row) : list (string * nat) :=
  map (fun g => (fst g, List.length (snd g))) (groupby_str i rs).

(** The count [merge(..., on='name', how='left')] attaches to batch [k]. *)
Definition merged_count (counts : list (string * nat)) (k : string) : nat :=
  match find (fun p => String.eqb (fst p) k) counts with
  | Some p => snd p
  | None => 0
  end.

Definition sort_rows_desc (l : list SummaryRow) : list SummaryRow :=
  sort (fun a b => (total_enrollments b <=? total_enrollments a)%nat) l.

Definition opt_list {A : Type} (o : option nat) (x : A) : list A :=
  match o with
  | Some _ => [x]
  | None => []
  end.

Definition footer_cell (total : nat) (revenue : Q) (col : TableColumn) : FooterCell :=
  match col with
  | BatchName => FText "TOTAL"
  | TotalEnrollments => FCount total
  | TotalRevenueCr => FRevenueCr revenue
  | _ => FText EmptyString
  end.

(** The table built once the "name" and "Exam_2" columns are found, at
    positions [iname] and [iexam].  With a categorical "name" column
    pandas may add a row of count zero for a batch that has no row left;
    such rows are not modelled. *)
Definition summary_table (iname iexam : nat) (fdf : DataFrame) : BatchTable :=
  let cols := columns fdf in
  let inet := Pandas.col_index "net_amount" cols in
  let iorder := Pandas.col_index "order_type" cols in
  let ileader := Pandas.col_index "leader_fin" cols in
  let counts := enrollment_counts iname (rows fdf) in
  let table_df :=
    map (fun g =>
           mkSummaryRow
             (fst g)
             (first_at iexam (snd g))
             (option_map
                (fun j => true_divide Float32
                            (group_sum_at Float32 j (snd g)) CRORE) inet)
             (option_map (fun j => order_type_tally j (snd g)) iorder)
             (option_map (fun j => first_at j (snd g)) ileader)
             (merged_count counts (fst g)))
        (groupby_str iname (rows fdf)) in
  let table_df := sort_rows_desc table_df in
  let shown :=
    [BatchName; ExamCategory] ++ opt_list inet TotalRevenueCr
      ++ opt_list iorder OrderTypes ++ opt_list ileader Leader
      ++ [TotalEnrollments] in
  let total_enrollments_sum := list_sum (map total_enrollments table_df) in
  let total_revenue_sum := total_revenue_cr fdf in
  mkBatchTable shown table_df
    (map (footer_cell total_enrollments_sum total_revenue_sum) shown)
    (List.length table_df) (Pandas.len fdf).

(** The "Data Table" part of [update_dashboard]. *)
Definition batch_table (fdf : DataFrame) : TableResult :=
  match Pandas.col_index "name" (columns fdf) with
  | None => NoTable
  | Some iname =>
      match Pandas.col_index "Exam_2" (columns fdf) with
      | None => TableRaised
      | Some iexam => Table (summary_table iname iexam fdf)
      end
  end.

(** ** The batch summary export *)

(** Columns of the exported sheet: "Batch Name", "Total Enrollments",
    "Exam Category", "Total Revenue (Rs Cr)", "Primary Orders",
    "Upgrade Orders", "Leader". *)
Inductive ExportColumn : Type :=
| XBatchName | XTotalEnrollments | XExamCategory | XTotalRevenueCr
| XPrimaryOrders | XUpgradeOrders | XLeader.

Record ExportRow : Type := mkExportRow {
  x_batch_name : string;
  x_total_enrollments : nat;
  x_exam_category : option Cell;
  x_revenue_cr : option Q;
  x_primary_orders : option nat;
  x_upgrade_orders : option nat;
  x_leader : option Cell
}.

Inductive ExportCell : Type :=
| XText (s : string)
| XCount (n : nat)
| XRevenue (x : Q).

Record ExportSheet : Type := mkExportSheet {
  export_columns : list ExportColumn;
  export_rows : list ExportRow;
  total_row : list ExportCell
}.

Definition sort_export_desc (l : list ExportRow) : list ExportRow :=
  sort (fun a b => (x_total_enrollments b <=? x_total_enrollments a)%nat) l.

Definition opt_nat_sum (l : list (option nat)) : nat :=
  list_sum (map (fun o => match o with
                          | Some n => n
                          | None => 0
                          end) l).

(** The sum of the revenue column of the sheet, a [float64] column. *)
Definition opt_Q_sum (l : list (option Q)) : Q :=
  series_sum Float64 (map (fun o => match o with
                                    | Some x => x
                                    | None => 0%Q
                                    end) l).

Definition total_cell (rs : list ExportRow) (col : ExportColumn) : ExportCell :=
  match col with
  | XBatchName => XText "TOTAL"
  | XTotalEnrollments => XCount (list_sum (map x_total_enrollments rs))
  | XTotalRevenueCr => XRevenue (opt_Q_sum (map x_revenue_cr rs))
  | XPrimaryOrders => XCount (opt_nat_sum (map x_primary_orders rs))
  | XUpgradeOrders => XCount (opt_nat_sum (map x_upgrade_orders rs))
  | _ => XText EmptyString
  end.

(** The sheet built once the "name" column is found at position
    [iname]; [t] is the type [pd.read_json] gave the "net_amount" column
    of the stored table. *)
Definition export_sheet (t : Dtype) (iname : nat) (fdf : DataFrame)
  : ExportSheet :=
  let cols := columns fdf in
  let iexam := Pandas.col_index "Exam_2" cols in
  let inet := Pandas.col_index "net_amount" cols in
  let iorder := Pandas.col_index "order_type" cols in
  let ileader := Pandas.col_index "leader_fin" cols in
  let counts := enrollment_counts iname (rows fdf) in
  let export_df :=
    map (fun g =>
           mkExportRow
             (fst g)
             (merged_count counts (fst g))
             (option_map (fun j => first_at j (snd g)) iexam)
             (option_map
                (fun j => true_divide t (group_sum_at t j (snd g)) CRORE) inet)
             (option_map (fun j => count_eq j "PRIMARY" (snd g)) iorder)
             (option_map (fun j => count_eq j "UPGRADE" (snd g)) iorder)
             (option_map (fun j => first_at j (snd g)) ileader))
        (groupby_str iname (rows fdf)) in
  let export_df := sort_export_desc export_df in
  let shown :=
    [XBatchName; XTotalEnrollments] ++ opt_list iexam XExamCategory
      ++ opt_list inet XTotalRevenueCr
      ++ opt_list iorder XPrimaryOrders ++ opt_list iorder XUpgradeOrders
      ++ opt_list ileader XLeader in
  mkExportSheet shown export_df (map (total_cell export_df) shown).

(** The batch-summary branch of [export_table], on the table the filtered
    data store holds ([None]: there is no "name" column, the branch is not
    taken; [Some None]: [agg] raises on an empty [agg_dict]). *)
Definition export_table (t : Dtype) (fdf : DataFrame)
  : option (option ExportSheet) :=
  let cols := columns fdf in
  match Pandas.col_index "name" cols with
  | None => None
  | Some iname =>
      match Pandas.col_index "Exam_2" cols,
            Pandas.col_index "net_amount" cols,
            Pandas.col_index "leader_fin" cols with
      | None, None, None => Some None
      | _, _, _ => Some (Some (export_sheet t iname fdf))
      end
  end.

End Aggregates.

(* ================================================================== *)
(** * The figures as the specification words them *)
(* ================================================================== *)

Module Spec.




End Spec.

(* ================================================================== *)
(** * Reference parsers *)
(* ================================================================== *)

(** Parsers for the texts the examples below use: ISO dates
    ("2024-01-05", "2024-01-05 09:00:00"), all texts of a column in the
    format of the first, and unsigned decimal integers.  On these texts
    they agree with pandas; any other text is unparsable for them. *)
Module Reference.

Fixpoint parse_digits (s : string) (acc : nat) : option nat :=
  match s with
  | EmptyString => Some acc
  | String c s' =>
      let n := PyStr.ord c in
      if (48 <=? n)%nat && (n <=? 57)%nat
      then parse_digits s' (10 * acc + (n - 48))%nat
      else None
  end.

Definition parse_nat (s : string) : option nat :=
  match s with
  | EmptyString => None
  | _ => parse_digits s 0%nat
  end.

Local Open Scope Z_scope.

Definition days_from_civil (y m d : Z) : Z :=
  let y' := if m <=? 2 then y - 1 else y in
  let era := y' / 400 in
  let yoe := y' - era * 400 in
  let doy := (153 * (if 2 <? m then m - 3 else m + 9) + 2) / 5 + d - 1 in
  let doe := yoe * 365 + yoe / 4 - yoe / 100 + doy in
  era * 146097 + doe - 719468.

Definition field (s : string) (start len : nat) : option Z :=
  option_map Z.of_nat (parse_nat (substring start len s)).

Definition leap_year (y : Z) : bool :=
  ((y mod 4 =? 0) && negb (y mod 100 =? 0)) || (y mod 400 =? 0).

Definition days_in_month (y m : Z) : Z :=
  if m =? 2 then (if leap_year y then 29 else 28)
  else if (m =? 4) || (m =? 6) || (m =? 9) || (m =? 11) then 30
  else 31.

Definition parse_iso (s : string) : option Z :=
  let date :=
    match field s 0%nat 4%nat, field s 5%nat 2%nat, field s 8%nat 2%nat with
    | Some y, Some m, Some d =>
        if String.eqb (substring 4%nat 1%nat s) "-" && String.eqb (substring 7%nat 1%nat s) "-"
           && (1 <=? m) && (m <=? 12) && (1 <=? d) && (d <=? days_in_month y m)
        then Some (days_from_civil y m d * Calendar.NS_PER_DAY)
        else None
    | _, _, _ => None
    end in
  if (String.length s =? 10)%nat then date
  else if (String.length s =? 19)%nat then
    match date, field s 11%nat 2%nat, field s 14%nat 2%nat, field s 17%nat 2%nat with
    | Some t, Some hh, Some mm, Some ss =>
        if String.eqb (substring 10%nat 1%nat s) " " && String.eqb (substring 13%nat 1%nat s) ":"
           && String.eqb (substring 16%nat 1%nat s) ":"
           && (hh <? 24) && (mm <? 60) && (ss <? 60)
        then Some (t + ((hh * 60 + mm) * 60 + ss) * 1000000000)
        else None
    | _, _, _, _ => None
    end
  else None.

Definition parse_number (s : string) : option Q :=
  option_map (fun n => inject_Z (Z.of_nat n)) (parse_nat s).

(** The format [pd.to_datetime] infers for a column: that of its first
    text, when that text is a date (its length tells the two formats
    apart). *)
Definition column_format (col : list Cell) : option nat :=
  match filter (fun c => match c with
                         | CStr _ => true
                         | _ => false
                         end) col with
  | CStr s :: _ => match parse_iso s with
                   | Some _ => Some (String.length s)
                   | None => None
                   end
  | _ => None
  end.

(** A text of the column is read in the format of the column; when no
    format can be inferred, each text is read on its own. *)
Definition parse_in_column (col : list Cell) (s : string) : option Z :=
  match column_format col with
  | Some n => if (String.length s =? n)%nat then parse_iso s else None
  | None => parse_iso s
  end.

#[export] Instance parsers : Parsers := {
  parse_datetime := parse_in_column;
  parse_numeric := parse_number;
  float32 := fun x => x
}.

(** Exact arithmetic: what the library computes when no rounding
    occurs. *)
#[export] Instance numeric : Numeric := {
  series_sum := fun _ l => fold_right Qplus 0%Q l;
  group_sum := fun _ l => fold_right Qplus 0%Q l;
  true_divide := fun _ x y => (x / y)%Q;
  scalar_divide := fun x y => (x / y)%Q;
  true_divide_monotone :=
    fun _ x y c Hc Hxy =>
      Qmult_le_compat_r x y (/ c) Hxy
        (Qlt_le_weak _ _ (Qinv_lt_0_compat c Hc))
}.

End Reference.

(* ================================================================== *)
(** * Scenarios *)
(* ================================================================== *)

(** Concrete inputs, read with the reference parsers. *)
Module Scenario.

Import Reference.

(** Two worksheets.  The first has its header on the first row and three
    rows, two of them on the same day at different times.  The second has
    a line of metadata above its header, no batch column, and two rows,
    one with a date that does not parse. *)
Definition two_sheets : Remote :=
  mkRemote None false true true true true
    (fun name =>
       if String.eqb name "Foundation Data" then
         Some [["_id"; "name"; "converteddate"; "net_amount"];
               ["1"; "A"; "2024-01-05 09:00:00"; "100"];
               ["2"; "A"; "2024-01-05 17:00:00"; "200"];
               ["3"; "B"; "2024-01-04 00:00:00"; "0"]]
       else if String.eqb name "CUET UG Data" then
         Some [["Report"; "x"; "y"];
               ["_id"; "converteddate"; "Exam_2"];
               ["4"; "2024-01-03 00:00:00"; "CUET"];
               ["5"; "not a date"; "CUET"]]
       else None).

(** One worksheet that lists batch names and nothing else. *)
Definition names_only : Remote :=
  mkRemote None false true true true true
    (fun name =>
       if String.eqb name "Foundation Data" then Some [["name"]; ["A"]]
       else None).

(** No credentials: neither the environment variable nor the file. *)
Definition outage : Remote :=
  mkRemote None false false false true true (fun _ => None).

(** The state after a first successful load of [names_only] at time
    1000. *)
Definition warm : World :=
  snd (load_data_from_sheets false 1000%Q names_only initial_world).

(** The table loaded from [two_sheets]. *)
Definition enrollments : DataFrame :=
  mkDataFrame
    ["_id"; "name"; "converteddate"; "net_amount"; "Exam_2"]
    [[CStr "1"; CStr "A"; CDate 1704445200000000000; CNum 100%Q; CNull];
     [CStr "2"; CStr "A"; CDate 1704474000000000000; CNum 200%Q; CNull];
     [CStr "3"; CStr "B"; CDate 1704326400000000000; CNum 0%Q; CNull];
     [CStr "4"; CNull; CDate 1704240000000000000; CNum 0%Q; CStr "CUET"]].

(** 1 to 6 January 2024, no other restriction. *)
Definition first_week : Selection :=
  mkSelection 1704067200000000000 1704499200000000000 None (Some []) None.

(** A one-row table and two selections that name different batches. *)
Definition one_batch : DataFrame := mkDataFrame ["name"] [[CStr "A"]].

Definition only_A : Selection := mkSelection 0 10 (Some ["A"]) None None.
Definition only_B : Selection := mkSelection 0 10 (Some ["B"]) None None.
Definition A_or_B : Selection := mkSelection 0 10 (Some ["A"; "B"]) None None.

End Scenario.

(* ================================================================== *)
(** * Stripped labels *)
(* ================================================================== *)

(** The string is empty or starts with a character that is not white
    space. *)
Definition head_kept (s : string) : Prop :=
  match s with
  | EmptyString => True
  | String c _ => PyStr.is_space c = false
  end.

(** The string is empty or ends with a character that is not white
    space. *)
Fixpoint last_kept (s : string) : Prop :=
  match s with
  | EmptyString => True
  | String c EmptyString => PyStr.is_space c = false
  | String _ s' => last_kept s'
  end.

(** In every row the cells under the labels [a] and [b] exist and are
    the same. *)
Definition same_cells (df : DataFrame) (a b : string) : Prop :=
  Forall (fun r => exists v, Pandas.cell df a r = Some v
                             /\ Pandas.cell df b r = Some v)
         (rows df).

(** [df] with one more column, labelled [dst], holding in each row the
    cell at position [i]. *)
Definition with_copy (df : DataFrame) (i : nat) (dst : string) : DataFrame :=
  mkDataFrame (columns df ++ [dst])
              (map (fun r => r ++ [Pandas.cell_at i r]) (rows df)).

(** What a step that leaves the frame alone or adds a copied column
    keeps. *)
Definition grows (df df' : DataFrame) : Prop :=
  rectangular df'
  /\ Pandas.len df' = Pandas.len df
  /\ (exists added, columns df' = columns df ++ added)
  /\ (forall a b, same_cells df a b -> same_cells df' a b).

(* ================================================================== *)
(** * The options of the three check lists *)
(* ================================================================== *)

Definition is_str (c : Cell) : bool :=
  match c with
  | CStr _ => true
  | _ => false
  end.

Definition strings_of (cells : list Cell) : list string :=
  flat_map (fun c => match c with
                     | CStr s => [s]
                     | _ => []
                     end) cells.

(** What a column of labels holds: the text of a sheet cell, or the
    missing value. *)
Definition is_label (c : Cell) : bool :=
  match c with
  | CStr _ | CNull => true
  | _ => false
  end.

(** At most one column carries the label [c], and it is a column of
    labels. *)
Definition label_column (df : DataFrame) (c : string) : Prop :=
  (Pandas.count_label c (columns df) <= 1)%nat
  /\ col_all df c (fun x => is_label x = true).

(** Every cell of the frame is a sheet text or the missing value. *)
Definition text_frame (df : DataFrame) : Prop :=
  Forall (Forall (fun x => is_label x = true)) (rows df).

(** Some row has a missing value under [c]; some row has the text [s]. *)
Definition has_missing (df : DataFrame) (c : string) : Prop :=
  exists r, In r (rows df) /\ Pandas.cell df c r = Some CNull.

Definition has_text (df : DataFrame) (c s : string) : Prop :=
  exists r, In r (rows df) /\ Pandas.cell df c r = Some (CStr s).

(** [[x for x in sorted(series.unique()) if pd.notna(x)]] for a column of
    labels (strings and missing values).  [sorted] compares the distinct
    values with [<]; a missing value is a float, and comparing it with a
    string raises: the result is [None] when the column holds both a
    missing value and a string. *)
Definition sorted_unique (cells : list Cell) : option (list string) :=
  if existsb (fun c => negb (notna c)) cells && existsb is_str cells
  then None
  else Some (sort String.leb (dedupe String.eqb (strings_of cells))).

(** The first two statements after the load in [update_batch_options],
    [update_exam_options] and [update_plan_options]: the values of column
    [col], or none when the table has no such column.  With a label
    carried by two columns [temp_df[col]] is a frame, which has no
    [unique]: the callback raises. *)
Definition all_values (temp_df : DataFrame) (col : string)
  : option (list string) :=
  if Pandas.has_col temp_df col then
    do s <- Pandas.series temp_df col;
    sorted_unique s
  else Some [].

(** [not search_value or search_value.strip() == ''] *)
Definition blank_search (search_value : option string) : bool :=
  match search_value with
  | None => true
  | Some EmptyString => true
  | Some s => String.eqb (PyStr.strip s) EmptyString
  end.

(** [search_value.strip().lower()] *)
Definition search_key (s : string) : string := PyStr.lower (PyStr.strip s).

(** The values kept for a search text. *)
Definition search_values (all : list string) (search_value : option string)
  : list string :=
  match search_value with
  | Some s =>
      if blank_search search_value then all
      else filter (fun b => PyStr.contains (search_key s) (PyStr.lower b)) all
  | None => all
  end.

(** An entry of a check list. *)
Record CheckOption : Type := mkCheckOption {
  option_label : string;
  option_value : string
}.

(** [[{'label': f' {name}', 'value': name} for name in ...]] *)
Definition to_options (names : list string) : list CheckOption :=
  map (fun name => mkCheckOption (String " " name) name) names.

(** [update_batch_options], from the table the loader returned; [None]
    when [sorted] raises. *)
Definition update_batch_options (temp_df : DataFrame)
           (search_value : option string) : option (list CheckOption) :=
  option_map (fun all => to_options (search_values all search_value))
             (all_values temp_df "name").

(** [update_exam_options] *)
Definition update_exam_options (temp_df : DataFrame)
           (search_value : option string) : option (list CheckOption) :=
  option_map (fun all => to_options (search_values all search_value))
             (all_values temp_df "Exam_2").

(** The test of the second list comprehension of [update_plan_options]
    on a string: [str(p).strip() != '' and str(p).strip().lower() != 'none'] *)
Definition usable_plan (p : string) : bool :=
  negb (String.eqb (PyStr.strip p) EmptyString)
  && negb (String.eqb (PyStr.lower (PyStr.strip p)) "none").

(** [update_plan_options] *)
Definition update_plan_options (temp_df : DataFrame)
           (search_value : option string) : option (list CheckOption) :=
  option_map
    (fun all => to_options (search_values (filter usable_plan all) search_value))
    (all_values temp_df "plan").

(* ================================================================== *)
(** * The start of [update_dashboard] *)
(* ================================================================== *)

(** The debugging lines that follow the load, for a table with at least
    one row: [df['name'].head(3).tolist()] raises when two columns carry
    the label "name", and [sorted(df['Exam_2'].unique())[:5]] raises when
    two columns carry the label "Exam_2" or when [sorted] does.  (The
    minimum and maximum of a column of timestamps, printed first, do not
    raise.) *)
Definition debug_lines_raise (df : DataFrame) : bool :=
  match rows df with
  | [] => false
  | _ =>
      (Pandas.has_col df "name"
       && match Pandas.series df "name" with
          | Some _ => false
          | None => true
          end)
      || (Pandas.has_col df "Exam_2"
          && match Pandas.series df "Exam_2" with
             | Some s => match sorted_unique s with
                         | Some _ => false
                         | None => true
                         end
             | None => true
             end)
  end.

(** Whether the "converteddate" column of a table the loader returned has
    a datetime type: the loader converts the column of every table it
    builds from worksheets, and returns such a table only when it has a
    row; the table without rows is the empty table of the fixed schema,
    whose columns have the object type. *)
Definition datetime_dtype (df : DataFrame) : bool :=
  negb (Pandas.len df =? 0)%nat.

(** [filtered_df] as [update_dashboard] computes it from the loaded table;
    [None] when the callback raises before it gets there. *)
Definition dashboard_filtered (df : DataFrame) (S : Selection)
  : option DataFrame :=
  if debug_lines_raise df then None else Some (filter_data df S).

(** [last_7_days_count] *)
Definition last_7_days_count (e : Z) (fdf : DataFrame) : nat :=
  Pandas.len (last_7_days_df e fdf).

(** Data rows a worksheet offers: the rows below its header row. *)
Definition data_rows (R : Remote) (name : string) : nat :=
  match worksheet R name with
  | Some data => List.length data - S (header_row data)
  | None => 0
  end.

(** Number of rows that have a batch name. *)
Definition named_rows (df : DataFrame) : nat :=
  match Pandas.col_index "name" (columns df) with
  | Some i => List.length (filter (keyed (str_key i)) (rows df))
  | None => 0
  end.

(** More concrete inputs. *)
Module Tables.

(** Two worksheets that both give the exam; the second has a line of
    metadata above its header and no batch column. *)
Definition exam_sheets : Remote :=
  mkRemote None false true true true true
    (fun name =>
       if String.eqb name "Foundation Data" then
         Some [["_id"; "name"; "converteddate"; "net_amount"; "Exam_2"];
               ["1"; "A"; "2024-01-05 09:00:00"; "100"; "JEE"];
               ["2"; "A"; "2024-01-05 17:00:00"; "200"; "JEE"];
               ["3"; "B"; "2024-01-04 00:00:00"; "0"; "NEET"]]
       else if String.eqb name "CUET UG Data" then
         Some [["Report"; "x"; "y"];
               ["_id"; "converteddate"; "Exam_2"];
               ["4"; "2024-01-03 00:00:00"; "CUET"]]
       else None).

(** The table loaded from [exam_sheets]: four rows, the last without a
    batch name; every row has an exam. *)
Definition unnamed_row : DataFrame :=
  mkDataFrame
    ["_id"; "name"; "converteddate"; "net_amount"; "Exam_2"]
    [[CStr "1"; CStr "A"; CDate 1704445200000000000; CNum 100%Q; CStr "JEE"];
     [CStr "2"; CStr "A"; CDate 1704474000000000000; CNum 200%Q; CStr "JEE"];
     [CStr "3"; CStr "B"; CDate 1704326400000000000; CNum 0%Q; CStr "NEET"];
     [CStr "4"; CNull; CDate 1704240000000000000; CNum 0%Q; CStr "CUET"]].

(** Names and plans, some plans blank or "None". *)
Definition plans : DataFrame :=
  mkDataFrame
    ["name"; "plan"]
    [[CStr "Lakshya JEE"; CStr "Pro"];
     [CStr "Arjuna NEET"; CStr "  "];
     [CStr "lakshya neet"; CStr "None"];
     [CStr "Arjuna NEET"; CStr "Pro Max"]].

End Tables.

(* ================================================================== *)
(** * Properties: strings and header detection *)
(* ================================================================== *)

Unset Implicit Arguments.

Module PyStrFacts.

Import PyStr.
Local Open Scope string_scope.

Lemma lower_app (a b : string) : lower (a ++ b) = lower a ++ lower b.
Proof. induction a as [|c a IH]; simpl; [reflexivity | now rewrite IH]. Qed.








Lemma repr_quote_is_quote (s : string) : is_quote (repr_quote s).
Proof.
  unfold repr_quote, is_quote.
  destruct (mem_char squote s && negb (mem_char dquote s)); auto.
Qed.




End PyStrFacts.






Lemma max_width_uniform (n : nat) (data : list (list string)) :
  data <> [] -> Forall (fun r => List.length r = n) data ->
  Pandas.max_width data = n.
Proof.
  intros Hne H. induction H as [|r data Hr Hall IH]; [congruence|].
  simpl. destruct data as [|r' data].
  - simpl. lia.
  - rewrite IH by discriminate. lia.
Qed.

Lemma pad_exact (r : list string) : Pandas.pad (List.length r) r = map CStr r.
Proof.
  unfold Pandas.pad. rewrite Nat.sub_diag. simpl. apply app_nil_r.
Qed.







(* ================================================================== *)
(** * Properties: frames *)
(* ================================================================== *)

Module PandasFacts.

Import Pandas.

Lemma col_index_lt (c : string) (cols : list string) (i : nat) :
  col_index c cols = Some i -> (i < List.length cols)%nat.
Proof.
  revert i; induction cols as [|d cols IH]; intros i H; simpl in *;
    [discriminate|].
  destruct (String.eqb c d).
  - inversion H; lia.
  - destruct (col_index c cols) as [j|]; [|discriminate].
    inversion H. specialize (IH j eq_refl). lia.
Qed.

Lemma col_index_label (c : string) (cols : list string) (i : nat) :
  col_index c cols = Some i -> nth_error cols i = Some c.
Proof.
  revert i; induction cols as [|d cols IH]; intros i H; simpl in *;
    [discriminate|].
  destruct (String.eqb_spec c d) as [->|].
  - now inversion H.
  - destruct (col_index c cols) as [j|]; [|discriminate].
    inversion H. simpl. now apply IH.
Qed.

(** Two labels found at the same position are the same label. *)
Lemma col_index_inj (c d : string) (cols : list string) (i : nat) :
  col_index c cols = Some i -> col_index d cols = Some i -> c = d.
Proof.
  intros Hc Hd. apply col_index_label in Hc, Hd. congruence.
Qed.

Lemma has_col_index (df : DataFrame) (c : string) :
  has_col df c = false <-> col_index c (columns df) = None.
Proof.
  unfold has_col. induction (columns df) as [|d cols IH]; simpl.
  - tauto.
  - destruct (String.eqb c d); simpl.
    + split; discriminate.
    + rewrite IH. destruct (col_index c cols); simpl; split;
        congruence.
Qed.

Lemma series_index (df : DataFrame) (c : string) (s : list Cell) :
  series df c = Some s ->
  exists i, col_index c (columns df) = Some i
            /\ s = map (cell_at i) (rows df).
Proof.
  unfold series. destruct (_ =? _)%nat; [|discriminate].
  destruct (col_index c (columns df)) as [i|]; [|discriminate].
  intros H; inversion H. now exists i.
Qed.

Lemma length_set_nth (i : nat) (v : Cell) (r : Row) :
  List.length (set_nth i v r) = List.length r.
Proof.
  revert i; induction r as [|x r IH]; intros [|i]; simpl; auto.
Qed.

Lemma cell_at_set_nth_same (i : nat) (v : Cell) (r : Row) :
  (i < List.length r)%nat -> cell_at i (set_nth i v r) = v.
Proof.
  unfold cell_at. revert i; induction r as [|x r IH]; intros [|i] H;
    simpl in *; try lia; auto.
  apply IH; lia.
Qed.

Lemma cell_at_set_nth_other (i j : nat) (v : Cell) (r : Row) :
  i <> j -> cell_at j (set_nth i v r) = cell_at j r.
Proof.
  unfold cell_at. revert i j; induction r as [|x r IH]; intros [|i] [|j] H;
    simpl; try congruence; auto.
Qed.

Lemma combine_map_self (A B C : Type) (h : A * B -> C) (g : A -> B)
      (l : list A) :
  map h (combine l (map g l)) = map (fun x => h (x, g x)) l.
Proof. induction l; simpl; congruence. Qed.

(** Overwriting a column with values computed row by row. *)
Lemma assign_existing (df : DataFrame) (c : string) (i : nat)
      (g : Cell -> Cell) :
  col_index c (columns df) = Some i ->
  assign df c (map g (map (cell_at i) (rows df)))
  = mkDataFrame (columns df)
      (map (fun r => set_nth i (g (cell_at i r)) r) (rows df)).
Proof.
  intros H. unfold assign. rewrite H, map_map.
  now rewrite combine_map_self.
Qed.

Lemma assign_rectangular (df : DataFrame) (c : string) (s : list Cell) :
  rectangular df -> rectangular (assign df c s).
Proof.
  unfold rectangular, assign. intros H.
  destruct (col_index c (columns df)) as [i|]; simpl.
  - apply Forall_forall. intros r Hr.
    apply in_map_iff in Hr as [[r0 v] [<- Hin]].
    apply in_combine_l in Hin. rewrite Forall_forall in H.
    simpl. rewrite length_set_nth. now apply H.
  - apply Forall_forall. intros r Hr.
    apply in_map_iff in Hr as [[r0 v] [<- Hin]].
    apply in_combine_l in Hin. rewrite Forall_forall in H.
    simpl. rewrite !length_app. simpl. now rewrite (H r0 Hin).
Qed.

Lemma select_rectangular (p : Row -> bool) (df : DataFrame) :
  rectangular df -> rectangular (select p df).
Proof.
  unfold rectangular, select; simpl. intros H.
  apply Forall_forall. intros r Hr. apply filter_In in Hr as [Hr _].
  rewrite Forall_forall in H. now apply H.
Qed.

Lemma col_all_select (p : Row -> bool) (df : DataFrame) (c : string)
      (Q : Cell -> Prop) :
  col_all df c Q -> col_all (select p df) c Q.
Proof.
  unfold col_all, select; simpl. intros H i Hi.
  specialize (H i Hi). rewrite Forall_forall in *.
  intros r Hr. apply filter_In in Hr as [Hr _]. now apply H.
Qed.

Section Update.

Variables (df : DataFrame) (c : string) (i : nat) (g : Cell -> Cell).
Hypothesis Hi : col_index c (columns df) = Some i.
Hypothesis Hrect : rectangular df.

Let df' : DataFrame :=
  mkDataFrame (columns df)
    (map (fun r => set_nth i (g (cell_at i r)) r) (rows df)).

Lemma update_rectangular : rectangular df'.
Proof.
  unfold rectangular, df'; simpl. apply Forall_forall. intros r Hr.
  apply in_map_iff in Hr as [r0 [<- Hin]]. rewrite length_set_nth.
  unfold rectangular in Hrect. rewrite Forall_forall in Hrect.
  now apply Hrect.
Qed.

Lemma update_same (Q0 Q : Cell -> Prop) :
  (forall v, Q0 v -> Q (g v)) -> col_all df c Q0 -> col_all df' c Q.
Proof.
  intros HQ H0 j Hj. unfold df' in *; simpl in *.
  rewrite Hi in Hj; inversion Hj; subst j.
  specialize (H0 i Hi). rewrite Forall_forall in H0.
  apply Forall_forall. intros r Hr.
  apply in_map_iff in Hr as [r0 [<- Hin]].
  rewrite cell_at_set_nth_same; [apply HQ; now apply H0|].
  unfold rectangular in Hrect. rewrite Forall_forall in Hrect.
  rewrite (Hrect r0 Hin). now apply col_index_lt with (c := c).
Qed.

Lemma col_all_trivial : col_all df c (fun _ => True).
Proof.
  intros j _. apply Forall_forall. intros; exact I.
Qed.

Lemma update_other (d : string) (Q : Cell -> Prop) :
  d <> c -> col_all df d Q -> col_all df' d Q.
Proof.
  intros Hd H j Hj. unfold df' in *; simpl in *.
  specialize (H j Hj). rewrite Forall_forall in *.
  intros r Hr. apply in_map_iff in Hr as [r0 [<- Hin]].
  rewrite cell_at_set_nth_other; [now apply H|].
  intros ->. apply Hd. now apply col_index_inj with (cols := columns df) (i := j).
Qed.

End Update.

End PandasFacts.

(* ================================================================== *)
(** * Properties: normalisation *)
(* ================================================================== *)

Module NormalizerFacts.

Import Pandas PandasFacts.

Lemma length_le_max_width (data : list (list string)) (r : list string) :
  In r data -> (List.length r <= max_width data)%nat.
Proof.
  induction data as [|x data IH]; intros H; [destruct H|].
  simpl. destruct H as [->|H]; [lia|]. specialize (IH H). lia.
Qed.

Lemma DataFrame_of_rectangular (data : list (list string))
      (cols : list string) (df : DataFrame) :
  DataFrame_of data cols = Some df -> rectangular df.
Proof.
  unfold DataFrame_of, rectangular. destruct data as [|x data].
  - intros H; inversion H; constructor.
  - remember (x :: data) as d eqn:Ed.
    destruct (Nat.eqb_spec (max_width d) (List.length cols)) as [E|];
      [|discriminate].
    intros H; inversion H; subst df; clear H Ed. cbn [columns rows].
    apply Forall_forall. intros r Hr.
    apply in_map_iff in Hr as [r0 [<- Hin]].
    unfold pad. rewrite length_app, length_map, repeat_length.
    pose proof (length_le_max_width _ _ Hin). lia.
Qed.

Lemma copy_column_rectangular (df df' : DataFrame) (src dst : string) :
  copy_column df src dst = Some df' -> rectangular df -> rectangular df'.
Proof.
  unfold copy_column. destruct (series df src) as [s|]; [|discriminate].
  intros H; inversion H. now apply assign_rectangular.
Qed.

Lemma sheet_frame_rectangular (data : list (list string)) (df : DataFrame) :
  sheet_frame data = Some df -> rectangular df.
Proof.
  unfold sheet_frame, raw_frame.
  destruct (nth_error data (header_row data)) as [hdr|]; [|discriminate].
  destruct (DataFrame_of _ hdr) as [df0|] eqn:E0; [|discriminate].
  apply DataFrame_of_rectangular in E0.
  set (df1 := mkDataFrame (map PyStr.strip (columns df0)) (rows df0)).
  assert (R1 : rectangular df1).
  { unfold rectangular, df1 in *; simpl. now rewrite length_map. }
  assert (R2 : forall df2,
             (if has_col df1 "batch_name" && negb (has_col df1 "name")
              then copy_column df1 "batch_name" "name"
              else Some df1) = Some df2 -> rectangular df2).
  { intros df2. destruct (_ && _).
    - intros H. now apply copy_column_rectangular in H.
    - intros [= <-]. exact R1. }
  destruct (if has_col df1 "batch_name" && negb (has_col df1 "name")
            then _ else _) as [df2|]; [|discriminate].
  specialize (R2 df2 eq_refl).
  destruct (_ && _).
  - intros H. now apply copy_column_rectangular in H.
  - destruct (_ && _).
    + intros H. now apply copy_column_rectangular in H.
    + intros [= <-]. exact R2.
Qed.

Lemma list_eqb_eq (l1 l2 : list string) : list_eqb l1 l2 = true -> l1 = l2.
Proof.
  revert l2; induction l1 as [|x l1 IH]; intros [|y l2] H; simpl in H;
    try discriminate; auto.
  apply andb_true_iff in H as [Hx H].
  apply String.eqb_eq in Hx. f_equal; auto.
Qed.

Lemma concat_rectangular (dfs : list DataFrame) (df : DataFrame) :
  Forall rectangular dfs -> concat dfs = Some df -> rectangular df.
Proof.
  intros Hall. unfold concat. destruct dfs as [|df0 rest]; [discriminate|].
  destruct (forallb (fun d => nodupb (columns d)) (df0 :: rest)).
  - intros [= <-]. unfold rectangular; cbn [rows columns].
    apply Forall_forall. intros r Hr.
    change (In r (flat_map
                    (fun d => map (reindex (union_columns (df0 :: rest)) d)
                                  (rows d)) (df0 :: rest))) in Hr.
    apply in_flat_map in Hr as [d [_ Hr]].
    apply in_map_iff in Hr as [r0 [<- _]].
    unfold reindex. now rewrite length_map.
  - destruct (forallb _ rest) eqn:E; [|discriminate].
    intros [= <-]. unfold rectangular; cbn [rows columns].
    apply Forall_forall. intros r Hr.
    change (In r (flat_map rows (df0 :: rest))) in Hr.
    apply in_flat_map in Hr as [d [Hd Hr]].
    rewrite Forall_forall in Hall. specialize (Hall d Hd).
    unfold rectangular in Hall. rewrite Forall_forall in Hall.
    rewrite (Hall r Hr). destruct Hd as [->|Hd]; [reflexivity|].
    rewrite forallb_forall in E. specialize (E d Hd).
    now rewrite (list_eqb_eq _ _ E).
Qed.

Section Coercions.

Context {P : Parsers}.

Lemma keeps_refl (c : string) (df : DataFrame) :
  rectangular df -> keeps c df df.
Proof. unfold keeps; auto. Qed.

Lemma col_all_absent (df : DataFrame) (c : string) (Q : Cell -> Prop) :
  has_col df c = false -> col_all df c Q.
Proof.
  intros H i Hi. apply has_col_index in H. congruence.
Qed.

Lemma coerce_date_spec (c : string) (df df' : DataFrame) :
  rectangular df -> coerce_date c df = Some df' ->
  keeps c df df' /\ col_all df' c date_or_null.
Proof.
  intros Hr. unfold coerce_date.
  destruct (has_col df c) eqn:Hc.
  - destruct (series df c) as [s|] eqn:Es; [|discriminate].
    apply series_index in Es as [i [Hi ->]].
    intros [= <-]. unfold to_datetime.
    set (g := to_datetime_cell (map (cell_at i) (rows df))).
    rewrite (assign_existing df c i g Hi).
    split; [split; [reflexivity | split]|].
    + exact (update_rectangular df i g Hr).
    + intros d Q Hd. exact (update_other df c i g Hi d Q Hd).
    + apply (update_same df c i g Hi Hr (fun _ => True) _).
      * intros v _. unfold date_or_null, is_date, g, to_datetime_cell.
        destruct v; eauto. destruct (parse_datetime _ s); eauto.
      * now apply col_all_trivial.
  - intros [= <-]. split.
    + now apply keeps_refl.
    + now apply col_all_absent.
Qed.

Lemma coerce_numeric_spec (c : string) (df df' : DataFrame) :
  rectangular df -> coerce_numeric c df = Some df' ->
  keeps c df df' /\ col_all df' c is_number.
Proof.
  intros Hr. unfold coerce_numeric.
  destruct (has_col df c) eqn:Hc.
  - destruct (series df c) as [s|] eqn:Es; [|discriminate].
    apply series_index in Es as [i [Hi ->]].
    set (g := fun v => fillna0 (to_numeric v)).
    rewrite (assign_existing df c i g Hi).
    set (df1 := mkDataFrame (columns df) _).
    assert (R1 : rectangular df1)
      by exact (update_rectangular df i g Hr).
    assert (N1 : col_all df1 c is_number).
    { apply (update_same df c i g Hi Hr (fun _ => True) _).
      - intros v _. unfold is_number, g.
        destruct v; simpl; eauto. destruct (parse_numeric s); simpl; eauto.
      - now apply col_all_trivial. }
    assert (Hi1 : col_index c (columns df1) = Some i) by exact Hi.
    destruct (series df1 c) as [s'|] eqn:Es'; [|discriminate].
    apply series_index in Es' as [i' [Hi' ->]].
    intros [= <-].
    rewrite (assign_existing df1 c i' astype_float32 Hi').
    split; [split; [reflexivity | split]|].
    + exact (update_rectangular df1 i' astype_float32 R1).
    + intros d Q Hd HQ.
      apply (update_other df1 c i' astype_float32 Hi' d Q Hd).
      exact (update_other df c i g Hi d Q Hd HQ).
    + apply (update_same df1 c i' astype_float32 Hi' R1 is_number _).
      * intros v [x ->]. simpl. unfold is_number; eauto.
      * exact N1.
  - intros [= <-]. split.
    + now apply keeps_refl.
    + now apply col_all_absent.
Qed.

End Coercions.

End NormalizerFacts.

Section CleanFacts.

Import Pandas PandasFacts NormalizerFacts.
Context {P : Parsers}.

Lemma for_each_numeric_spec (cols : list string) (df df' : DataFrame) :
  rectangular df -> for_each coerce_numeric cols df = Some df' ->
  columns df' = columns df
  /\ rectangular df'
  /\ (forall d Q, ~ In d cols -> col_all df d Q -> col_all df' d Q)
  /\ (forall c, In c cols -> col_all df' c is_number).
Proof.
  revert df; induction cols as [|c0 cols IH]; intros df Hr; simpl.
  - intros [= <-]. repeat split; auto. intros c [].
  - destruct (coerce_numeric c0 df) as [df1|] eqn:E1; [|discriminate].
    destruct (coerce_numeric_spec c0 df df1 Hr E1) as [[Hc [Hr1 Hk]] Hn].
    intros E. destruct (IH df1 Hr1 E) as [Hc' [Hr' [Hk' Hn']]].
    split; [congruence | split; [assumption | split]].
    + intros d Q Hd HQ. apply Hk'; [tauto|]. apply Hk; [|assumption].
      intros ->. apply Hd. now left.
    + intros c [<-|Hin]; [|now apply Hn'].
      destruct (in_dec string_dec c0 cols) as [Hin|Hout];
        [now apply Hn' | now apply Hk'].
Qed.

Lemma for_each_categorise (cols : list string) (df df' : DataFrame) :
  for_each categorise cols df = Some df' -> df' = df.
Proof.
  revert df; induction cols as [|c0 cols IH]; intros df; simpl.
  - now intros [= <-].
  - destruct (categorise c0 df) as [df1|] eqn:E1; [|discriminate].
    assert (df1 = df) as ->.
    { unfold categorise in E1. destruct (has_col df c0).
      - destruct (series df c0); [|discriminate].
        destruct (len df =? 0)%nat; [discriminate|]. now inversion E1.
      - now inversion E1. }
    apply IH.
Qed.

Lemma converteddate_not_numeric : ~ In "converteddate" numeric_cols.
Proof.
  intros H; repeat (destruct H as [H|H]; [discriminate H|]); destruct H.
Qed.

Lemma drop_invalid_dates_valid (df : DataFrame) :
  col_all df "converteddate" date_or_null ->
  dates_valid (drop_invalid_dates df).
Proof.
  intros H. unfold drop_invalid_dates, dates_valid.
  destruct (col_index "converteddate" (columns df)) as [i|] eqn:Ei.
  - cbn [select columns rows]. intros j Hj.
    rewrite Ei in Hj; inversion Hj; subst j.
    specialize (H i Ei). rewrite Forall_forall in *.
    intros r Hr. apply filter_In in Hr as [Hr Hn].
    destruct (H r Hr) as [Hd|Hd]; [exact Hd|].
    rewrite Hd in Hn. discriminate.
  - intros j Hj. congruence.
Qed.

Lemma drop_invalid_dates_keeps (df : DataFrame) (c : string)
      (Q : Cell -> Prop) :
  col_all df c Q -> col_all (drop_invalid_dates df) c Q.
Proof.
  unfold drop_invalid_dates.
  destruct (col_index "converteddate" (columns df)); [|auto].
  apply col_all_select.
Qed.

(** A table that comes out of the cleaning steps satisfies the
    invariant. *)
Lemma clean_normalized (dfs : list DataFrame) (df : DataFrame) :
  Forall rectangular dfs -> clean dfs = Some df -> normalized df.
Proof.
  intros Hall. unfold clean.
  destruct (concat dfs) as [d0|] eqn:E0; [|discriminate].
  pose proof (concat_rectangular dfs d0 Hall E0) as R0.
  destruct (coerce_date "converteddate" d0) as [d1|] eqn:E1; [|discriminate].
  destruct (coerce_date_spec _ _ _ R0 E1) as [[_ [R1 _]] D1].
  destruct (coerce_date "startdate" d1) as [d2|] eqn:E2; [|discriminate].
  destruct (coerce_date_spec _ _ _ R1 E2) as [[_ [R2 K2]] _].
  assert (D2 : col_all d2 "converteddate" date_or_null)
    by (apply K2; [discriminate | exact D1]).
  destruct (for_each coerce_numeric numeric_cols d2) as [d3|] eqn:E3;
    [|discriminate].
  destruct (for_each_numeric_spec _ _ _ R2 E3) as [_ [R3 [K3 N3]]].
  assert (D3 : col_all d3 "converteddate" date_or_null)
    by (apply K3; [exact converteddate_not_numeric | exact D2]).
  destruct (for_each categorise string_cols d3) as [d4|] eqn:E4;
    [|discriminate].
  apply for_each_categorise in E4. subst d4.
  intros [= <-]. split.
  - apply drop_invalid_dates_valid.
    unfold dropna_all. now apply (col_all_select (existsb notna) d3).
  - intros c i Hc. revert i.
    change (col_all (drop_invalid_dates (dropna_all d3)) c is_number).
    apply drop_invalid_dates_keeps.
    unfold dropna_all. apply (col_all_select (existsb notna) d3).
    now apply N3.
Qed.

Lemma normalize_loaded (dfs : list DataFrame) (df : DataFrame) :
  Forall rectangular dfs -> normalize dfs = Loaded df ->
  normalized df /\ rows df <> [].
Proof.
  intros Hall. unfold normalize. destruct dfs as [|d0 rest]; [discriminate|].
  destruct (clean (d0 :: rest)) as [d|] eqn:E; [|discriminate].
  destruct (Nat.eqb_spec (len d) 0) as [|Hn]; [discriminate|].
  intros [= <-]. split.
  - now apply clean_normalized with (dfs := d0 :: rest).
  - intros H0. apply Hn. unfold len. now rewrite H0.
Qed.

Lemma collect_rectangular (R : Remote) (names : list string) :
  Forall rectangular (collect R names).
Proof.
  apply Forall_forall. intros df H. unfold collect in H.
  apply in_flat_map in H as [name [_ H]].
  destruct (worksheet R name) as [data|]; [|destruct H].
  destruct (sheet_frame data) as [d|] eqn:E; [|destruct H].
  destruct H as [<-|[]]. now apply sheet_frame_rectangular with (data := data).
Qed.

Lemma fetch_loaded (R : Remote) (df : DataFrame) :
  snd (fetch_and_normalize R) = Loaded df ->
  normalized df /\ rows df <> [].
Proof.
  unfold fetch_and_normalize.
  destruct (get_google_credentials R); [|discriminate].
  destruct (authorize_ok R); [|discriminate].
  destruct (open_ok R); [|discriminate].
  cbn [negb snd]. apply normalize_loaded, collect_rectangular.
Qed.

(** An attempt starts by asking for the credentials, and asks once. *)
Lemma fetch_events_one_attempt (R : Remote) :
  List.length (filter (fun e => match e with
                                | EvCredentials => true
                                | _ => false
                                end) (fst (fetch_and_normalize R))) = 1%nat.
Proof.
  unfold fetch_and_normalize.
  destruct (get_google_credentials R); [|reflexivity].
  destruct (authorize_ok R); [|reflexivity].
  destruct (open_ok R); reflexivity.
Qed.

End CleanFacts.

(* ================================================================== *)
(** * Properties: the cache and the loader *)
(* ================================================================== *)

Lemma Qltb_lt (x y : Q) : Qltb x y = true <-> (x < y)%Q.
Proof.
  unfold Qltb. rewrite negb_true_iff. split.
  - intros H. apply Qnot_le_lt. intros Hle.
    apply Qle_bool_iff in Hle. congruence.
  - intros H. destruct (Qle_bool y x) eqn:E; [|reflexivity].
    apply Qle_bool_iff in E. exfalso. now apply (Qlt_not_le x y).
Qed.

Lemma deref_alloc_new (df : DataFrame) (w : World) :
  deref (snd (alloc df w)) (fst (alloc df w)) = df.
Proof. unfold deref, alloc; simpl. apply nth_middle. Qed.

Lemma deref_alloc_old (df : DataFrame) (w : World) (r : nat) :
  (r < List.length (heap w))%nat -> deref (snd (alloc df w)) r = deref w r.
Proof. intros H. unfold deref, alloc; simpl. now apply app_nth1. Qed.

Lemma nth_set_frame_other (r r' : nat) (df d : DataFrame)
      (h : list DataFrame) :
  r <> r' -> nth r (set_frame r' df h) d = nth r h d.
Proof.
  revert r r'; induction h as [|x h IH]; intros [|r] [|r'] H; simpl;
    try congruence; auto.
Qed.

(** Mutating one object leaves every other object as it was. *)
Lemma deref_mutate_other (r r' : nat) (df : DataFrame) (w : World) :
  r <> r' -> deref (mutate r' df w) r = deref w r.
Proof. intros H. unfold deref, mutate; simpl. now apply nth_set_frame_other. Qed.

Lemma cache_hit_cached (force_refresh : bool) (t : Q) (w : World) (r : nat) :
  cache_hit force_refresh t w = Some r -> DATA_CACHE w = Some r.
Proof.
  unfold cache_hit. destruct force_refresh; [discriminate|]. simpl.
  destruct (DATA_CACHE w); [|discriminate].
  destruct (CACHE_TIMESTAMP w); [|discriminate].
  destruct (Qltb _ _); [|discriminate]. now intros [= <-].
Qed.

Lemma cache_hit_within (t ts : Q) (w : World) (r : nat) :
  DATA_CACHE w = Some r -> CACHE_TIMESTAMP w = Some ts ->
  (t - ts < CACHE_DURATION)%Q -> cache_hit false t w = Some r.
Proof.
  intros Hc Ht Hlt. unfold cache_hit. simpl. rewrite Hc, Ht.
  apply Qltb_lt in Hlt. now rewrite Hlt.
Qed.

Section LoaderFacts.

Context {P : Parsers}.

Lemma load_hit (force_refresh : bool) (t : Q) (R : Remote) (w : World)
      (r : nat) :
  cache_hit force_refresh t w = Some r ->
  load_data_from_sheets force_refresh t R w = copy r w.
Proof. intros H. unfold load_data_from_sheets. now rewrite H. Qed.

Lemma load_miss_loaded (force_refresh : bool) (t : Q) (R : Remote)
      (w : World) (df : DataFrame) :
  cache_hit force_refresh t w = None ->
  snd (fetch_and_normalize R) = Loaded df ->
  load_data_from_sheets force_refresh t R w
  = (List.length (heap w),
     mkWorld (heap w ++ [df] ++ [df]) (Some (S (List.length (heap w))))
             (Some t) (calls w ++ fst (fetch_and_normalize R))).
Proof.
  intros H Hout. unfold load_data_from_sheets. rewrite H.
  destruct (fetch_and_normalize R) as [evs out]. simpl in Hout. subst out.
  unfold copy, alloc, deref. cbn [heap DATA_CACHE CACHE_TIMESTAMP calls fst snd].
  rewrite nth_middle, length_app, <- app_assoc. simpl.
  repeat f_equal. lia.
Qed.

Lemma load_miss_empty (force_refresh : bool) (t : Q) (R : Remote)
      (w : World) :
  cache_hit force_refresh t w = None ->
  (forall df, snd (fetch_and_normalize R) <> Loaded df) ->
  load_data_from_sheets force_refresh t R w
  = alloc EMPTY_SCHEMA (attempted R w).
Proof.
  intros H Hout. unfold load_data_from_sheets, attempted. rewrite H.
  destruct (fetch_and_normalize R) as [evs out]. simpl in *.
  destruct out; try reflexivity. now destruct (Hout df).
Qed.

Lemma load_allocated (force_refresh : bool) (t : Q) (R : Remote) (w : World) :
  cache_allocated w ->
  cache_allocated (snd (load_data_from_sheets force_refresh t R w)).
Proof.
  intros Hw. destruct (cache_hit force_refresh t w) as [r|] eqn:Eh.
  - rewrite (load_hit _ _ R _ _ Eh). unfold cache_allocated in *.
    unfold copy, alloc; simpl. destruct (DATA_CACHE w); [|exact I].
    rewrite length_app; simpl; lia.
  - destruct (snd (fetch_and_normalize R)) eqn:Eo.
    + rewrite load_miss_empty by (auto; congruence).
      unfold cache_allocated in *. unfold alloc, attempted; simpl.
      destruct (DATA_CACHE w); [|exact I]. rewrite length_app; simpl; lia.
    + rewrite load_miss_empty by (auto; congruence).
      unfold cache_allocated in *. unfold alloc, attempted; simpl.
      destruct (DATA_CACHE w); [|exact I]. rewrite length_app; simpl; lia.
    + rewrite (load_miss_loaded _ _ _ _ df Eh Eo).
      unfold cache_allocated; simpl. rewrite !length_app; simpl; lia.
Qed.

Lemma reachable_allocated (w : World) : reachable w -> cache_allocated w.
Proof.
  induction 1; [exact I | now apply load_allocated].
Qed.

End LoaderFacts.

Section LoaderTheorems.

Context {P : Parsers}.

(** C2.  With a cached table whose timestamp is less than 300 seconds
    old, a call without [force_refresh] returns a fresh object holding the
    cached table, makes no call to the outside and leaves the cache as it
    was; the object returned is not the cached one, so that a caller
    changing it in place does not change the cache.  Consequently, when a
    call that had to load is followed within 300 seconds by a second call,
    the two calls together make exactly one fetch attempt, and the second
    call returns the table the first one loaded. *)
Theorem cached_copy_within_window :
  (forall (current_time : Q) (R : Remote) (w : World) (r : nat) (ts : Q),
      DATA_CACHE w = Some r ->
      CACHE_TIMESTAMP w = Some ts ->
      (current_time - ts < CACHE_DURATION)%Q ->
      (r < List.length (heap w))%nat ->
      let res := load_data_from_sheets false current_time R w in
      deref (snd res) (fst res) = deref w r
      /\ fst res <> r
      /\ (forall df, deref (mutate (fst res) df (snd res)) r = deref w r)
      /\ calls (snd res) = calls w
      /\ fetch_count (snd res) = fetch_count w
      /\ DATA_CACHE (snd res) = DATA_CACHE w
      /\ CACHE_TIMESTAMP (snd res) = CACHE_TIMESTAMP w)
  /\ (forall (t1 t2 : Q) (R1 R2 : Remote) (w : World) (df : DataFrame),
      cache_hit false t1 w = None ->
      snd (fetch_and_normalize R1) = Loaded df ->
      (t2 - t1 < CACHE_DURATION)%Q ->
      let res1 := load_data_from_sheets false t1 R1 w in
      let res2 := load_data_from_sheets false t2 R2 (snd res1) in
      fetch_count (snd res2) = S (fetch_count w)
      /\ deref (snd res1) (fst res1) = df
      /\ deref (snd res2) (fst res2) = df).
Proof.
  split.
  - intros t R w r ts Hc Ht Hlt Hr res. unfold res.
    rewrite (load_hit false t R w r (cache_hit_within t ts w r Hc Ht Hlt)).
    unfold copy. rewrite deref_alloc_new.
    assert (Hne : fst (alloc (deref w r) w) <> r) by (simpl; lia).
    repeat split; auto.
    intros df. rewrite deref_mutate_other by auto.
    now apply deref_alloc_old.
  - intros t1 t2 R1 R2 w df Hmiss Hout Hlt res1 res2.
    unfold res2, res1. rewrite (load_miss_loaded false t1 R1 w df Hmiss Hout).
    cbn [fst snd].
    set (w1 := mkWorld _ _ _ _).
    assert (Hhit : cache_hit false t2 w1 = Some (S (List.length (heap w))))
      by (now apply cache_hit_within with (ts := t1)).
    rewrite (load_hit false t2 R2 w1 _ Hhit).
    unfold copy. rewrite deref_alloc_new.
    assert (Hd : forall k, (k < 2)%nat ->
                   deref w1 (List.length (heap w) + k) = df).
    { intros k Hk. unfold deref, w1; cbn [heap].
      rewrite app_nth2_plus. destruct k as [|[|k]]; [reflexivity..|lia]. }
    repeat split.
    + unfold fetch_count, alloc, w1; cbn [snd calls].
      rewrite filter_app, length_app, fetch_events_one_attempt. lia.
    + rewrite <- (Hd 0%nat) by lia. f_equal; lia.
    + rewrite <- (Hd 1%nat) by lia. f_equal; lia.
Qed.

(** C1, amended.  When the attempt raises, the loader does not let the
    exception out: it returns the empty table with the fixed schema,
    whether or not a table is cached; a table that is cached stays in the
    cache as it was, but the failing call does not return it. *)
Theorem failed_attempt_returns_empty_schema
        (force_refresh : bool) (current_time : Q) (R : Remote) (w : World) :
  cache_hit force_refresh current_time w = None ->
  snd (fetch_and_normalize R) = Raised ->
  cache_allocated w ->
  let res := load_data_from_sheets force_refresh current_time R w in
  deref (snd res) (fst res) = EMPTY_SCHEMA
  /\ forall r, DATA_CACHE w = Some r ->
               DATA_CACHE (snd res) = Some r
               /\ deref (snd res) r = deref w r.
Proof.
  intros Hmiss Hout Hw res. unfold res.
  rewrite load_miss_empty by (auto; congruence).
  split; [apply deref_alloc_new|].
  intros r Hr. split; [exact Hr|].
  apply (deref_alloc_old EMPTY_SCHEMA (attempted R w) r).
  unfold cache_allocated in Hw. rewrite Hr in Hw. exact Hw.
Qed.

(** C10.  An attempt that does not run to its end on a table with at
    least one row (it raises, or it returns early with the empty table)
    leaves the two cache variables exactly as they were.  Either of the
    two variables changes only in a call that missed the cache and ran
    the load to its end on a table with at least one row; the cache then
    names a copy of that table and the timestamp is the time of the
    call.  No call changes a frame allocated before it, so a table
    cached before the call is never cleared, replaced or partly
    updated. *)
Theorem failed_refresh_keeps_cache
        (force_refresh : bool) (current_time : Q) (R : Remote) (w : World) :
  let w' := snd (load_data_from_sheets force_refresh current_time R w) in
  ((forall df, snd (fetch_and_normalize R) <> Loaded df) ->
   DATA_CACHE w' = DATA_CACHE w
   /\ CACHE_TIMESTAMP w' = CACHE_TIMESTAMP w)
  /\ (DATA_CACHE w' <> DATA_CACHE w \/ CACHE_TIMESTAMP w' <> CACHE_TIMESTAMP w ->
      exists df r',
        cache_hit force_refresh current_time w = None
        /\ snd (fetch_and_normalize R) = Loaded df
        /\ rows df <> []
        /\ DATA_CACHE w' = Some r'
        /\ deref w' r' = df
        /\ CACHE_TIMESTAMP w' = Some current_time)
  /\ (forall r, (r < List.length (heap w))%nat -> deref w' r = deref w r).
Proof.
  intros w'. unfold w'.
  destruct (cache_hit force_refresh current_time w) as [r|] eqn:Eh.
  - rewrite (load_hit _ _ R _ _ Eh). split; [|split].
    + intros _. split; reflexivity.
    + intros [H|H]; now destruct H.
    + intros r0 Hr0. now apply deref_alloc_old.
  - destruct (snd (fetch_and_normalize R)) as [| |df] eqn:Eo.
    + rewrite load_miss_empty by (auto; congruence). split; [|split].
      * intros _. split; reflexivity.
      * intros [H|H]; now destruct H.
      * intros r0 Hr0.
        now apply (deref_alloc_old EMPTY_SCHEMA (attempted R w)).
    + rewrite load_miss_empty by (auto; congruence). split; [|split].
      * intros _. split; reflexivity.
      * intros [H|H]; now destruct H.
      * intros r0 Hr0.
        now apply (deref_alloc_old EMPTY_SCHEMA (attempted R w)).
    + rewrite (load_miss_loaded _ _ _ _ df Eh Eo). split; [|split].
      * intros H. now destruct (H df).
      * intros _. exists df, (S (List.length (heap w))).
        destruct (fetch_loaded R df Eo) as [_ Hrows].
        repeat split; auto.
        unfold deref; cbn [snd heap].
        replace (S (List.length (heap w))) with (List.length (heap w) + 1)%nat
          by lia.
        now rewrite app_nth2_plus.
      * intros r0 Hr0. unfold deref; cbn [snd heap].
        now apply app_nth1.
Qed.

End LoaderTheorems.

Lemma cached_copy_within_window_witness :
  (let res := load_data_from_sheets (P := Reference.parsers) false 1100%Q
                Scenario.outage Scenario.warm in
   deref (snd res) (fst res) = deref Scenario.warm 1
   /\ fst res <> 1%nat
   /\ fetch_count (snd res) = fetch_count Scenario.warm)
  /\ (let res1 := load_data_from_sheets (P := Reference.parsers) false 1000%Q
                    Scenario.names_only initial_world in
      let res2 := load_data_from_sheets (P := Reference.parsers) false 1100%Q
                    Scenario.outage (snd res1) in
      fetch_count (snd res2) = 1%nat
      /\ deref (snd res2) (fst res2) = Scenario.one_batch).
Proof.
  assert (Hr : (1 < List.length (heap Scenario.warm))%nat)
    by (vm_compute; lia).
  split.
  - pose proof (proj1 (cached_copy_within_window (P := Reference.parsers))
                  1100%Q Scenario.outage Scenario.warm 1%nat 1000%Q
                  eq_refl eq_refl eq_refl Hr) as H.
    cbv zeta in H. destruct H as (H1 & H2 & _ & _ & H3 & _).
    intros res. repeat split; assumption.
  - pose proof (proj2 (cached_copy_within_window (P := Reference.parsers))
                  1000%Q 1100%Q Scenario.names_only Scenario.outage
                  initial_world Scenario.one_batch
                  eq_refl eq_refl eq_refl) as H.
    cbv zeta in H. destruct H as (H1 & _ & H2).
    intros res1 res2. split; assumption.
Defined.

(** C1 as stated fails.  With a table cached by an earlier successful load,
    a refresh that finds no credentials (forced, or made after the cached
    table has expired) returns the empty table, not the cached one. *)
Lemma stale_table_not_returned :
  DATA_CACHE Scenario.warm = Some 1%nat
  /\ deref Scenario.warm 1 = Scenario.one_batch
  /\ snd (fetch_and_normalize (P := Reference.parsers) Scenario.outage) = Raised
  /\ (let res := load_data_from_sheets (P := Reference.parsers) true 1010%Q
                   Scenario.outage Scenario.warm in
      deref (snd res) (fst res) = EMPTY_SCHEMA
      /\ deref (snd res) (fst res) <> deref Scenario.warm 1)
  /\ (let res := load_data_from_sheets (P := Reference.parsers) false 2000%Q
                   Scenario.outage Scenario.warm in
      deref (snd res) (fst res) = EMPTY_SCHEMA
      /\ deref (snd res) (fst res) <> deref Scenario.warm 1).
Proof.
  repeat split; try reflexivity; vm_compute; discriminate.
Qed.

Lemma failed_attempt_returns_empty_schema_witness :
  let res := load_data_from_sheets (P := Reference.parsers) true 1010%Q
               Scenario.outage Scenario.warm in
  deref (snd res) (fst res) = EMPTY_SCHEMA
  /\ forall r, DATA_CACHE Scenario.warm = Some r ->
               DATA_CACHE (snd res) = Some r
               /\ deref (snd res) r = deref Scenario.warm r.
Proof.
  apply (failed_attempt_returns_empty_schema (P := Reference.parsers)).
  - reflexivity.
  - reflexivity.
  - vm_compute; lia.
Defined.

Lemma failed_refresh_keeps_cache_witness :
  let w' := snd (load_data_from_sheets (P := Reference.parsers) true 1010%Q
                   Scenario.outage Scenario.warm) in
  DATA_CACHE w' = DATA_CACHE Scenario.warm
  /\ CACHE_TIMESTAMP w' = CACHE_TIMESTAMP Scenario.warm.
Proof.
  apply (proj1 (failed_refresh_keeps_cache (P := Reference.parsers)
                  true 1010%Q Scenario.outage Scenario.warm)).
  intros df H. vm_compute in H. discriminate H.
Defined.

Section CacheInvariant.

Context {P : Parsers}.

Lemma empty_schema_normalized : normalized EMPTY_SCHEMA.
Proof.
  split.
  - intros i _. constructor.
  - intros c i _ _. constructor.
Qed.

(** The invariant of the cache: what it names is allocated and
    normalised. *)
Lemma load_keeps_normalized (force_refresh : bool) (t : Q) (R : Remote)
      (w : World) :
  cache_allocated w ->
  (forall r, DATA_CACHE w = Some r -> normalized (deref w r)) ->
  let res := load_data_from_sheets force_refresh t R w in
  normalized (deref (snd res) (fst res))
  /\ forall r, DATA_CACHE (snd res) = Some r -> normalized (deref (snd res) r).
Proof.
  intros Hw Hn res. unfold res.
  assert (Hold : forall r, DATA_CACHE w = Some r ->
                           (r < List.length (heap w))%nat).
  { intros r Hr. unfold cache_allocated in Hw. now rewrite Hr in Hw. }
  destruct (cache_hit force_refresh t w) as [r|] eqn:Eh.
  - rewrite (load_hit _ _ R _ _ Eh). unfold copy. rewrite deref_alloc_new.
    pose proof (cache_hit_cached _ _ _ _ Eh) as Hr. split.
    + now apply Hn.
    + intros r0 Hr0. cbn [alloc snd DATA_CACHE] in Hr0.
      rewrite deref_alloc_old by auto. now apply Hn.
  - destruct (snd (fetch_and_normalize R)) as [| |df] eqn:Eo.
    + rewrite load_miss_empty by (auto; congruence).
      rewrite deref_alloc_new. split; [exact empty_schema_normalized|].
      intros r0 Hr0. cbn [alloc snd DATA_CACHE attempted] in Hr0.
      rewrite (deref_alloc_old EMPTY_SCHEMA (attempted R w)) by (now apply Hold).
      now apply Hn.
    + rewrite load_miss_empty by (auto; congruence).
      rewrite deref_alloc_new. split; [exact empty_schema_normalized|].
      intros r0 Hr0. cbn [alloc snd DATA_CACHE attempted] in Hr0.
      rewrite (deref_alloc_old EMPTY_SCHEMA (attempted R w)) by (now apply Hold).
      now apply Hn.
    + rewrite (load_miss_loaded _ _ _ _ df Eh Eo).
      destruct (fetch_loaded R df Eo) as [Hdf _].
      cbn [fst snd DATA_CACHE]. unfold deref; cbn [heap]. split.
      * replace (List.length (heap w)) with (List.length (heap w) + 0)%nat
          at 1 by lia.
        now rewrite app_nth2_plus.
      * intros r0 [= <-].
        replace (S (List.length (heap w))) with (List.length (heap w) + 1)%nat
          by lia.
        now rewrite app_nth2_plus.
Qed.

Lemma reachable_normalized (w : World) :
  reachable w -> forall r, DATA_CACHE w = Some r -> normalized (deref w r).
Proof.
  induction 1 as [|f t R w Hw IH].
  - intros r Hr. discriminate Hr.
  - apply (load_keeps_normalized f t R w); [now apply reachable_allocated | exact IH].
Qed.

(** C8, amended.  In every state the process can reach, the cached table,
    and the table any call of the loader returns, satisfy the invariant
    for the columns they have: if the table has a "converteddate" column,
    the converted date of every row is a timestamp; each of the four
    numeric columns the table has holds a number in every row.  A missing
    or unparsable numeric text becomes the number zero. *)
Theorem loaded_tables_normalized (w : World) :
  reachable w ->
  (forall r, DATA_CACHE w = Some r -> normalized (deref w r))
  /\ (forall force_refresh current_time R,
         let res := load_data_from_sheets force_refresh current_time R w in
         normalized (deref (snd res) (fst res)))
  /\ (forall c,
         c = CNull \/ (exists s, c = CStr s /\ parse_numeric s = None) ->
         astype_float32 (fillna0 (to_numeric c)) = CNum (float32 0%Q)).
Proof.
  intros Hw. split; [|split].
  - now apply reachable_normalized.
  - intros f t R res.
    exact (proj1 (load_keeps_normalized f t R w (reachable_allocated w Hw)
                    (reachable_normalized w Hw))).
  - intros c [->|[s [-> Hs]]]; simpl; [reflexivity|]. now rewrite Hs.
Qed.

End CacheInvariant.

Lemma loaded_tables_normalized_witness :
  normalized (deref Scenario.warm 1)
  /\ normalized
       (deref (snd (load_data_from_sheets (P := Reference.parsers) true 2000%Q
                      Scenario.two_sheets Scenario.warm))
              (fst (load_data_from_sheets (P := Reference.parsers) true 2000%Q
                      Scenario.two_sheets Scenario.warm))).
Proof.
  assert (H : reachable (P := Reference.parsers) Scenario.warm)
    by (apply reachable_load, reachable_initial).
  destruct (loaded_tables_normalized (P := Reference.parsers) Scenario.warm H)
    as (H1 & H2 & _).
  split.
  - apply H1. reflexivity.
  - apply H2.
Defined.

(** C8 as stated fails.  A worksheet that has no "converteddate" column is
    loaded and cached as it is: its records have no converted date, and no
    numeric field either. *)
Lemma cached_record_without_date :
  reachable (P := Reference.parsers) Scenario.warm
  /\ DATA_CACHE Scenario.warm = Some 1%nat
  /\ deref Scenario.warm 1 = Scenario.one_batch
  /\ ~ every_record_dated (deref Scenario.warm 1)
  /\ ~ every_record_numeric (deref Scenario.warm 1).
Proof.
  split; [apply reachable_load, reachable_initial|].
  split; [reflexivity|]. split; [reflexivity|]. split.
  - intros H. inversion H as [|r l [t Ht] _]. discriminate Ht.
  - intros H. specialize (H "net_amount" (or_introl eq_refl)).
    inversion H as [|r l [x Hx] _]. discriminate Hx.
Qed.

(* ================================================================== *)
(** * Properties: the filter *)
(* ================================================================== *)

Lemma frame_eta (df : DataFrame) : mkDataFrame (columns df) (rows df) = df.
Proof. now destruct df. Qed.

Lemma filter_all (A : Type) (p : A -> bool) (l : list A) :
  Forall (fun x => p x = true) l -> filter p l = l.
Proof.
  induction 1 as [|x l Hx _ IH]; simpl; [reflexivity|]. now rewrite Hx, IH.
Qed.

Lemma filter_twice (A : Type) (p q : A -> bool) (l : list A) :
  filter q (filter p l) = filter (fun x => p x && q x) l.
Proof.
  induction l as [|x l IH]; simpl; [reflexivity|].
  destruct (p x); simpl; [destruct (q x)|]; now rewrite IH.
Qed.

Lemma select_all (p : Row -> bool) (df : DataFrame) :
  Forall (fun r => p r = true) (rows df) -> Pandas.select p df = df.
Proof.
  intros H. unfold Pandas.select. rewrite filter_all by assumption.
  apply frame_eta.
Qed.

Lemma select_twice (p q : Row -> bool) (df : DataFrame) :
  Pandas.select q (Pandas.select p df)
  = Pandas.select (fun r => p r && q r) df.
Proof. unfold Pandas.select; simpl. now rewrite filter_twice. Qed.

Lemma select_ext (p q : Row -> bool) (df : DataFrame) :
  (forall r, p r = q r) -> Pandas.select p df = Pandas.select q df.
Proof.
  intros H. unfold Pandas.select. f_equal. now apply filter_ext.
Qed.

(** The date step and the membership steps as row predicates over the
    labels of the table. *)
Lemma filter_dates_select (s e : Z) (df : DataFrame) :
  filter_dates s e df = Pandas.select (date_pred (columns df) s e) df.
Proof.
  unfold filter_dates, date_pred.
  destruct (Pandas.col_index "converteddate" (columns df)); [reflexivity|].
  symmetry. apply select_all, Forall_forall. reflexivity.
Qed.

Lemma filter_isin_select (col : string) (f : option (list string))
      (df : DataFrame) :
  filter_isin col f df = Pandas.select (dim_pred (columns df) col f) df.
Proof.
  unfold filter_isin, dim_pred. destruct (truthy f).
  - destruct (Pandas.col_index col (columns df)); [reflexivity|].
    symmetry. apply select_all, Forall_forall. reflexivity.
  - symmetry. apply select_all, Forall_forall. reflexivity.
Qed.

(** The filter keeps exactly the rows that pass the conjunction of the
    four predicates. *)
Lemma filter_data_select (df : DataFrame) (S : Selection) :
  filter_data df S = Pandas.select (row_pred (columns df) S) df.
Proof.
  unfold filter_data. rewrite filter_dates_select.
  rewrite !filter_isin_select. cbn [Pandas.select columns].
  rewrite !select_twice. apply select_ext. intros r. unfold row_pred.
  now rewrite !andb_assoc.
Qed.

Lemma filter_isin_unrestricted (col : string) (f : option (list string))
      (df : DataFrame) :
  truthy f = false -> filter_isin col f df = df.
Proof. intros H. unfold filter_isin. now rewrite H. Qed.

(** C6.  A selection whose three sets are empty and whose date range
    contains the converted date of every row leaves the table as it is;
    an empty set (or no value at all) in a dimension imposes no
    restriction, whatever the other dimensions hold. *)
Theorem filter_identity (T : DataFrame) (S : Selection) :
  truthy (batch_filter S) = false ->
  truthy (exam_filter S) = false ->
  truthy (plan_filter S) = false ->
  (forall i, Pandas.col_index "converteddate" (columns T) = Some i ->
             Forall (fun r => exists d, Pandas.cell_at i r = CDate d
                                        /\ (start_date S <= d <= end_date S)%Z)
                    (rows T)) ->
  filter_data T S = T
  /\ (forall col f df, truthy f = false -> filter_isin col f df = df).
Proof.
  intros Hb He Hp Hd. split; [|exact filter_isin_unrestricted].
  unfold filter_data.
  rewrite !filter_isin_unrestricted by assumption.
  unfold filter_dates.
  destruct (Pandas.col_index "converteddate" (columns T)) as [i|];
    [|reflexivity].
  apply select_all. specialize (Hd i eq_refl).
  rewrite Forall_forall in *. intros r Hr.
  destruct (Hd r Hr) as [d [-> [H1 H2]]]. simpl.
  apply andb_true_iff. split; now apply Z.leb_le.
Qed.

Lemma filter_identity_witness :
  filter_data Scenario.enrollments Scenario.first_week = Scenario.enrollments.
Proof.
  assert (H : forall i,
             Pandas.col_index "converteddate" (columns Scenario.enrollments)
             = Some i ->
             Forall (fun r => exists d,
                         Pandas.cell_at i r = CDate d
                         /\ (start_date Scenario.first_week <= d
                             <= end_date Scenario.first_week)%Z)
                    (rows Scenario.enrollments)).
  { intros i [= <-]. repeat constructor; eexists; (split; [reflexivity|]);
      simpl; lia. }
  exact (proj1 (filter_identity Scenario.enrollments Scenario.first_week
                  eq_refl eq_refl eq_refl H)).
Defined.

Lemma existsb_inter (s : string) (A B : list string) :
  existsb (String.eqb s) (filter (fun x => existsb (String.eqb x) B) A)
  = existsb (String.eqb s) A && existsb (String.eqb s) B.
Proof.
  induction A as [|a A IH]; simpl; [reflexivity|].
  destruct (String.eqb_spec s a) as [->|Hne].
  - simpl. destruct (existsb (String.eqb a) B) eqn:E; simpl.
    + now rewrite String.eqb_refl.
    + rewrite IH. apply andb_false_r.
  - simpl. destruct (existsb (String.eqb a) B); simpl; [|exact IH].
    destruct (String.eqb_spec s a); [contradiction|]. exact IH.
Qed.

Lemma dim_pred_combine (cols : list string) (col : string)
      (a b : option (list string)) (r : Row) :
  compatible_dimension a b ->
  dim_pred cols col a r && dim_pred cols col b r
  = dim_pred cols col (combine_dimension a b) r.
Proof.
  unfold compatible_dimension, dim_pred, combine_dimension. intros Hc.
  destruct (truthy a) eqn:Ea, (truthy b) eqn:Eb;
    rewrite ?Ea, ?Eb, ?andb_true_r; try reflexivity.
  rewrite (Hc eq_refl eq_refl).
  destruct (Pandas.col_index col cols); [|reflexivity].
  unfold isin. destruct (Pandas.cell_at n r); try reflexivity.
  cbn [values_of]. now rewrite existsb_inter.
Qed.

Lemma date_pred_combine (cols : list string) (s1 e1 s2 e2 : Z) (r : Row) :
  date_pred cols s1 e1 r && date_pred cols s2 e2 r
  = date_pred cols (Z.max s1 s2) (Z.min e1 e2) r.
Proof.
  unfold date_pred. destruct (Pandas.col_index "converteddate" cols);
    [|reflexivity].
  unfold date_ge, date_le. destruct (Pandas.cell_at n r); try reflexivity.
  destruct (Z.leb_spec s1 t), (Z.leb_spec t e1), (Z.leb_spec s2 t),
    (Z.leb_spec t e2), (Z.leb_spec (Z.max s1 s2) t),
    (Z.leb_spec t (Z.min e1 e2)); simpl; try reflexivity; lia.
Qed.

(** C7, amended.  Filtering by [S1] and then by [S2] keeps the rows that
    pass both row predicates.  It is the same as filtering once by the
    combined selection provided that, in each dimension where both
    selections name values, they have a value in common. *)
Theorem filters_compose (T : DataFrame) (S1 S2 : Selection) :
  filter_data (filter_data T S1) S2
  = Pandas.select (fun r => row_pred (columns T) S1 r
                            && row_pred (columns T) S2 r) T
  /\ (compatible_dimension (batch_filter S1) (batch_filter S2) ->
      compatible_dimension (exam_filter S1) (exam_filter S2) ->
      compatible_dimension (plan_filter S1) (plan_filter S2) ->
      filter_data (filter_data T S1) S2
      = filter_data T (combine_selections S1 S2)).
Proof.
  assert (H : filter_data (filter_data T S1) S2
              = Pandas.select (fun r => row_pred (columns T) S1 r
                                        && row_pred (columns T) S2 r) T).
  { rewrite (filter_data_select T S1), filter_data_select.
    cbn [Pandas.select columns]. apply select_twice. }
  split; [exact H|].
  intros Hb He Hp. rewrite H, filter_data_select.
  apply select_ext. intros r. unfold row_pred. cbn [combine_selections
    start_date end_date batch_filter exam_filter plan_filter].
  rewrite <- date_pred_combine.
  rewrite <- (dim_pred_combine (columns T) "name" _ _ r Hb).
  rewrite <- (dim_pred_combine (columns T) "Exam_2" _ _ r He).
  rewrite <- (dim_pred_combine (columns T) "plan" _ _ r Hp).
  repeat match goal with
         | |- context [date_pred ?a ?b ?c ?d] =>
             destruct (date_pred a b c d); simpl
         | |- context [dim_pred ?a ?b ?c ?d] =>
             destruct (dim_pred a b c d); simpl
         end; reflexivity.
Qed.

Lemma filters_compose_witness :
  filter_data (filter_data Scenario.enrollments Scenario.only_A) Scenario.A_or_B
  = filter_data Scenario.enrollments
      (combine_selections Scenario.only_A Scenario.A_or_B).
Proof.
  apply (proj2 (filters_compose Scenario.enrollments Scenario.only_A
                  Scenario.A_or_B)).
  - intros _ _. reflexivity.
  - intros H. discriminate H.
  - intros H. discriminate H.
Defined.

(** C7 as stated fails.  Two selections that name different batches have
    an empty intersection, and an empty set stands for no restriction:
    filtering by one and then by the other leaves no row, filtering by the
    combined selection leaves every row. *)
Lemma disjoint_selections_do_not_compose :
  filter_data (filter_data Scenario.one_batch Scenario.only_A) Scenario.only_B
  = mkDataFrame ["name"] []
  /\ filter_data Scenario.one_batch
       (combine_selections Scenario.only_A Scenario.only_B)
     = Scenario.one_batch
  /\ filter_data (filter_data Scenario.one_batch Scenario.only_A) Scenario.only_B
     <> filter_data Scenario.one_batch
          (combine_selections Scenario.only_A Scenario.only_B).
Proof.
  split; [reflexivity|]. split; [reflexivity|]. discriminate.
Qed.

(* ================================================================== *)
(** * Properties: grouping *)
(* ================================================================== *)

Lemma list_sum_perm (l l' : list nat) :
  Permutation l l' -> list_sum l = list_sum l'.
Proof. induction 1; simpl; lia. Qed.

Lemma list_sum_map_add (A : Type) (f g : A -> nat) (l : list A) :
  list_sum (map (fun x => f x + g x)%nat l)
  = (list_sum (map f l) + list_sum (map g l))%nat.
Proof. induction l; simpl; lia. Qed.

Lemma list_sum_zero (A : Type) (l : list A) :
  list_sum (map (fun _ => 0%nat) l) = 0%nat.
Proof. induction l; simpl; auto. Qed.

Section GroupFacts.

Variables (K : Type) (eqb leb : K -> K -> bool).
Hypothesis eqb_eq : forall x y, eqb x y = true <-> x = y.
Variable key : Row -> option K.

Lemma insert_perm (x : K) (l : list K) : Permutation (insert leb x l) (x :: l).
Proof.
  induction l as [|y l IH]; simpl; [reflexivity|].
  destruct (leb x y); [reflexivity|].
  rewrite IH. apply perm_swap.
Qed.

Lemma sort_perm (l : list K) : Permutation (sort leb l) l.
Proof.
  induction l as [|x l IH]; simpl; [reflexivity|].
  rewrite insert_perm. now constructor.
Qed.

Lemma dedupe_In (x : K) (l : list K) : In x (dedupe eqb l) <-> In x l.
Proof.
  induction l as [|y l IH]; simpl; [tauto|].
  rewrite filter_In, IH, negb_true_iff. split.
  - intros [H|[H _]]; auto.
  - intros [H|H]; auto.
    destruct (eqb y x) eqn:E; [left; now apply eqb_eq | right; auto].
Qed.

Lemma dedupe_NoDup (l : list K) : NoDup (dedupe eqb l).
Proof.
  induction l as [|y l IH]; simpl; constructor.
  - rewrite filter_In, negb_true_iff. intros [_ H].
    assert (eqb y y = true) by now apply eqb_eq. congruence.
  - now apply NoDup_filter.
Qed.

Lemma group_keys_NoDup (rs : list Row) : NoDup (group_keys eqb leb key rs).
Proof.
  unfold group_keys.
  apply (Permutation_NoDup (l := dedupe eqb (keys_of key rs)));
    [symmetry; apply sort_perm | apply dedupe_NoDup].
Qed.

Lemma keys_of_In (rs : list Row) (r : Row) (k : K) :
  In r rs -> key r = Some k -> In k (keys_of key rs).
Proof.
  intros Hr Hk. unfold keys_of. apply in_flat_map. exists r.
  rewrite Hk. split; [assumption | now left].
Qed.

Lemma group_keys_In (rs : list Row) (r : Row) (k : K) :
  In r rs -> key r = Some k -> In k (group_keys eqb leb key rs).
Proof.
  intros Hr Hk. unfold group_keys.
  apply (Permutation_in (l := dedupe eqb (keys_of key rs)));
    [symmetry; apply sort_perm|].
  apply dedupe_In. now apply keys_of_In with (r := r).
Qed.

Lemma groupby_fst (rs : list Row) :
  map fst (groupby eqb leb key rs) = group_keys eqb leb key rs.
Proof.
  unfold groupby, group_keys. rewrite map_map. simpl. apply map_id.
Qed.

(** A group holds the rows that carry its key, in table order. *)
Lemma groupby_In (rs : list Row) (g : K * list Row) :
  In g (groupby eqb leb key rs) ->
  snd g = filter (has_key eqb key (fst g)) rs.
Proof.
  unfold groupby. intros H. apply in_map_iff in H as [k [<- _]]. reflexivity.
Qed.

Lemma count_key_once (k0 : K) (ks : list K) :
  NoDup ks -> In k0 ks ->
  list_sum (map (fun k => if eqb k0 k then 1 else 0)%nat ks) = 1%nat.
Proof.
  induction 1 as [|k ks Hk Hnd IH]; intros Hin; [destruct Hin|].
  simpl. destruct (eqb k0 k) eqn:E.
  - apply eqb_eq in E. subst k.
    assert (Hz : list_sum (map (fun k => if eqb k0 k then 1 else 0)%nat ks)
                 = 0%nat).
    { clear IH Hin Hnd. induction ks as [|k ks IHk]; [reflexivity|].
      simpl. destruct (eqb k0 k) eqn:E'.
      - apply eqb_eq in E'. subst k. exfalso. apply Hk. now left.
      - apply IHk. intros H. apply Hk. now right. }
    lia.
  - destruct Hin as [->|Hin].
    + assert (eqb k0 k0 = true) by now apply eqb_eq. congruence.
    + now rewrite IH.
Qed.

Lemma group_sizes_sum (ks : list K) (rs : list Row) :
  NoDup ks ->
  (forall r k, In r rs -> key r = Some k -> In k ks) ->
  list_sum (map (fun k => List.length (filter (has_key eqb key k) rs)) ks)
  = List.length (filter (keyed key) rs).
Proof.
  intros Hnd. induction rs as [|r rs IH]; intros Hall.
  - simpl. apply list_sum_zero.
  - assert (E : forall k,
               List.length (filter (has_key eqb key k) (r :: rs))
               = ((if has_key eqb key k r then 1 else 0)
                  + List.length (filter (has_key eqb key k) rs))%nat).
    { intros k. simpl. destruct (has_key eqb key k r); reflexivity. }
    rewrite (map_ext _ _ E), list_sum_map_add.
    rewrite IH by (intros r0 k Hr0; apply Hall; now right).
    cbn [filter].
    assert (Hk : keyed key r = match key r with
                               | Some _ => true
                               | None => false
                               end) by reflexivity.
    rewrite Hk. unfold has_key. destruct (key r) as [k0|] eqn:Ek.
    + rewrite count_key_once; [reflexivity | assumption|].
      apply (Hall r k0); [now left | assumption].
    + now rewrite list_sum_zero.
Qed.

(** The sizes of the groups add up to the number of rows that have a
    key. *)
Lemma groupby_sizes (rs : list Row) :
  list_sum (map (fun g => List.length (snd g)) (groupby eqb leb key rs))
  = List.length (filter (keyed key) rs).
Proof.
  unfold groupby. rewrite map_map. simpl.
  apply group_sizes_sum.
  - apply group_keys_NoDup.
  - intros r k. apply group_keys_In.
Qed.

End GroupFacts.

(* ================================================================== *)
(** * Properties: the aggregates *)
(* ================================================================== *)

Lemma string_eqb_eq (x y : string) : String.eqb x y = true <-> x = y.
Proof. apply String.eqb_eq. Qed.

Lemma list_sum_map_sort (A : Type) (leb : A -> A -> bool) (f : A -> nat)
      (l : list A) :
  list_sum (map f (sort leb l)) = list_sum (map f l).
Proof. apply list_sum_perm, Permutation_map, sort_perm. Qed.

Lemma in_sort (A : Type) (leb : A -> A -> bool) (x : A) (l : list A) :
  In x (sort leb l) -> In x l.
Proof. apply Permutation_in, sort_perm. Qed.

(** The count the merge attaches to a batch is the size of its group. *)
Lemma merged_count_group (groups : list (string * list Row))
      (g : string * list Row) :
  NoDup (map fst groups) -> In g groups ->
  merged_count (map (fun h => (fst h, List.length (snd h))) groups) (fst g)
  = List.length (snd g).
Proof.
  unfold merged_count. induction groups as [|h groups IH]; intros Hnd Hin;
    [destruct Hin|].
  inversion Hnd as [|? ? Hh Hnd']; subst. simpl.
  destruct (String.eqb_spec (fst h) (fst g)) as [E|E].
  - destruct Hin as [->|Hin]; [reflexivity|].
    exfalso. apply Hh. rewrite E. now apply in_map.
  - destruct Hin as [->|Hin]; [congruence|]. now apply IH.
Qed.

(** The counts of the table add up to the number of rows whose batch name
    is not missing. *)
Lemma merged_counts_sum (i : nat) (rs : list Row) :
  list_sum (map (fun g => merged_count (enrollment_counts i rs) (fst g))
                (groupby_str i rs))
  = List.length (filter (keyed (str_key i)) rs).
Proof.
  unfold enrollment_counts.
  rewrite (map_ext_in _ (fun g => List.length (snd g))).
  - apply (groupby_sizes _ String.eqb String.leb string_eqb_eq).
  - intros g Hg. apply merged_count_group; [|assumption].
    unfold groupby_str.
    rewrite (groupby_fst _ String.eqb String.leb (str_key i) rs).
    apply (group_keys_NoDup _ String.eqb String.leb string_eqb_eq).
Qed.

(** The count cell of the footer holds the number of rows that have a
    batch name; the line under the table holds the number of rows. *)
Section TableFacts.

Context {Num : Numeric}.

Lemma summary_table_count (i j : nat) (fdf : DataFrame) :
  In (FCount (List.length (filter (keyed (str_key i)) (rows fdf))))
     (footer_cells (summary_table i j fdf)).
Proof.
  unfold summary_table. cbn [footer_cells]. unfold sort_rows_desc.
  rewrite list_sum_map_sort, map_map. cbn [total_enrollments].
  rewrite merged_counts_sum.
  apply in_map_iff. exists TotalEnrollments. split; [reflexivity|].
  rewrite !in_app_iff. right. right. right. right. now left.
Qed.

Lemma footer_count_named_rows (fdf : DataFrame) (t : BatchTable) :
  batch_table fdf = Table t ->
  exists i,
    Pandas.col_index "name" (columns fdf) = Some i
    /\ In (FCount (List.length (filter (keyed (str_key i)) (rows fdf))))
          (footer_cells t)
    /\ caption_enrollments t = Pandas.len fdf.
Proof.
  unfold batch_table.
  destruct (Pandas.col_index "name" (columns fdf)) as [i|]; [|discriminate].
  destruct (Pandas.col_index "Exam_2" (columns fdf)) as [j|]; [|discriminate].
  intros [= <-]. exists i. split; [reflexivity|]. split; [|reflexivity].
  apply summary_table_count.
Qed.

Lemma export_sheet_count (t : Dtype) (i : nat) (fdf : DataFrame) :
  In (XCount (List.length (filter (keyed (str_key i)) (rows fdf))))
     (total_row (export_sheet t i fdf)).
Proof.
  unfold export_sheet. cbn [total_row].
  apply in_map_iff. exists XTotalEnrollments. split; [|right; now left].
  cbn [total_cell]. unfold sort_export_desc.
  rewrite list_sum_map_sort, map_map. cbn [x_total_enrollments].
  now rewrite merged_counts_sum.
Qed.

(** The same for the total row of the exported sheet. *)
Lemma export_count_named_rows (t : Dtype) (fdf : DataFrame)
      (sh : ExportSheet) :
  export_table t fdf = Some (Some sh) ->
  exists i,
    Pandas.col_index "name" (columns fdf) = Some i
    /\ In (XCount (List.length (filter (keyed (str_key i)) (rows fdf))))
          (total_row sh).
Proof.
  unfold export_table.
  destruct (Pandas.col_index "name" (columns fdf)) as [i|]; [|discriminate].
  intros H. exists i. split; [reflexivity|].
  destruct (Pandas.col_index "Exam_2" (columns fdf)),
    (Pandas.col_index "net_amount" (columns fdf)),
    (Pandas.col_index "leader_fin" (columns fdf));
    try discriminate H;
    injection H as <-; apply export_sheet_count.
Qed.

(** When every row has a batch name the count is the number of rows. *)
Lemma footer_count_all_named (fdf : DataFrame) (t : BatchTable) (i : nat) :
  batch_table fdf = Table t ->
  Pandas.col_index "name" (columns fdf) = Some i ->
  Forall (fun r => keyed (str_key i) r = true) (rows fdf) ->
  In (FCount (Pandas.len fdf)) (footer_cells t).
Proof.
  intros Ht Hi Hall.
  destruct (footer_count_named_rows fdf t Ht) as [i' [Hi' [Hin _]]].
  rewrite Hi in Hi'. injection Hi' as <-.
  now rewrite (filter_all _ _ _ Hall) in Hin.
Qed.

(** C4 fails on the code.  The two worksheets of [Tables.exam_sheets]
    load into a table of four rows, the fourth from the worksheet
    without a batch column; [update_dashboard] filters it (dates 1 to 6
    January 2024, no other restriction) and keeps the four rows.  The
    count cell of the totals row is 3, both in the table shown (whose
    caption says 4) and in the exported sheet; "TOTAL" and the blank
    cells are as the claim says. *)
Theorem totals_row_count_misses_unnamed_rows :
  (let res := load_data_from_sheets (P := Reference.parsers) false 1000%Q
                Tables.exam_sheets initial_world in
   deref (snd res) (fst res) = Tables.unnamed_row)
  /\ exists fdf,
      dashboard_filtered Tables.unnamed_row Scenario.first_week = Some fdf
      /\ Pandas.len fdf = 4%nat
      /\ match batch_table fdf with
         | Table t =>
             table_columns t
             = [BatchName; ExamCategory; TotalRevenueCr; TotalEnrollments]
             /\ nth 0 (footer_cells t) (FCount 0) = FText "TOTAL"
             /\ nth 1 (footer_cells t) (FCount 0) = FText EmptyString
             /\ nth 3 (footer_cells t) (FText EmptyString) = FCount 3
             /\ caption_enrollments t = 4%nat
         | _ => False
         end
      /\ forall t,
          match export_table t fdf with
          | Some (Some sh) =>
              export_columns sh
              = [XBatchName; XTotalEnrollments; XExamCategory;
                 XTotalRevenueCr]
              /\ nth 0 (total_row sh) (XCount 0) = XText "TOTAL"
              /\ nth 1 (total_row sh) (XText EmptyString) = XCount 3
              /\ nth 2 (total_row sh) (XCount 0) = XText EmptyString
          | _ => False
          end.
Proof.
  split; [vm_compute; reflexivity|].
  exists Tables.unnamed_row. split; [vm_compute; reflexivity|].
  split; [reflexivity|]. split; [|intros t]; vm_compute; repeat split.
Qed.

End TableFacts.

(** The scenario's table is the one the loader builds from its
    worksheets. *)
Remark scenario_table_loaded :
  let res := load_data_from_sheets (P := Reference.parsers) false 1000%Q
               Scenario.two_sheets initial_world in
  deref (snd res) (fst res) = Scenario.enrollments.
Proof. vm_compute. reflexivity. Qed.

(** C5 fails on the code.  On the table loaded from
    [Tables.exam_sheets] and filtered by [update_dashboard] (dates 1 to 6
    January 2024), the trend groups on the timestamp, not on the calendar
    date: the two rows of 5 January 2024, one at 09:00 and one at 17:00,
    give two points, both displayed as "05 Jan 2024", each with count
    1. *)
Theorem trend_splits_a_calendar_date :
  (let res := load_data_from_sheets (P := Reference.parsers) false 1000%Q
                Tables.exam_sheets initial_world in
   deref (snd res) (fst res) = Tables.unnamed_row)
  /\ exists fdf,
      dashboard_filtered Tables.unnamed_row Scenario.first_week = Some fdf
      /\ last_7_trend (datetime_dtype Tables.unnamed_row)
                      (end_date Scenario.first_week) fdf
         = Figure [mkTrendPoint 1704240000000000000 1 "03 Jan 2024";
                   mkTrendPoint 1704326400000000000 1 "04 Jan 2024";
                   mkTrendPoint 1704445200000000000 1 "05 Jan 2024";
                   mkTrendPoint 1704474000000000000 1 "05 Jan 2024"]
      /\ Calendar.day_number 1704445200000000000
         = Calendar.day_number 1704474000000000000.
Proof.
  split; [vm_compute; reflexivity|].
  exists Tables.unnamed_row. split; [vm_compute; reflexivity|].
  vm_compute. split; reflexivity.
Qed.


Lemma in_firstn (A : Type) (n : nat) (x : A) (l : list A) :
  In x (firstn n l) -> In x l.
Proof.
  revert l; induction n as [|n IH]; intros l H; [destruct H|].
  destruct l as [|y l]; [destruct H|].
  destruct H as [H|H]; [now left | right; now apply IH].
Qed.

Section RevenueFacts.

Context {Num : Numeric}.







End RevenueFacts.



(* ================================================================== *)
(** * Properties: the recent-window trend *)
(* ================================================================== *)

Lemma insert_sorted_Z (x : Z) (l : list Z) :
  Sorted Z.le l -> Sorted Z.le (insert Z.leb x l).
Proof.
  induction 1 as [|y l Hs IH Hhd]; simpl.
  - repeat constructor.
  - destruct (Z.leb_spec x y) as [Hle|Hgt].
    + constructor; [now constructor | constructor; assumption].
    + constructor; [exact IH|].
      destruct l as [|z l]; simpl.
      * constructor. lia.
      * destruct (Z.leb_spec x z); constructor; try lia.
        now inversion Hhd.
Qed.

Lemma sort_sorted_Z (l : list Z) : Sorted Z.le (sort Z.leb l).
Proof.
  induction l as [|x l IH]; simpl; [constructor | now apply insert_sorted_Z].
Qed.

Lemma keys_of_source (K : Type) (key : Row -> option K) (rs : list Row)
      (k : K) :
  In k (keys_of key rs) -> exists r, In r rs /\ key r = Some k.
Proof.
  unfold keys_of. intros H. apply in_flat_map in H as [r [Hr Hk]].
  exists r. split; [assumption|].
  destruct (key r) as [k'|]; [|destruct Hk].
  destruct Hk as [->|[]]. reflexivity.
Qed.

Lemma date_keys_source (i : nat) (rs : list Row) (t : Z) :
  In t (group_keys Z.eqb Z.leb (date_key i) rs) ->
  exists r, In r rs /\ date_key i r = Some t.
Proof.
  unfold group_keys. intros H. apply in_sort in H.
  apply (proj1 (dedupe_In _ Z.eqb Z.leb Z.eqb_eq _ _)) in H.
  exact (keys_of_source Z (date_key i) rs t H).
Qed.

(** X17.  What the trend is on the code.  It is produced only on a
    datetime column; on a column of the object type, as in the empty
    table of the fixed schema, the block raises.  It has one point per
    distinct timestamp of the recent window: every timestamp a row of the
    window carries has its point, and no other point exists; the points
    come in ascending order of timestamp, each with the number of rows
    that carry that very timestamp (at least one), labelled with the
    calendar date of the timestamp.  The rows of the window are the
    filtered rows dated no earlier than seven days before the end
    date. *)
Lemma recent_trend_by_timestamp (datetimelike : bool) (e : Z)
      (fdf : DataFrame) (pts : list TrendPoint) :
  last_7_trend datetimelike e fdf = Figure pts ->
  let l7 := last_7_days_df e fdf in
  datetimelike = true
  /\ last_7_trend false e fdf = FigureRaised
  /\ Sorted Z.le (map converteddate pts)
  /\ NoDup (map converteddate pts)
  /\ (forall t, In t (map converteddate pts)
                <-> exists r, In r (rows l7)
                              /\ Pandas.cell l7 "converteddate" r
                                 = Some (CDate t))
  /\ (forall p, In p pts ->
                count p = List.length (filter (dated l7 (converteddate p))
                                              (rows l7))
                /\ (0 < count p)%nat
                /\ date_display p = Calendar.strftime_d_b_Y (converteddate p))
  /\ (forall i, Pandas.col_index "converteddate" (columns fdf) = Some i ->
                rows l7
                = filter (fun r => date_ge (Pandas.cell_at i r)
                                           (e - Calendar.days 7)%Z)
                         (rows fdf)).
Proof.
  intros H l7. unfold last_7_trend in *. fold l7 in H. fold l7.
  destruct (Pandas.col_index "converteddate" (columns l7)) as [i|] eqn:Ei;
    [|discriminate].
  destruct datetimelike; [|discriminate]. injection H as <-.
  assert (Hk : map converteddate
                   (map (fun g : Z * list Row =>
                           mkTrendPoint (fst g) (List.length (snd g))
                                        (Calendar.strftime_d_b_Y (fst g)))
                        (groupby_date i (rows l7)))
               = group_keys Z.eqb Z.leb (date_key i) (rows l7)).
  { rewrite map_map. cbn [converteddate].
    apply (groupby_fst _ Z.eqb Z.leb (date_key i) (rows l7)). }
  split; [reflexivity|]. split; [reflexivity|].
  split; [|split; [|split; [|split]]].
  - rewrite Hk. apply sort_sorted_Z.
  - rewrite Hk. apply (group_keys_NoDup _ Z.eqb Z.leb Z.eqb_eq).
  - intros t. rewrite Hk. unfold Pandas.cell. rewrite Ei. cbn [option_map].
    split.
    + intros Hin. apply date_keys_source in Hin as [r [Hr Hkey]].
      exists r. split; [exact Hr|]. unfold date_key in Hkey.
      destruct (Pandas.cell_at i r); try discriminate Hkey.
      now injection Hkey as ->.
    + intros [r [Hr Hc]].
      apply (group_keys_In _ Z.eqb Z.leb Z.eqb_eq (date_key i) (rows l7) r t);
        [exact Hr|].
      unfold date_key. injection Hc as ->. reflexivity.
  - intros p Hp. apply in_map_iff in Hp as [g [<- Hg]].
    cbn [count converteddate date_display].
    assert (Hsnd : snd g = filter (dated l7 (fst g)) (rows l7)).
    { rewrite (groupby_In _ Z.eqb Z.leb (date_key i) (rows l7) g Hg).
      apply filter_ext. intros r. unfold has_key, date_key, dated.
      rewrite Ei. destruct (Pandas.cell_at i r); reflexivity. }
    split; [now rewrite Hsnd | split; [|reflexivity]].
    assert (Hin : In (fst g) (group_keys Z.eqb Z.leb (date_key i) (rows l7))).
    { rewrite <- (groupby_fst _ Z.eqb Z.leb (date_key i) (rows l7)).
      now apply in_map. }
    apply date_keys_source in Hin as [r [Hr Hkey]].
    rewrite (groupby_In _ Z.eqb Z.leb (date_key i) (rows l7) g Hg).
    assert (Hf : In r (filter (has_key Z.eqb (date_key i) (fst g)) (rows l7))).
    { apply filter_In. split; [assumption|]. unfold has_key. rewrite Hkey.
      apply Z.eqb_refl. }
    destruct (filter (has_key Z.eqb (date_key i) (fst g)) (rows l7))
      as [|x rest]; [destruct Hf | simpl; lia].
  - intros j Hj. unfold l7, last_7_days_df. now rewrite Hj.
Qed.

(* ================================================================== *)
(** * Further properties: the loader *)
(* ================================================================== *)

Lemma cache_hit_none_iff (force_refresh : bool) (t : Q) (w : World) :
  cache_hit force_refresh t w = None <->
  force_refresh = true
  \/ DATA_CACHE w = None
  \/ CACHE_TIMESTAMP w = None
  \/ exists ts, CACHE_TIMESTAMP w = Some ts /\ (CACHE_DURATION <= t - ts)%Q.
Proof.
  unfold cache_hit. destruct force_refresh; simpl.
  - split; auto.
  - destruct (DATA_CACHE w) as [r|]; [|split; auto].
    destruct (CACHE_TIMESTAMP w) as [ts|]; [|split; auto].
    destruct (Qltb (t - ts) CACHE_DURATION) eqn:E.
    + split; [discriminate|].
      intros [H|[H|[H|[ts' [[= <-] H]]]]]; try discriminate.
      apply Qltb_lt in E. exfalso. now apply (Qlt_not_le _ _ E).
    + split; [|reflexivity]. intros _. right. right. right.
      exists ts. split; [reflexivity|].
      apply Qnot_lt_le. intros Hlt. apply Qltb_lt in Hlt. congruence.
Qed.

Section LoaderExtras.

Context {P : Parsers}.

Lemma fetch_count_attempted (R : Remote) (w : World) :
  fetch_count (attempted R w) = S (fetch_count w).
Proof.
  unfold fetch_count, attempted; cbn [calls].
  rewrite filter_app, length_app, fetch_events_one_attempt. lia.
Qed.

Lemma load_miss_calls (force_refresh : bool) (t : Q) (R : Remote) (w : World) :
  cache_hit force_refresh t w = None ->
  calls (snd (load_data_from_sheets force_refresh t R w))
  = calls w ++ fst (fetch_and_normalize R).
Proof.
  intros Hmiss. destruct (snd (fetch_and_normalize R)) as [| |df] eqn:Eo.
  - rewrite load_miss_empty by (auto; congruence). reflexivity.
  - rewrite load_miss_empty by (auto; congruence). reflexivity.
  - rewrite (load_miss_loaded _ _ _ _ df Hmiss Eo). reflexivity.
Qed.

Lemma load_miss_fetch_count (force_refresh : bool) (t : Q) (R : Remote)
      (w : World) :
  cache_hit force_refresh t w = None ->
  fetch_count (snd (load_data_from_sheets force_refresh t R w))
  = S (fetch_count w).
Proof.
  intros Hmiss. unfold fetch_count. rewrite load_miss_calls by assumption.
  apply (fetch_count_attempted R w).
Qed.

(** X1.  When no credentials can be obtained (the environment variable is
    unset, empty or does not hold a usable key, and the key file is absent
    or unusable) a load asks for the credentials and makes no other call:
    no authorisation, no spreadsheet is opened, no worksheet is read; it
    returns the empty table and leaves the cache variables alone.  A
    usable environment variable is taken before the file, and an unusable
    one does not prevent the file from being used. *)
Theorem no_credentials_no_remote_call (R : Remote) :
  (get_google_credentials R = None <->
   (env_credentials R = None \/ env_credentials R = Some EmptyString
    \/ env_credentials_valid R = false)
   /\ (file_exists R = false \/ file_valid R = false))
  /\ (get_google_credentials R = None ->
      fetch_and_normalize R = ([EvCredentials], Raised)
      /\ forall force_refresh t w,
          cache_hit force_refresh t w = None ->
          let res := load_data_from_sheets force_refresh t R w in
          deref (snd res) (fst res) = EMPTY_SCHEMA
          /\ calls (snd res) = calls w ++ [EvCredentials]
          /\ DATA_CACHE (snd res) = DATA_CACHE w
          /\ CACHE_TIMESTAMP (snd res) = CACHE_TIMESTAMP w)
  /\ (env_credentials_valid R = true ->
      (exists c s, env_credentials R = Some (String c s)) ->
      get_google_credentials R = Some FromEnvironment)
  /\ (file_exists R = true -> file_valid R = true ->
      get_google_credentials R <> None).
Proof.
  split; [|split; [|split]].
  - unfold get_google_credentials.
    destruct (env_credentials R) as [[|c s]|], (env_credentials_valid R),
      (file_exists R), (file_valid R); simpl;
      split; try discriminate; intuition (try discriminate; auto).
  - intros Hn.
    assert (E : fetch_and_normalize R = ([EvCredentials], Raised))
      by (unfold fetch_and_normalize; now rewrite Hn).
    split; [exact E|]. intros f t w Hmiss res. unfold res.
    rewrite load_miss_empty by (auto; rewrite E; discriminate).
    rewrite deref_alloc_new. unfold attempted. rewrite E.
    repeat split.
  - intros Hv [c [s Hs]]. unfold get_google_credentials. now rewrite Hs, Hv.
  - intros He Hv. unfold get_google_credentials. rewrite He, Hv.
    destruct (env_credentials R) as [[|c s]|]; try discriminate.
    destruct (env_credentials_valid R); discriminate.
Qed.

(** X2.  A call contacts the source exactly when it is forced, when
    nothing is cached, or when the cached table is 300 seconds old or
    older (at exactly 300 seconds it is no longer served); it then makes
    one attempt.  Otherwise it makes none. *)
Theorem fetch_exactly_when_stale
        (force_refresh : bool) (t : Q) (R : Remote) (w : World) :
  let w' := snd (load_data_from_sheets force_refresh t R w) in
  (fetch_count w' = S (fetch_count w) <->
   force_refresh = true
   \/ DATA_CACHE w = None
   \/ CACHE_TIMESTAMP w = None
   \/ exists ts, CACHE_TIMESTAMP w = Some ts /\ (CACHE_DURATION <= t - ts)%Q)
  /\ (fetch_count w' = fetch_count w <->
      force_refresh = false
      /\ exists r ts, DATA_CACHE w = Some r /\ CACHE_TIMESTAMP w = Some ts
                      /\ (t - ts < CACHE_DURATION)%Q).
Proof.
  intros w'. unfold w'.
  destruct (cache_hit force_refresh t w) as [r|] eqn:Eh.
  - rewrite (load_hit _ _ R _ _ Eh).
    assert (Hc : fetch_count (snd (copy r w)) = fetch_count w) by reflexivity.
    rewrite Hc. split.
    + split; [lia|]. intros H. apply cache_hit_none_iff in H. congruence.
    + split; [|reflexivity]. intros _.
      unfold cache_hit in Eh. destruct force_refresh; [discriminate|].
      simpl in Eh. split; [reflexivity|].
      destruct (DATA_CACHE w) as [r0|]; [|discriminate].
      destruct (CACHE_TIMESTAMP w) as [ts|]; [|discriminate].
      destruct (Qltb (t - ts) CACHE_DURATION) eqn:E; [|discriminate].
      exists r0, ts. repeat split. now apply Qltb_lt.
  - rewrite load_miss_fetch_count by assumption. split.
    + split; [|reflexivity]. intros _. now apply cache_hit_none_iff.
    + split; [lia|]. intros [-> (r & ts & Hr & Hts & Hlt)].
      rewrite (cache_hit_within t ts w r Hr Hts Hlt) in Eh. discriminate.
Qed.

(** X3.  A load that succeeds returns one new frame object and caches
    another: the two hold the loaded table, they are different objects,
    and neither existed before the call; the timestamp recorded is the
    time read at the start of the call.  A caller that changes the frame
    it received in place does not change the cached table. *)
Theorem successful_load_caches_a_copy
        (force_refresh : bool) (t : Q) (R : Remote) (w : World)
        (df : DataFrame) :
  cache_hit force_refresh t w = None ->
  snd (fetch_and_normalize R) = Loaded df ->
  let res := load_data_from_sheets force_refresh t R w in
  deref (snd res) (fst res) = df
  /\ (List.length (heap w) <= fst res)%nat
  /\ CACHE_TIMESTAMP (snd res) = Some t
  /\ exists rc,
      DATA_CACHE (snd res) = Some rc
      /\ rc <> fst res
      /\ (List.length (heap w) <= rc)%nat
      /\ deref (snd res) rc = df
      /\ forall df', deref (mutate (fst res) df' (snd res)) rc = df.
Proof.
  intros Hmiss Hout res. unfold res.
  rewrite (load_miss_loaded _ _ _ _ df Hmiss Hout). cbn [fst snd].
  set (w' := mkWorld _ _ _ _).
  assert (Hd : forall k, (k < 2)%nat ->
                 deref w' (List.length (heap w) + k) = df).
  { intros k Hk. unfold deref, w'; cbn [heap].
    rewrite app_nth2_plus. destruct k as [|[|k]]; [reflexivity..|lia]. }
  assert (H0 : deref w' (List.length (heap w)) = df).
  { rewrite <- (Hd 0%nat) by lia. f_equal; lia. }
  assert (H1 : deref w' (S (List.length (heap w))) = df).
  { rewrite <- (Hd 1%nat) by lia. f_equal; lia. }
  split; [exact H0|]. split; [lia|]. split; [reflexivity|].
  exists (S (List.length (heap w))).
  split; [reflexivity|]. split; [lia|]. split; [lia|]. split; [exact H1|].
  intros df'. rewrite deref_mutate_other by lia. exact H1.
Qed.

(** X4.  Whatever the call does, every frame that existed before it is
    left as it was: the loader only creates frames (one on a hit or on a
    failed attempt, two on a successful load). *)
Theorem loader_only_allocates
        (force_refresh : bool) (t : Q) (R : Remote) (w : World) :
  let w' := snd (load_data_from_sheets force_refresh t R w) in
  (forall r, (r < List.length (heap w))%nat -> deref w' r = deref w r)
  /\ (List.length (heap w) < List.length (heap w')
      <= List.length (heap w) + 2)%nat
  /\ fst (load_data_from_sheets force_refresh t R w) = List.length (heap w).
Proof.
  intros w'. unfold w'.
  destruct (cache_hit force_refresh t w) as [r|] eqn:Eh.
  - rewrite (load_hit _ _ R _ _ Eh). unfold copy. split; [|split].
    + intros r0 Hr0. now apply deref_alloc_old.
    + unfold alloc; cbn [snd heap]. rewrite length_app. simpl. lia.
    + reflexivity.
  - destruct (snd (fetch_and_normalize R)) as [| |df] eqn:Eo.
    + rewrite load_miss_empty by (auto; congruence). split; [|split].
      * intros r0 Hr0.
        now apply (deref_alloc_old EMPTY_SCHEMA (attempted R w)).
      * unfold alloc, attempted; cbn [snd heap]. rewrite length_app.
        simpl. lia.
      * reflexivity.
    + rewrite load_miss_empty by (auto; congruence). split; [|split].
      * intros r0 Hr0.
        now apply (deref_alloc_old EMPTY_SCHEMA (attempted R w)).
      * unfold alloc, attempted; cbn [snd heap]. rewrite length_app.
        simpl. lia.
      * reflexivity.
    + rewrite (load_miss_loaded _ _ _ _ df Eh Eo). cbn [fst snd].
      split; [|split].
      * intros r0 Hr0. unfold deref; cbn [heap]. now apply app_nth1.
      * cbn [heap]. rewrite !length_app. simpl. lia.
      * reflexivity.
Qed.

(** X5.  A failure is never cached.  As long as no load has succeeded,
    the cache stays empty and every call contacts the source again,
    however soon it follows the previous one: two calls in a row make two
    attempts. *)
Theorem failures_are_not_cached
        (f1 f2 : bool) (t1 t2 : Q) (R1 R2 : Remote) (w : World) :
  DATA_CACHE w = None ->
  (forall df, snd (fetch_and_normalize R1) <> Loaded df) ->
  let res1 := load_data_from_sheets f1 t1 R1 w in
  let res2 := load_data_from_sheets f2 t2 R2 (snd res1) in
  deref (snd res1) (fst res1) = EMPTY_SCHEMA
  /\ DATA_CACHE (snd res1) = None
  /\ fetch_count (snd res1) = S (fetch_count w)
  /\ fetch_count (snd res2) = S (S (fetch_count w)).
Proof.
  intros Hc Hout res1 res2.
  assert (Hm1 : cache_hit f1 t1 w = None)
    by (apply cache_hit_none_iff; auto).
  assert (E1 : load_data_from_sheets f1 t1 R1 w
               = alloc EMPTY_SCHEMA (attempted R1 w))
    by now apply load_miss_empty.
  assert (Hc1 : DATA_CACHE (snd res1) = None)
    by (unfold res1; rewrite E1; exact Hc).
  assert (Hm2 : cache_hit f2 t2 (snd res1) = None)
    by (apply cache_hit_none_iff; auto).
  split; [|split; [|split]].
  - unfold res1. rewrite E1. apply deref_alloc_new.
  - exact Hc1.
  - unfold res1. now apply load_miss_fetch_count.
  - unfold res2. rewrite load_miss_fetch_count by assumption.
    unfold res1. now rewrite load_miss_fetch_count.
Qed.

End LoaderExtras.

Lemma failures_are_not_cached_witness :
  let res1 := load_data_from_sheets (P := Reference.parsers) false 1000%Q
                Scenario.outage initial_world in
  let res2 := load_data_from_sheets (P := Reference.parsers) false 1001%Q
                Scenario.outage (snd res1) in
  deref (snd res1) (fst res1) = EMPTY_SCHEMA
  /\ DATA_CACHE (snd res1) = None
  /\ fetch_count (snd res1) = 1%nat
  /\ fetch_count (snd res2) = 2%nat.
Proof.
  apply (failures_are_not_cached (P := Reference.parsers) false false
           1000%Q 1001%Q Scenario.outage Scenario.outage initial_world).
  - reflexivity.
  - intros df. discriminate.
Defined.

Lemma successful_load_caches_a_copy_witness :
  let res := load_data_from_sheets (P := Reference.parsers) true 1500%Q
               Scenario.two_sheets Scenario.warm in
  deref (snd res) (fst res) = Scenario.enrollments
  /\ CACHE_TIMESTAMP (snd res) = Some 1500%Q.
Proof.
  pose proof (successful_load_caches_a_copy (P := Reference.parsers)
                true 1500%Q Scenario.two_sheets Scenario.warm
                Scenario.enrollments eq_refl eq_refl) as H.
  cbv zeta in H. destruct H as (H1 & _ & H2 & _).
  intros res. split; assumption.
Defined.

Lemma no_credentials_no_remote_call_witness :
  fetch_and_normalize (P := Reference.parsers) Scenario.outage
  = ([EvCredentials], Raised).
Proof.
  apply (proj1 (proj2 (no_credentials_no_remote_call (P := Reference.parsers)
                         Scenario.outage))).
  reflexivity.
Defined.

(* ================================================================== *)
(** * Further properties: header rows and labels *)
(* ================================================================== *)

Lemma scan_header_bound (i k : nat) (data : list (list string)) :
  scan_header i data = Some k -> (i <= k < i + List.length data)%nat.
Proof.
  revert i; induction data as [|row data IH]; intros i H; simpl in *;
    [discriminate|].
  destruct (is_header_row row).
  - inversion H; lia.
  - apply IH in H. lia.
Qed.

Lemma header_row_in_bounds (data : list (list string)) :
  data <> [] -> (header_row data < List.length data)%nat.
Proof.
  intros Hne. unfold header_row.
  destruct (scan_header 0 data) as [k|] eqn:E.
  - apply scan_header_bound in E. lia.
  - destruct data; [congruence | simpl; lia].
Qed.

Lemma Forall_skipn (A : Type) (Q : A -> Prop) (n : nat) (l : list A) :
  Forall Q l -> Forall Q (skipn n l).
Proof.
  revert l; induction n as [|n IH]; intros l H; [exact H|].
  destruct l as [|x l]; [constructor|]. simpl. apply IH. now inversion H.
Qed.

(** X6.  On a worksheet that has at least one row, [data[header_row]]
    never fails: the header index is always a row of the sheet.  When the
    sheet is a grid (all rows of the same width, as the worksheet client
    returns them) the frame is always built: its labels are the header
    row, its rows are the rows below the header, cell for cell, and none
    of the rows above the header is in it.  A worksheet without any row
    makes the statement raise. *)
Theorem grid_sheet_builds_frame (data : list (list string)) (n : nat) :
  data <> [] ->
  Forall (fun r => List.length r = n) data ->
  (header_row data < List.length data)%nat
  /\ raw_frame data
     = Some (mkDataFrame (nth (header_row data) data [])
                         (map (map CStr) (skipn (S (header_row data)) data)))
  /\ raw_frame [] = None.
Proof.
  intros Hne Hall.
  pose proof (header_row_in_bounds data Hne) as Hlt.
  split; [exact Hlt|]. split; [|reflexivity].
  unfold raw_frame.
  destruct (nth_error data (header_row data)) as [hdr|] eqn:Eh;
    [|apply nth_error_None in Eh; lia].
  rewrite (nth_error_nth _ _ [] Eh).
  assert (Hh : List.length hdr = n).
  { apply nth_error_In in Eh. rewrite Forall_forall in Hall. now apply Hall. }
  pose proof (Forall_skipn _ _ (S (header_row data)) _ Hall) as Hb.
  unfold Pandas.DataFrame_of.
  destruct (skipn (S (header_row data)) data) as [|r below] eqn:Es;
    [reflexivity|].
  rewrite (max_width_uniform n) by (auto; discriminate).
  rewrite Hh, Nat.eqb_refl. do 2 f_equal.
  apply map_ext_in. intros r0 Hr0. rewrite Forall_forall in Hb.
  rewrite <- (Hb r0 Hr0). apply pad_exact.
Qed.

Lemma grid_sheet_builds_frame_witness :
  raw_frame [["Report"; "x"]; ["_id"; "name"]; ["1"; "A"]]
  = Some (mkDataFrame ["_id"; "name"] [[CStr "1"; CStr "A"]]).
Proof.
  apply (proj1 (proj2 (grid_sheet_builds_frame
                         [["Report"; "x"]; ["_id"; "name"]; ["1"; "A"]] 2
                         ltac:(discriminate) ltac:(repeat constructor)))).
Defined.

Module CaseFacts.

Import PyStr.
Local Open Scope string_scope.

Lemma lower_char_quote (q c : ascii) :
  is_quote q -> Ascii.eqb q (lower_char c) = Ascii.eqb q c.
Proof.
  intros [-> | ->]; destruct c as [[] [] [] [] [] [] [] []]; reflexivity.
Qed.

Lemma mem_char_lower (q : ascii) (s : string) :
  is_quote q -> mem_char q (lower s) = mem_char q s.
Proof.
  intros Hq. induction s as [|c s IH]; simpl; [reflexivity|].
  now rewrite lower_char_quote, IH.
Qed.

Lemma repr_quote_lower (s : string) : repr_quote (lower s) = repr_quote s.
Proof.
  unfold repr_quote.
  rewrite !mem_char_lower; [reflexivity | now right | now left].
Qed.

Lemma lower_repr_char (q c : ascii) :
  is_quote q -> lower (repr_char q (lower_char c)) = lower (repr_char q c).
Proof.
  intros [-> | ->]; destruct c as [[] [] [] [] [] [] [] []]; reflexivity.
Qed.

Lemma lower_repr_body (q : ascii) (s : string) :
  is_quote q -> lower (repr_body q (lower s)) = lower (repr_body q s).
Proof.
  intros Hq. induction s as [|c s IH]; simpl; [reflexivity|].
  now rewrite !PyStrFacts.lower_app, lower_repr_char, IH.
Qed.

Lemma lower_char_idem (c : ascii) : lower_char (lower_char c) = lower_char c.
Proof. destruct c as [[] [] [] [] [] [] [] []]; reflexivity. Qed.

Lemma lower_idem (s : string) : lower (lower s) = lower s.
Proof.
  induction s as [|c s IH]; simpl; [reflexivity|].
  now rewrite lower_char_idem, IH.
Qed.

Lemma lower_repr (s : string) : lower (repr (lower s)) = lower (repr s).
Proof.
  unfold repr. rewrite repr_quote_lower.
  simpl. f_equal. rewrite !PyStrFacts.lower_app. f_equal.
  apply lower_repr_body, PyStrFacts.repr_quote_is_quote.
Qed.

Lemma lower_join (sep : string) (l : list string) :
  lower (join sep l) = join (lower sep) (map lower l).
Proof.
  induction l as [|x l IH]; [reflexivity|].
  destruct l as [|y l]; [reflexivity|].
  change (join sep (x :: y :: l)) with (x ++ sep ++ join sep (y :: l)).
  rewrite !PyStrFacts.lower_app, IH. reflexivity.
Qed.

(** The lower-cased text of a row depends on the cells only up to the
    case of their letters. *)
Lemma lower_str_list (row : list string) :
  lower (str_list (map lower row)) = lower (str_list row).
Proof.
  unfold str_list. rewrite !PyStrFacts.lower_app. f_equal. f_equal.
  rewrite !lower_join. f_equal. rewrite !map_map.
  apply map_ext. intros s. apply lower_repr.
Qed.

End CaseFacts.

(** X7.  Header detection does not depend on the case of the letters:
    two rows whose cells differ only in case are both header rows or both
    not, and so the header index of a sheet does not change when its
    cells are lower-cased. *)
Theorem header_detection_ignores_case :
  (forall row1 row2,
      map PyStr.lower row1 = map PyStr.lower row2 ->
      is_header_row row1 = is_header_row row2)
  /\ (forall data,
         header_row (map (map PyStr.lower) data) = header_row data).
Proof.
  assert (H : forall row, is_header_row (map PyStr.lower row)
                          = is_header_row row).
  { intros row. unfold is_header_row. destruct row as [|c row]; [reflexivity|].
    change (PyStr.lower c :: map PyStr.lower row)
      with (map PyStr.lower (c :: row)).
    now rewrite CaseFacts.lower_str_list. }
  split.
  - intros row1 row2 E. rewrite <- (H row1), <- (H row2). now rewrite E.
  - intros data. unfold header_row.
    assert (Hs : forall i, scan_header i (map (map PyStr.lower) data)
                           = scan_header i data).
    { induction data as [|row data IH]; intros i; simpl; [reflexivity|].
      now rewrite H, IH. }
    now rewrite Hs.
Qed.

Lemma header_detection_ignores_case_witness :
  is_header_row ["ID"; "Batch_NAME"] = is_header_row ["id"; "batch_name"].
Proof.
  apply (proj1 header_detection_ignores_case). reflexivity.
Defined.

Module StripFacts.

Import PyStr.
Local Open Scope string_scope.

Lemma rstrip_idem (s : string) : rstrip (rstrip s) = rstrip s.
Proof.
  induction s as [|c s IH]; [reflexivity|].
  simpl. destruct (rstrip s) as [|d r] eqn:E.
  - destruct (is_space c) eqn:Ec; [reflexivity|]. simpl. now rewrite Ec.
  - simpl. simpl in IH. destruct (rstrip r) as [|d' r'] eqn:E'.
    + destruct (is_space d); [discriminate IH | now rewrite IH].
    + now rewrite IH.
Qed.

Lemma lstrip_head (s : string) : head_kept (lstrip s).
Proof.
  induction s as [|c s IH]; simpl; [exact I|].
  destruct (is_space c) eqn:E; [exact IH | exact E].
Qed.

Lemma lstrip_fixed (s : string) : head_kept s -> lstrip s = s.
Proof. destruct s as [|c s]; simpl; [reflexivity|]. now intros ->. Qed.

Lemma rstrip_head (s : string) : head_kept s -> head_kept (rstrip s).
Proof.
  destruct s as [|c s]; simpl; [auto|]. intros Hc.
  destruct (rstrip s); [rewrite Hc|]; exact Hc.
Qed.

Lemma strip_idem (s : string) : strip (strip s) = strip s.
Proof.
  unfold strip.
  rewrite (lstrip_fixed (rstrip (lstrip s)))
    by apply rstrip_head, lstrip_head.
  apply rstrip_idem.
Qed.

Lemma rstrip_last (s : string) : last_kept (rstrip s).
Proof.
  induction s as [|c s IH]; [exact I|].
  simpl. destruct (rstrip s) as [|d r] eqn:E.
  - destruct (is_space c) eqn:Ec; simpl; auto.
  - exact IH.
Qed.

End StripFacts.

Lemma assign_columns (df : DataFrame) (c : string) (s : list Cell) :
  columns (Pandas.assign df c s) = columns df
  \/ columns (Pandas.assign df c s) = columns df ++ [c].
Proof.
  unfold Pandas.assign. destruct (Pandas.col_index c (columns df)); auto.
Qed.

Lemma copy_column_labels (df df' : DataFrame) (src dst : string)
      (Q : string -> Prop) :
  copy_column df src dst = Some df' ->
  Q dst -> Forall Q (columns df) -> Forall Q (columns df').
Proof.
  unfold copy_column. destruct (Pandas.series df src) as [s|]; [|discriminate].
  intros [= <-] Hd Hall.
  destruct (assign_columns df dst s) as [-> | ->]; [exact Hall|].
  apply Forall_app. split; [exact Hall | now constructor].
Qed.

(** X8.  Every label of the frame built for a worksheet is free of
    surrounding white space: stripping it again changes nothing, it does
    not start with a white-space character and does not end with one. *)
Theorem sheet_labels_are_stripped (data : list (list string))
        (df : DataFrame) :
  sheet_frame data = Some df ->
  Forall (fun c => PyStr.strip c = c
                   /\ head_kept c /\ last_kept c)
         (columns df).
Proof.
  set (Q := fun c => PyStr.strip c = c
                     /\ head_kept c /\ last_kept c).
  unfold sheet_frame.
  destruct (raw_frame data) as [df0|]; [|discriminate].
  set (df1 := mkDataFrame (map PyStr.strip (columns df0)) (rows df0)).
  assert (H1 : Forall Q (columns df1)).
  { unfold df1; cbn [columns]. apply Forall_forall. intros c Hc.
    apply in_map_iff in Hc as [c0 [<- _]]. unfold Q. split; [|split].
    - apply StripFacts.strip_idem.
    - apply StripFacts.rstrip_head, StripFacts.lstrip_head.
    - apply StripFacts.rstrip_last. }
  assert (Hname : Q "name") by (repeat split).
  assert (Hexam : Q "Exam_2") by (repeat split).
  assert (H2 : forall df2,
             (if Pandas.has_col df1 "batch_name"
                 && negb (Pandas.has_col df1 "name")
              then copy_column df1 "batch_name" "name"
              else Some df1) = Some df2 -> Forall Q (columns df2)).
  { intros df2. destruct (_ && _).
    - intros H. now apply (copy_column_labels df1 df2 "batch_name" "name").
    - intros [= <-]. exact H1. }
  destruct (if Pandas.has_col df1 "batch_name"
               && negb (Pandas.has_col df1 "name")
            then _ else _) as [df2|]; [|discriminate].
  specialize (H2 df2 eq_refl).
  destruct (_ && _).
  - intros H. now apply (copy_column_labels df2 df "exam_2" "Exam_2").
  - destruct (_ && _).
    + intros H. now apply (copy_column_labels df2 df "exam" "Exam_2").
    + intros [= <-]. exact H2.
Qed.

Lemma sheet_labels_are_stripped_witness :
  Forall (fun c => PyStr.strip c = c
                   /\ head_kept c /\ last_kept c)
         ["_id"; "batch_name"; "name"].
Proof.
  apply (sheet_labels_are_stripped
           [["  _id "; "batch_name  "]; ["1"; "A"]]
           (mkDataFrame ["_id"; "batch_name"; "name"]
                        [[CStr "1"; CStr "A"; CStr "A"]])).
  reflexivity.
Defined.

(* ================================================================== *)
(** * Further properties: column reconciliation *)
(* ================================================================== *)

Module AliasFacts.

Import Pandas PandasFacts.

Lemma col_index_app_l (c : string) (cols l : list string) (i : nat) :
  col_index c cols = Some i -> col_index c (cols ++ l) = Some i.
Proof.
  revert i; induction cols as [|d cols IH]; intros i H; simpl in *;
    [discriminate|].
  destruct (String.eqb c d); [exact H|].
  destruct (col_index c cols) as [j|]; [|discriminate].
  now rewrite (IH j eq_refl).
Qed.

Lemma col_index_app_new (c : string) (cols : list string) :
  col_index c cols = None -> col_index c (cols ++ [c]) = Some (List.length cols).
Proof.
  induction cols as [|d cols IH]; intros H; simpl in *.
  - now rewrite String.eqb_refl.
  - destruct (String.eqb c d); [discriminate|].
    destruct (col_index c cols); [discriminate|]. now rewrite IH.
Qed.

Lemma cell_at_app_l (i : nat) (r l : Row) :
  (i < List.length r)%nat -> cell_at i (r ++ l) = cell_at i r.
Proof. intros H. unfold cell_at. now apply app_nth1. Qed.

Lemma cell_at_app_new (r : Row) (v : Cell) :
  cell_at (List.length r) (r ++ [v]) = v.
Proof. unfold cell_at. apply nth_middle. Qed.

Lemma has_col_In (df : DataFrame) (c : string) :
  has_col df c = true <-> In c (columns df).
Proof.
  unfold has_col. rewrite existsb_exists. split.
  - intros [d [Hd E]]. apply String.eqb_eq in E. now subst.
  - intros H. exists c. split; [assumption | apply String.eqb_refl].
Qed.

Lemma has_col_not_In (df : DataFrame) (c : string) :
  has_col df c = false <-> ~ In c (columns df).
Proof.
  rewrite <- has_col_In. destruct (has_col df c); split; congruence.
Qed.

(** [df[dst] = df[src]] on a frame without a [dst] column adds the column
    as a copy. *)
Lemma copy_column_new (df df' : DataFrame) (src dst : string) :
  has_col df dst = false -> copy_column df src dst = Some df' ->
  exists i, col_index src (columns df) = Some i /\ df' = with_copy df i dst.
Proof.
  intros Hd. unfold copy_column.
  destruct (series df src) as [s|] eqn:Es; [|discriminate].
  apply series_index in Es as [i [Hi ->]]. intros [= <-].
  exists i. split; [exact Hi|].
  unfold assign, with_copy. apply has_col_index in Hd. rewrite Hd.
  f_equal. apply (combine_map_self _ _ _ (fun rv => fst rv ++ [snd rv])).
Qed.

Section WithCopy.

Variables (df : DataFrame) (i : nat) (src dst : string).
Hypothesis Hrect : rectangular df.
Hypothesis Hsrc : col_index src (columns df) = Some i.
Hypothesis Hdst : col_index dst (columns df) = None.

Lemma with_copy_rectangular : rectangular (with_copy df i dst).
Proof.
  unfold rectangular, with_copy; cbn [columns rows].
  apply Forall_forall. intros r Hr. apply in_map_iff in Hr as [r0 [<- Hin]].
  unfold rectangular in Hrect. rewrite Forall_forall in Hrect.
  rewrite !length_app. simpl. now rewrite (Hrect r0 Hin).
Qed.

Lemma with_copy_len : len (with_copy df i dst) = len df.
Proof. unfold len, with_copy; cbn [rows]. apply length_map. Qed.

(** A cell under a label the frame already had is where it was. *)
Lemma with_copy_cell (c : string) (r : Row) :
  In r (rows df) -> col_index c (columns df) <> None ->
  cell (with_copy df i dst) c (r ++ [cell_at i r]) = cell df c r.
Proof.
  intros Hr Hc. unfold cell, with_copy; cbn [columns].
  destruct (col_index c (columns df)) as [j|] eqn:Ej; [|congruence].
  rewrite (col_index_app_l c (columns df) [dst] j Ej). simpl. f_equal.
  apply cell_at_app_l. unfold rectangular in Hrect.
  rewrite Forall_forall in Hrect. rewrite (Hrect r Hr).
  now apply col_index_lt with (c := c).
Qed.

Lemma with_copy_same : same_cells (with_copy df i dst) dst src.
Proof.
  unfold same_cells. apply Forall_forall. intros r' Hr'.
  unfold with_copy in Hr'; cbn [rows] in Hr'.
  apply in_map_iff in Hr' as [r [<- Hr]].
  exists (cell_at i r). split.
  - unfold cell, with_copy; cbn [columns].
    rewrite (col_index_app_new dst (columns df) Hdst). simpl. f_equal.
    unfold rectangular in Hrect. rewrite Forall_forall in Hrect.
    rewrite <- (Hrect r Hr). apply cell_at_app_new.
  - rewrite with_copy_cell by (auto; congruence).
    unfold cell. now rewrite Hsrc.
Qed.

Lemma with_copy_keeps_same (a b : string) :
  same_cells df a b -> same_cells (with_copy df i dst) a b.
Proof.
  unfold same_cells. intros H. apply Forall_forall. intros r' Hr'.
  unfold with_copy in Hr'; cbn [rows] in Hr'.
  apply in_map_iff in Hr' as [r [<- Hr]].
  rewrite Forall_forall in H. destruct (H r Hr) as [v [Ha Hb]].
  exists v. split.
  - rewrite with_copy_cell; auto. unfold cell in Ha.
    destruct (col_index a (columns df)); [discriminate | discriminate Ha].
  - rewrite with_copy_cell; auto. unfold cell in Hb.
    destruct (col_index b (columns df)); [discriminate | discriminate Hb].
Qed.

End WithCopy.

End AliasFacts.

Section Reconciliation.

Import Pandas PandasFacts AliasFacts.

(** One conditional copy, [if src in df.columns and dst not in df.columns:
    df[dst] = df[src]]. *)
Lemma guarded_copy (df df' : DataFrame) (src dst : string) :
  rectangular df ->
  (if has_col df src && negb (has_col df dst)
   then copy_column df src dst else Some df) = Some df' ->
  (df' = df /\ (has_col df src = false \/ has_col df dst = true))
  \/ (exists i, col_index src (columns df) = Some i
                /\ col_index dst (columns df) = None
                /\ df' = with_copy df i dst).
Proof.
  intros Hr. destruct (has_col df src) eqn:Es; simpl.
  - destruct (has_col df dst) eqn:Ed; simpl.
    + intros [= <-]. left. auto.
    + intros H. right.
      destruct (copy_column_new df df' src dst Ed H) as [i [Hi ->]].
      exists i. repeat split; auto. now apply has_col_index.
  - intros [= <-]. left. auto.
Qed.

Lemma grows_refl (df : DataFrame) : rectangular df -> grows df df.
Proof.
  intros H. repeat split; auto. exists []. now rewrite app_nil_r.
Qed.

Lemma grows_with_copy (df : DataFrame) (i : nat) (src dst : string) :
  rectangular df ->
  col_index src (columns df) = Some i ->
  col_index dst (columns df) = None ->
  grows df (with_copy df i dst).
Proof.
  intros Hr Hs Hd. split; [|split; [|split]].
  - now apply with_copy_rectangular.
  - apply with_copy_len.
  - exists [dst]. reflexivity.
  - intros a b. now apply with_copy_keeps_same.
Qed.

Lemma grows_trans (d1 d2 d3 : DataFrame) :
  grows d1 d2 -> grows d2 d3 -> grows d1 d3.
Proof.
  intros (R2 & L2 & [a2 C2] & S2) (R3 & L3 & [a3 C3] & S3).
  split; [exact R3|]. split; [congruence|]. split.
  - exists (a2 ++ a3). now rewrite C3, C2, app_assoc.
  - intros a b H. apply S3, S2, H.
Qed.

Lemma sheet_frame_reconciled (data : list (list string))
      (df0 df : DataFrame) :
  raw_frame data = Some df0 ->
  sheet_frame data = Some df ->
  let labels := map PyStr.strip (columns df0) in
  len df = len df0
  /\ (exists added, columns df = labels ++ added)
  /\ (In "batch_name" labels -> ~ In "name" labels ->
      same_cells df "name" "batch_name")
  /\ (In "exam_2" labels -> ~ In "Exam_2" labels ->
      same_cells df "Exam_2" "exam_2")
  /\ (In "exam" labels -> ~ In "exam_2" labels -> ~ In "Exam_2" labels ->
      same_cells df "Exam_2" "exam").
Proof.
  intros H0 H labels. unfold sheet_frame in H. rewrite H0 in H.
  set (df1 := mkDataFrame (map PyStr.strip (columns df0)) (rows df0)) in H.
  assert (R0 : rectangular df0).
  { unfold raw_frame in H0.
    destruct (nth_error data (header_row data)); [|discriminate].
    now apply NormalizerFacts.DataFrame_of_rectangular in H0. }
  assert (R1 : rectangular df1).
  { unfold rectangular, df1 in *; cbn [columns rows].
    now rewrite length_map. }
  assert (Hin1 : forall c, has_col df1 c = true <-> In c labels)
    by (intros c; apply (has_col_In df1 c)).
  assert (Hout1 : forall c, has_col df1 c = false <-> ~ In c labels)
    by (intros c; apply (has_col_not_In df1 c)).
  destruct (if has_col df1 "batch_name" && negb (has_col df1 "name")
            then copy_column df1 "batch_name" "name"
            else Some df1) as [df2|] eqn:E1; [|discriminate].
  (* the step for "name" *)
  assert (G1 : grows df1 df2
               /\ (In "batch_name" labels -> ~ In "name" labels ->
                   same_cells df2 "name" "batch_name")
               /\ (columns df2 = columns df1
                   \/ columns df2 = columns df1 ++ ["name"])).
  { destruct (guarded_copy df1 df2 "batch_name" "name" R1 E1)
      as [[-> Hg]|[i [Hs [Hd ->]]]].
    - split; [now apply grows_refl|]. split; [|now left].
      intros Hb Hn. exfalso. destruct Hg as [Hg|Hg].
      + apply Hout1 in Hg. contradiction.
      + apply Hin1 in Hg. contradiction.
    - split; [now apply grows_with_copy with (src := "batch_name")|].
      split; [|now right].
      intros _ _. now apply with_copy_same. }
  destruct G1 as (G1 & N1 & C1).
  assert (R2 : rectangular df2) by apply G1.
  (* labels the second step looks at are the same in both frames *)
  assert (Hin2 : forall c, c <> "name" ->
                           (has_col df2 c = true <-> In c labels)).
  { intros c Hc. rewrite has_col_In. destruct C1 as [-> | ->].
    - reflexivity.
    - cbn [columns df1]. rewrite in_app_iff. simpl. fold labels.
      split; [intros [H1|[H1|[]]]; [assumption | congruence] | auto]. }
  assert (Hout2 : forall c, c <> "name" ->
                            (has_col df2 c = false <-> ~ In c labels)).
  { intros c Hc. rewrite <- (Hin2 c Hc).
    destruct (has_col df2 c); split; congruence. }
  assert (G2 : grows df2 df
               /\ (In "exam_2" labels -> ~ In "Exam_2" labels ->
                   same_cells df "Exam_2" "exam_2")
               /\ (In "exam" labels -> ~ In "exam_2" labels ->
                   ~ In "Exam_2" labels -> same_cells df "Exam_2" "exam")).
  { destruct (has_col df2 "exam_2" && negb (has_col df2 "Exam_2")) eqn:Ea.
    - apply andb_true_iff in Ea as [Ea Eb]. apply negb_true_iff in Eb.
      destruct (copy_column_new df2 df "exam_2" "Exam_2" Eb H)
        as [i [Hi ->]].
      assert (Hd : col_index "Exam_2" (columns df2) = None)
        by now apply has_col_index.
      split; [now apply grows_with_copy with (src := "exam_2")|]. split.
      + intros _ _. now apply with_copy_same.
      + intros _ Hne _. exfalso. apply Hne. apply (Hin2 "exam_2"); auto.
        discriminate.
    - destruct (guarded_copy df2 df "exam" "Exam_2" R2 H)
        as [[-> Hg]|[i [Hs [Hd ->]]]].
      + split; [now apply grows_refl|]. split.
        * intros He2 HE. exfalso.
          apply (Hin2 "exam_2") in He2; [|discriminate].
          apply (Hout2 "Exam_2") in HE; [|discriminate].
          rewrite He2, HE in Ea. discriminate.
        * intros He _ HE. exfalso. destruct Hg as [Hg|Hg].
          -- apply (Hout2 "exam") in Hg; [contradiction | discriminate].
          -- apply (Hin2 "Exam_2") in Hg; [contradiction | discriminate].
      + split; [now apply grows_with_copy with (src := "exam")|]. split.
        * intros He2 HE. exfalso.
          apply (Hin2 "exam_2") in He2; [|discriminate].
          apply (Hout2 "Exam_2") in HE; [|discriminate].
          rewrite He2, HE in Ea. discriminate.
        * intros _ _ _. now apply with_copy_same. }
  destruct G2 as (G2 & X2 & X3).
  destruct (grows_trans df1 df2 df G1 G2) as (_ & L & C & _).
  split; [exact L|]. split; [exact C|]. split.
  - intros Hb Hn. destruct G2 as (_ & _ & _ & S2). apply S2. now apply N1.
  - split; assumption.
Qed.

(** X9.  Column reconciliation of a worksheet.  The frame keeps the
    stripped header labels, in order, as its first columns, and one row
    per data row.  A sheet with a "batch_name" column and no "name" column
    gets a "name" column that repeats "batch_name" in every row; a sheet
    with an "exam_2" column and no "Exam_2" column gets an "Exam_2" column
    that repeats "exam_2"; failing that, a sheet with an "exam" column and
    no "Exam_2" column gets an "Exam_2" column that repeats "exam". *)
Theorem column_names_reconciled (data : list (list string))
        (df0 df : DataFrame) :
  raw_frame data = Some df0 ->
  sheet_frame data = Some df ->
  let labels := map PyStr.strip (columns df0) in
  len df = len df0
  /\ (exists added, columns df = labels ++ added)
  /\ (In "batch_name" labels -> ~ In "name" labels ->
      same_cells df "name" "batch_name")
  /\ (In "exam_2" labels -> ~ In "Exam_2" labels ->
      same_cells df "Exam_2" "exam_2")
  /\ (In "exam" labels -> ~ In "exam_2" labels -> ~ In "Exam_2" labels ->
      same_cells df "Exam_2" "exam").
Proof. exact (sheet_frame_reconciled data df0 df). Qed.

End Reconciliation.

Lemma column_names_reconciled_witness :
  same_cells
    (mkDataFrame ["_id"; "batch_name"; "exam"; "name"; "Exam_2"]
       [[CStr "1"; CStr "A"; CStr "JEE"; CStr "A"; CStr "JEE"]])
    "name" "batch_name".
Proof.
  apply (proj1 (proj2 (proj2
           (column_names_reconciled
              [["_id"; " batch_name"; "exam "]; ["1"; "A"; "JEE"]]
              (mkDataFrame ["_id"; " batch_name"; "exam "]
                           [[CStr "1"; CStr "A"; CStr "JEE"]])
              (mkDataFrame ["_id"; "batch_name"; "exam"; "name"; "Exam_2"]
                 [[CStr "1"; CStr "A"; CStr "JEE"; CStr "A"; CStr "JEE"]])
              eq_refl eq_refl)))).
  - simpl; auto.
  - simpl. intros [H|[H|[H|[]]]]; discriminate H.
Defined.

(* ================================================================== *)
(** * Further properties: the shape of a loaded table *)
(* ================================================================== *)

Section ShapeFacts.

Import Pandas PandasFacts NormalizerFacts AliasFacts.
Context {P : Parsers}.

Lemma DataFrame_of_len (data : list (list string)) (cols : list string)
      (df : DataFrame) :
  DataFrame_of data cols = Some df -> len df = List.length data.
Proof.
  unfold DataFrame_of, len. destruct data as [|x data].
  - now intros [= <-].
  - remember (x :: data) as d eqn:Ed.
    destruct (_ =? _)%nat; [|discriminate]. intros [= <-]. cbn [rows].
    apply length_map.
Qed.

Lemma raw_frame_len (data : list (list string)) (df : DataFrame) :
  raw_frame data = Some df ->
  len df = (List.length data - S (header_row data))%nat.
Proof.
  unfold raw_frame.
  destruct (nth_error data (header_row data)) as [hdr|]; [|discriminate].
  intros H. rewrite (DataFrame_of_len _ _ _ H). apply length_skipn.
Qed.

Lemma sheet_frame_len (data : list (list string)) (df : DataFrame) :
  sheet_frame data = Some df ->
  len df = (List.length data - S (header_row data))%nat.
Proof.
  intros H. destruct (raw_frame data) as [df0|] eqn:E0.
  - destruct (sheet_frame_reconciled data df0 df E0 H) as [L _].
    rewrite L. now apply raw_frame_len.
  - unfold sheet_frame in H. rewrite E0 in H. discriminate.
Qed.

Lemma concat_len (dfs : list DataFrame) (df : DataFrame) :
  concat dfs = Some df -> len df = list_sum (map len dfs).
Proof.
  assert (E : forall (f : DataFrame -> list Row),
             (forall d, List.length (f d) = len d) ->
             List.length (flat_map f dfs) = list_sum (map len dfs)).
  { intros f Hf. induction dfs as [|d l IH]; [reflexivity|].
    simpl. now rewrite length_app, Hf, IH. }
  unfold concat. destruct dfs as [|df0 rest]; [discriminate|].
  destruct (forallb _ (df0 :: rest)).
  - intros [= <-]. unfold len at 1; cbn [rows].
    apply (E (fun d => map (reindex (union_columns (df0 :: rest)) d)
                           (rows d))).
    intros d. apply length_map.
  - destruct (forallb _ rest); [|discriminate].
    intros [= <-]. unfold len at 1; cbn [rows]. apply (E rows). reflexivity.
Qed.

Lemma assign_existing_len (df : DataFrame) (c : string) (i : nat)
      (g : Cell -> Cell) :
  col_index c (columns df) = Some i ->
  len (assign df c (map g (map (cell_at i) (rows df)))) = len df.
Proof.
  intros Hi. rewrite (assign_existing df c i g Hi). unfold len; cbn [rows].
  apply length_map.
Qed.

Lemma coerce_date_len (c : string) (df df' : DataFrame) :
  coerce_date c df = Some df' -> len df' = len df.
Proof.
  unfold coerce_date. destruct (has_col df c); [|now intros [= <-]].
  destruct (series df c) as [s|] eqn:Es; [|discriminate].
  apply series_index in Es as [i [Hi ->]]. intros [= <-].
  apply (assign_existing_len df c i _ Hi).
Qed.

Lemma coerce_numeric_len (c : string) (df df' : DataFrame) :
  coerce_numeric c df = Some df' -> len df' = len df.
Proof.
  unfold coerce_numeric. destruct (has_col df c); [|now intros [= <-]].
  destruct (series df c) as [s|] eqn:Es; [|discriminate].
  apply series_index in Es as [i [Hi ->]].
  set (g := fun v => fillna0 (to_numeric v)).
  pose proof (assign_existing_len df c i g Hi) as L1.
  rewrite (assign_existing df c i g Hi) in *.
  set (df1 := mkDataFrame (columns df) _) in *.
  destruct (series df1 c) as [s'|] eqn:Es'; [|discriminate].
  apply series_index in Es' as [i' [Hi' ->]]. intros [= <-].
  rewrite (assign_existing_len df1 c i' astype_float32 Hi'). exact L1.
Qed.

Lemma for_each_numeric_len (cols : list string) (df df' : DataFrame) :
  for_each coerce_numeric cols df = Some df' -> len df' = len df.
Proof.
  revert df; induction cols as [|c cols IH]; intros df; simpl.
  - now intros [= <-].
  - destruct (coerce_numeric c df) as [df1|] eqn:E; [|discriminate].
    intros H. rewrite (IH df1 H). now apply coerce_numeric_len with (c := c).
Qed.

Lemma select_len (p : Row -> bool) (df : DataFrame) :
  (len (select p df) <= len df)%nat.
Proof. unfold len, select; cbn [rows]. apply filter_length_le. Qed.

Lemma drop_invalid_dates_len (df : DataFrame) :
  (len (drop_invalid_dates df) <= len df)%nat.
Proof.
  unfold drop_invalid_dates.
  destruct (col_index "converteddate" (columns df)); [apply select_len | lia].
Qed.

Lemma drop_invalid_dates_rectangular (df : DataFrame) :
  rectangular df -> rectangular (drop_invalid_dates df).
Proof.
  unfold drop_invalid_dates.
  destruct (col_index "converteddate" (columns df));
    [apply select_rectangular | auto].
Qed.

Lemma clean_shape (dfs : list DataFrame) (df : DataFrame) :
  Forall rectangular dfs -> clean dfs = Some df ->
  rectangular df /\ (len df <= list_sum (map len dfs))%nat.
Proof.
  intros Hall. unfold clean.
  destruct (concat dfs) as [d0|] eqn:E0; [|discriminate].
  pose proof (concat_rectangular dfs d0 Hall E0) as R0.
  pose proof (concat_len dfs d0 E0) as L0.
  destruct (coerce_date "converteddate" d0) as [d1|] eqn:E1; [|discriminate].
  destruct (coerce_date_spec _ _ _ R0 E1) as [[_ [R1 _]] _].
  pose proof (coerce_date_len _ _ _ E1) as L1.
  destruct (coerce_date "startdate" d1) as [d2|] eqn:E2; [|discriminate].
  destruct (coerce_date_spec _ _ _ R1 E2) as [[_ [R2 _]] _].
  pose proof (coerce_date_len _ _ _ E2) as L2.
  destruct (for_each coerce_numeric numeric_cols d2) as [d3|] eqn:E3;
    [|discriminate].
  destruct (for_each_numeric_spec _ _ _ R2 E3) as [_ [R3 _]].
  pose proof (for_each_numeric_len _ _ _ E3) as L3.
  destruct (for_each categorise string_cols d3) as [d4|] eqn:E4;
    [|discriminate].
  apply for_each_categorise in E4. subst d4.
  intros [= <-]. split.
  - apply drop_invalid_dates_rectangular. unfold dropna_all.
    now apply (select_rectangular (existsb notna) d3).
  - pose proof (drop_invalid_dates_len (dropna_all d3)) as A.
    assert (B : (len (dropna_all d3) <= len d3)%nat)
      by exact (select_len (existsb notna) d3).
    lia.
Qed.

Lemma collect_len (R : Remote) (names : list string) :
  (list_sum (map len (collect R names))
   <= list_sum (map (data_rows R) names))%nat.
Proof.
  induction names as [|name names IH]; [simpl; lia|].
  unfold collect in *. cbn [flat_map]. rewrite map_app, list_sum_app.
  cbn [map list_sum]. unfold data_rows at 1.
  destruct (worksheet R name) as [data|]; [|simpl; lia].
  destruct (sheet_frame data) as [d|] eqn:E; [|simpl; lia].
  simpl. rewrite (sheet_frame_len data d E). lia.
Qed.

(** X10.  A table that a load produces has at least one row, every row of
    it has one cell per column, and it has at most as many rows as the
    worksheets hold below their header rows: normalisation drops rows and
    never adds one. *)
Theorem loaded_table_shape (R : Remote) (df : DataFrame) :
  snd (fetch_and_normalize R) = Loaded df ->
  rectangular df
  /\ (0 < len df <= list_sum (map (data_rows R) WORKSHEET_NAMES))%nat.
Proof.
  unfold fetch_and_normalize.
  destruct (get_google_credentials R); [|discriminate].
  destruct (authorize_ok R); [|discriminate].
  destruct (open_ok R); [|discriminate].
  cbn [negb snd]. unfold normalize.
  destruct (collect R WORKSHEET_NAMES) as [|d0 rest] eqn:Ec; [discriminate|].
  destruct (clean (d0 :: rest)) as [d|] eqn:E; [|discriminate].
  destruct (Nat.eqb_spec (len d) 0) as [|Hn]; [discriminate|].
  intros [= <-].
  assert (Hall : Forall rectangular (d0 :: rest))
    by (rewrite <- Ec; apply collect_rectangular).
  destruct (clean_shape _ _ Hall E) as [Hr Hl].
  split; [exact Hr|]. split; [lia|].
  rewrite <- Ec in Hl. pose proof (collect_len R WORKSHEET_NAMES). lia.
Qed.

End ShapeFacts.

Lemma loaded_table_shape_witness :
  rectangular Scenario.enrollments
  /\ (0 < Pandas.len Scenario.enrollments
      <= list_sum (map (data_rows Scenario.two_sheets) WORKSHEET_NAMES))%nat.
Proof.
  apply (loaded_table_shape (P := Reference.parsers) Scenario.two_sheets).
  reflexivity.
Defined.

(* ================================================================== *)
(** * Further properties: the filter *)
(* ================================================================== *)

Lemma date_pred_iff (cols : list string) (s e : Z) (r : Row) :
  date_pred cols s e r = true <->
  forall i, Pandas.col_index "converteddate" cols = Some i ->
            exists d, Pandas.cell_at i r = CDate d /\ (s <= d <= e)%Z.
Proof.
  unfold date_pred.
  destruct (Pandas.col_index "converteddate" cols) as [i|].
  - rewrite andb_true_iff. unfold date_ge, date_le. split.
    + intros [H1 H2] j [= <-].
      destruct (Pandas.cell_at i r); try discriminate.
      exists t. split; [reflexivity|].
      apply Z.leb_le in H1, H2. lia.
    + intros H. destruct (H i eq_refl) as [d [-> Hd]].
      split; apply Z.leb_le; lia.
  - split; [intros _ j Hj; discriminate | reflexivity].
Qed.

Lemma dim_pred_iff (cols : list string) (col : string)
      (f : option (list string)) (r : Row) :
  dim_pred cols col f r = true <->
  forall i, truthy f = true -> Pandas.col_index col cols = Some i ->
            exists s, Pandas.cell_at i r = CStr s /\ In s (values_of f).
Proof.
  unfold dim_pred. destruct (truthy f).
  - destruct (Pandas.col_index col cols) as [i|].
    + unfold isin. split.
      * intros H j _ [= <-]. destruct (Pandas.cell_at i r); try discriminate.
        exists s. split; [reflexivity|].
        apply existsb_exists in H as [x [Hx E]].
        apply String.eqb_eq in E. now subst.
      * intros H. destruct (H i eq_refl eq_refl) as [s [-> Hs]].
        apply existsb_exists. exists s. split; [assumption|].
        apply String.eqb_refl.
    + split; [intros _ j _ Hj; discriminate | reflexivity].
  - split; [intros _ j Hj; discriminate | reflexivity].
Qed.

(** X11.  What the filter keeps.  The filtered table has the columns of
    the table and exactly those of its rows that meet every constraint in
    force: the converted date is a timestamp within the two bounds, both
    included, if the table has a "converteddate" column; the batch name is
    one of the selected names if names are selected and the table has a
    "name" column, and likewise for the exam and the plan.  A row whose
    cell is missing in a constrained column is dropped. *)
Theorem filtered_rows_characterised (T : DataFrame) (S : Selection) (r : Row) :
  columns (filter_data T S) = columns T
  /\ (In r (rows (filter_data T S)) <->
      In r (rows T)
      /\ (forall i, Pandas.col_index "converteddate" (columns T) = Some i ->
                    exists d, Pandas.cell_at i r = CDate d
                              /\ (start_date S <= d <= end_date S)%Z)
      /\ (forall i, truthy (batch_filter S) = true ->
                    Pandas.col_index "name" (columns T) = Some i ->
                    exists s, Pandas.cell_at i r = CStr s
                              /\ In s (values_of (batch_filter S)))
      /\ (forall i, truthy (exam_filter S) = true ->
                    Pandas.col_index "Exam_2" (columns T) = Some i ->
                    exists s, Pandas.cell_at i r = CStr s
                              /\ In s (values_of (exam_filter S)))
      /\ (forall i, truthy (plan_filter S) = true ->
                    Pandas.col_index "plan" (columns T) = Some i ->
                    exists s, Pandas.cell_at i r = CStr s
                              /\ In s (values_of (plan_filter S)))).
Proof.
  rewrite filter_data_select. split; [reflexivity|].
  unfold Pandas.select; cbn [rows]. rewrite filter_In. unfold row_pred.
  rewrite !andb_true_iff, date_pred_iff, !dim_pred_iff. tauto.
Qed.

(** X12.  Filtering is idempotent, the order in which two selections are
    applied does not matter, and a filter never adds a row. *)
Theorem filter_idempotent_commutative (T : DataFrame) (S1 S2 : Selection) :
  filter_data (filter_data T S1) S1 = filter_data T S1
  /\ filter_data (filter_data T S1) S2 = filter_data (filter_data T S2) S1
  /\ (Pandas.len (filter_data T S1) <= Pandas.len T)%nat.
Proof.
  assert (H : forall Sa Sb,
             filter_data (filter_data T Sa) Sb
             = Pandas.select (fun r => row_pred (columns T) Sa r
                                       && row_pred (columns T) Sb r) T).
  { intros Sa Sb. rewrite (filter_data_select T Sa), filter_data_select.
    cbn [Pandas.select columns]. apply select_twice. }
  split; [|split].
  - rewrite H, filter_data_select. apply select_ext. intros r.
    now destruct (row_pred (columns T) S1 r).
  - rewrite !H. apply select_ext. intros r. apply andb_comm.
  - rewrite filter_data_select. unfold Pandas.len, Pandas.select; cbn [rows].
    apply filter_length_le.
Qed.

(** X13.  A constraint on a column the table does not have is ignored:
    without a "converteddate" column the two dates play no part, without a
    "name" column the selected batches play no part, and likewise for the
    exams and the plans. *)
Theorem constraint_on_absent_column_ignored (T : DataFrame) (S : Selection) :
  (Pandas.col_index "converteddate" (columns T) = None ->
   forall s e,
     filter_data T S
     = filter_data T (mkSelection s e (batch_filter S) (exam_filter S)
                                  (plan_filter S)))
  /\ (Pandas.col_index "name" (columns T) = None ->
      forall b,
        filter_data T S
        = filter_data T (mkSelection (start_date S) (end_date S) b
                                     (exam_filter S) (plan_filter S)))
  /\ (Pandas.col_index "Exam_2" (columns T) = None ->
      forall x,
        filter_data T S
        = filter_data T (mkSelection (start_date S) (end_date S)
                                     (batch_filter S) x (plan_filter S)))
  /\ (Pandas.col_index "plan" (columns T) = None ->
      forall p,
        filter_data T S
        = filter_data T (mkSelection (start_date S) (end_date S)
                                     (batch_filter S) (exam_filter S) p)).
Proof.
  assert (Hd : forall col f r,
             Pandas.col_index col (columns T) = None ->
             dim_pred (columns T) col f r = true).
  { intros col f r H. unfold dim_pred. rewrite H. now destruct (truthy f). }
  repeat split; intros H x; try intros y; rewrite !filter_data_select;
    apply select_ext; intros r; unfold row_pred;
    cbn [start_date end_date batch_filter exam_filter plan_filter];
    rewrite ?(Hd _ _ _ H); try reflexivity.
  unfold date_pred. now rewrite H.
Qed.

(** X14.  A date range whose end lies before its start selects nothing
    from a table that has a "converteddate" column. *)
Theorem empty_date_range_selects_nothing (T : DataFrame) (S : Selection)
        (i : nat) :
  Pandas.col_index "converteddate" (columns T) = Some i ->
  (end_date S < start_date S)%Z ->
  rows (filter_data T S) = [].
Proof.
  intros Hi Hlt. rewrite filter_data_select.
  unfold Pandas.select; cbn [rows].
  assert (H : forall r, row_pred (columns T) S r = false).
  { intros r. unfold row_pred, date_pred. rewrite Hi.
    unfold date_ge, date_le. destruct (Pandas.cell_at i r); try reflexivity.
    destruct (Z.leb_spec (start_date S) t), (Z.leb_spec t (end_date S));
      simpl; try reflexivity; lia. }
  induction (rows T) as [|r l IH]; [reflexivity|].
  simpl. now rewrite H.
Qed.

Lemma constraint_on_absent_column_ignored_witness :
  filter_data Scenario.one_batch Scenario.only_A
  = filter_data Scenario.one_batch
      (mkSelection 5 4 (Some ["A"]) None None).
Proof.
  apply (proj1 (constraint_on_absent_column_ignored
                  Scenario.one_batch Scenario.only_A)).
  reflexivity.
Defined.

Lemma empty_date_range_selects_nothing_witness :
  rows (filter_data Tables.unnamed_row
          (mkSelection 1704499200000000000 1704067200000000000
                       None None None)) = [].
Proof.
  apply (empty_date_range_selects_nothing Tables.unnamed_row _ 2).
  - reflexivity.
  - reflexivity.
Defined.

(** X15.  Filtering keeps the invariant of a normalised table and its
    shape, and so does the restriction to the recent window. *)
Theorem filter_keeps_normalized (T : DataFrame) (S : Selection) (e : Z) :
  normalized T -> rectangular T ->
  normalized (filter_data T S)
  /\ rectangular (filter_data T S)
  /\ normalized (last_7_days_df e (filter_data T S))
  /\ rectangular (last_7_days_df e (filter_data T S)).
Proof.
  intros [Hd Hn] Hr.
  assert (Hs : forall p, normalized (Pandas.select p T)
                         /\ rectangular (Pandas.select p T)).
  { intros p. split; [split|].
    - exact (PandasFacts.col_all_select p T "converteddate" is_date Hd).
    - intros c i Hc.
      exact (PandasFacts.col_all_select p T c is_number
               (fun j => Hn c j Hc) i).
    - now apply PandasFacts.select_rectangular. }
  rewrite filter_data_select.
  destruct (Hs (row_pred (columns T) S)) as [N1 R1].
  split; [exact N1|]. split; [exact R1|].
  unfold last_7_days_df. cbn [Pandas.select columns].
  destruct (Pandas.col_index "converteddate" (columns T)) as [i|].
  - rewrite select_twice. apply Hs.
  - split; assumption.
Qed.

Lemma filter_keeps_normalized_witness :
  normalized (filter_data Tables.unnamed_row Scenario.first_week).
Proof.
  assert (Hs : rectangular Tables.unnamed_row
               /\ normalized Tables.unnamed_row).
  { split.
    - repeat constructor.
    - split.
      + intros i [= <-]. repeat constructor; eexists; reflexivity.
      + intros c i Hc Hi.
        destruct Hc as [<-|[<-|[<-|[<-|[]]]]]; try discriminate Hi.
        injection Hi as <-. repeat constructor; eexists; reflexivity. }
  destruct Hs as [Hr Hn].
  exact (proj1 (filter_keeps_normalized Tables.unnamed_row
                  Scenario.first_week 0 Hn Hr)).
Defined.

(* ================================================================== *)
(** * Further properties: sorting *)
(* ================================================================== *)

Section SortFacts.

Variables (A : Type) (leb : A -> A -> bool).
Hypothesis leb_total : forall x y, leb x y = false -> leb y x = true.

Lemma insert_sorted (x : A) (l : list A) :
  Sorted (fun a b => leb a b = true) l ->
  Sorted (fun a b => leb a b = true) (insert leb x l).
Proof.
  induction 1 as [|y l Hs IH Hhd]; simpl.
  - repeat constructor.
  - destruct (leb x y) eqn:E.
    + constructor; [now constructor | now constructor].
    + constructor; [exact IH|].
      destruct l as [|z l]; simpl.
      * constructor. now apply leb_total.
      * destruct (leb x z).
        -- constructor. now apply leb_total.
        -- constructor. now inversion Hhd.
Qed.

Lemma sort_sorted (l : list A) :
  Sorted (fun a b => leb a b = true) (sort leb l).
Proof.
  induction l as [|x l IH]; simpl; [constructor | now apply insert_sorted].
Qed.

End SortFacts.

Lemma Sorted_firstn (A : Type) (R : A -> A -> Prop) (n : nat) (l : list A) :
  Sorted R l -> Sorted R (firstn n l).
Proof.
  revert l; induction n as [|n IH]; intros l H; [constructor|].
  destruct l as [|x l]; [constructor|].
  inversion H as [|? ? Hs Hhd]; subst. simpl. constructor; [now apply IH|].
  destruct n as [|n]; [constructor|].
  destruct l as [|y l]; [constructor|].
  simpl. constructor. now inversion Hhd.
Qed.

Lemma Sorted_map (A B : Type) (R : B -> B -> Prop) (f : A -> B)
      (l : list A) :
  Sorted (fun a b => R (f a) (f b)) l -> Sorted R (map f l).
Proof.
  induction 1 as [|x l Hs IH Hhd]; simpl; constructor; [exact IH|].
  destruct l as [|y l]; simpl; constructor. now inversion Hhd.
Qed.

Lemma Sorted_weaken (A : Type) (R R' : A -> A -> Prop) (l : list A) :
  (forall a b, R a b -> R' a b) -> Sorted R l -> Sorted R' l.
Proof.
  intros HR. induction 1 as [|x l Hs IH Hhd]; constructor; [exact IH|].
  destruct Hhd; constructor. now apply HR.
Qed.

Lemma NoDup_firstn (A : Type) (n : nat) (l : list A) :
  NoDup l -> NoDup (firstn n l).
Proof.
  revert l; induction n as [|n IH]; intros l H; [constructor|].
  destruct l as [|x l]; [constructor|].
  inversion H as [|? ? Hx Hnd]; subst. simpl. constructor; [|now apply IH].
  intros Hin. apply Hx. now apply in_firstn in Hin.
Qed.

Lemma sort_map (A B : Type) (leb : B -> B -> bool) (f : A -> B)
      (l : list A) :
  map f (sort (fun a b => leb (f a) (f b)) l) = sort leb (map f l).
Proof.
  assert (Hi : forall x l',
             map f (insert (fun a b => leb (f a) (f b)) x l')
             = insert leb (f x) (map f l')).
  { intros x l'. induction l' as [|y l' IH]; simpl; [reflexivity|].
    destruct (leb (f x) (f y)); simpl; [reflexivity | now rewrite IH]. }
  induction l as [|x l IH]; simpl; [reflexivity|]. now rewrite Hi, IH.
Qed.

(* ================================================================== *)
(** * Further properties: the aggregates *)
(* ================================================================== *)

Lemma last_7_rows_dated (e : Z) (fdf : DataFrame) (i : nat) :
  Pandas.col_index "converteddate" (columns fdf) = Some i ->
  Forall (fun r => keyed (date_key i) r = true)
         (rows (last_7_days_df e fdf)).
Proof.
  intros Hi. unfold last_7_days_df. rewrite Hi.
  unfold Pandas.select; cbn [rows]. apply Forall_forall. intros r Hr.
  apply filter_In in Hr as [_ Hr]. unfold keyed, date_key, date_ge in *.
  destruct (Pandas.cell_at i r); try discriminate. reflexivity.
Qed.

(** X16.  The rows of the last seven days are among the filtered rows, so
    the "Last 7 Days" figure never exceeds the total; and when the
    selected range starts no earlier than seven days before its end,
    every filtered row is in the recent window and the two figures are
    the same. *)
Theorem recent_window_within_selection (T : DataFrame) (S : Selection) :
  let fdf := filter_data T S in
  (last_7_days_count (end_date S) fdf <= total_enrollment fdf)%nat
  /\ ((end_date S - Calendar.days 7 <= start_date S)%Z ->
      last_7_days_df (end_date S) fdf = fdf
      /\ last_7_days_count (end_date S) fdf = total_enrollment fdf).
Proof.
  intros fdf. split.
  - unfold last_7_days_count, total_enrollment, last_7_days_df.
    destruct (Pandas.col_index "converteddate" (columns fdf));
      [|apply Nat.le_refl].
    unfold Pandas.len, Pandas.select; cbn [rows]. apply filter_length_le.
  - intros Hle.
    assert (E : last_7_days_df (end_date S) fdf = fdf).
    { unfold last_7_days_df.
      destruct (Pandas.col_index "converteddate" (columns fdf)) as [i|] eqn:Ei;
        [|reflexivity].
      apply select_all, Forall_forall. intros r Hr.
      unfold fdf in Hr, Ei. rewrite filter_data_select in Hr, Ei.
      cbn [Pandas.select columns rows] in Hr, Ei.
      apply filter_In in Hr as [_ Hr]. unfold row_pred in Hr.
      rewrite !andb_true_iff in Hr. destruct Hr as [[[Hd _] _] _].
      destruct (proj1 (date_pred_iff _ _ _ _) Hd i Ei) as [d [-> Hb]].
      cbn [date_ge]. apply Z.leb_le. lia. }
    split; [exact E|]. unfold last_7_days_count. now rewrite E.
Qed.

Lemma recent_window_within_selection_witness :
  last_7_days_df (end_date Scenario.first_week)
                 (filter_data Tables.unnamed_row Scenario.first_week)
  = filter_data Tables.unnamed_row Scenario.first_week.
Proof.
  apply (proj2 (recent_window_within_selection Tables.unnamed_row
                  Scenario.first_week)).
  vm_compute. discriminate.
Defined.

Lemma recent_trend_by_timestamp_witness :
  match last_7_trend (datetime_dtype Tables.unnamed_row)
                     (end_date Scenario.first_week)
                     (filter_data Tables.unnamed_row Scenario.first_week) with
  | Figure pts => NoDup (map converteddate pts)
  | _ => False
  end.
Proof.
  destruct (last_7_trend (datetime_dtype Tables.unnamed_row)
              (end_date Scenario.first_week)
              (filter_data Tables.unnamed_row Scenario.first_week))
    as [| |pts] eqn:E; [discriminate E | discriminate E |].
  exact (proj1 (proj2 (proj2 (proj2
                 (recent_trend_by_timestamp _ _ _ pts E))))).
Defined.

(** X18.  The counts of the trend add up to the "Last 7 Days" figure:
    every row of the recent window is counted in exactly one point. *)
Theorem trend_counts_add_up (datetimelike : bool) (e : Z) (fdf : DataFrame)
        (pts : list TrendPoint) :
  last_7_trend datetimelike e fdf = Figure pts ->
  list_sum (map count pts) = last_7_days_count e fdf.
Proof.
  unfold last_7_trend, last_7_days_count.
  set (l7 := last_7_days_df e fdf).
  destruct (Pandas.col_index "converteddate" (columns l7)) as [i|] eqn:Ei;
    [|discriminate].
  destruct datetimelike; [|discriminate].
  intros [= <-]. rewrite map_map. cbn [count].
  unfold groupby_date.
  rewrite (groupby_sizes _ Z.eqb Z.leb Z.eqb_eq (date_key i) (rows l7)).
  unfold Pandas.len. f_equal. apply filter_all.
  assert (Ef : Pandas.col_index "converteddate" (columns fdf) = Some i).
  { unfold l7, last_7_days_df in Ei.
    destruct (Pandas.col_index "converteddate" (columns fdf)) as [j|] eqn:Ej;
      [|congruence].
    cbn [Pandas.select columns] in Ei. congruence. }
  exact (last_7_rows_dated e fdf i Ef).
Qed.

Lemma trend_counts_add_up_witness :
  match last_7_trend (datetime_dtype Tables.unnamed_row)
                     (end_date Scenario.first_week)
                     (filter_data Tables.unnamed_row Scenario.first_week) with
  | Figure pts =>
      list_sum (map count pts)
      = last_7_days_count (end_date Scenario.first_week)
          (filter_data Tables.unnamed_row Scenario.first_week)
  | _ => False
  end.
Proof.
  destruct (last_7_trend (datetime_dtype Tables.unnamed_row)
              (end_date Scenario.first_week)
              (filter_data Tables.unnamed_row Scenario.first_week))
    as [| |pts] eqn:E; [discriminate E | discriminate E |].
  exact (trend_counts_add_up _ _ _ pts E).
Defined.

Lemma Qle_bool_total (x y : Q) : Qle_bool x y = false -> Qle_bool y x = true.
Proof.
  intros H. apply Qle_bool_iff.
  destruct (Qlt_le_dec x y) as [Hlt|Hle]; [|exact Hle].
  apply Qlt_le_weak in Hlt. apply Qle_bool_iff in Hlt. congruence.
Qed.

Lemma CRORE_positive : (0 < CRORE)%Q.
Proof. reflexivity. Qed.

Section RevenueBars.

Context {Num : Numeric}.

(** X19.  The bars of the revenue-by-exam chart: at most ten, each for a
    different exam, in descending order of revenue. *)
Theorem revenue_bars_top_ten (fdf : DataFrame) (bars : list (string * Q)) :
  revenue_by_exam_cr fdf = Some bars ->
  (List.length bars <= 10)%nat
  /\ NoDup (map fst bars)
  /\ Sorted (fun a b => (snd b <= snd a)%Q) bars.
Proof.
  unfold revenue_by_exam_cr, revenue_by_exam.
  destruct (Pandas.col_index "Exam_2" (columns fdf)) as [i|]; [|discriminate].
  destruct (Pandas.col_index "net_amount" (columns fdf)) as [j|];
    [|discriminate].
  set (sums := map (fun g : string * list Row =>
                      (fst g, group_sum_at Float32 j (snd g)))
                   (groupby_str i (rows fdf))).
  intros H.
  assert (Hl : map (fun p : string * Q =>
                      (fst p, true_divide Float32 (snd p) CRORE))
                   (firstn 10 (sort_desc_Q sums)) = bars)
    by (cbn [option_map] in H; congruence).
  clear H. subst bars. split; [|split].
  - rewrite length_map. apply firstn_le_length.
  - rewrite map_map. cbn [fst].
    rewrite <- (firstn_map fst). apply NoDup_firstn.
    apply (Permutation_NoDup (l := map fst sums)).
    + apply Permutation_map. symmetry. apply sort_perm.
    + assert (E : map fst sums
                  = group_keys String.eqb String.leb (str_key i) (rows fdf)).
      { unfold sums. rewrite map_map.
        exact (groupby_fst _ String.eqb String.leb (str_key i) (rows fdf)). }
      rewrite E.
      apply (group_keys_NoDup _ String.eqb String.leb string_eqb_eq).
  - apply Sorted_map
      with (f := fun p : string * Q =>
                   (fst p, true_divide Float32 (snd p) CRORE)).
    cbn [snd]. apply Sorted_firstn.
    apply (Sorted_weaken _ (fun a b => Qle_bool (snd b) (snd a) = true)).
    + intros a b Hab. apply true_divide_monotone; [exact CRORE_positive|].
      now apply Qle_bool_iff.
    + unfold sort_desc_Q.
      apply (sort_sorted _ (fun a b : string * Q => Qle_bool (snd b) (snd a))).
      intros x y. apply Qle_bool_total.
Qed.

End RevenueBars.

Lemma revenue_bars_top_ten_witness :
  match revenue_by_exam_cr (Num := Reference.numeric)
          (filter_data Tables.unnamed_row Scenario.first_week) with
  | Some bars => (List.length bars <= 10)%nat
  | None => False
  end.
Proof.
  destruct (revenue_by_exam_cr (Num := Reference.numeric)
              (filter_data Tables.unnamed_row Scenario.first_week))
    as [bars|] eqn:E; [|discriminate E].
  exact (proj1 (revenue_bars_top_ten _ bars E)).
Defined.

Lemma label_group_rows (df : DataFrame) (i : nat) (g : string * list Row) :
  Pandas.col_index "name" (columns df) = Some i ->
  In g (groupby_str i (rows df)) ->
  snd g = filter (labelled df "name" (fst g)) (rows df).
Proof.
  intros Hi Hg.
  rewrite (groupby_In _ String.eqb String.leb (str_key i) (rows df) g Hg).
  apply filter_ext. intros r. unfold has_key, str_key, labelled. rewrite Hi.
  destruct (Pandas.cell_at i r); reflexivity.
Qed.

Lemma groupby_str_keys_NoDup (i : nat) (rs : list Row) :
  NoDup (map fst (groupby_str i rs)).
Proof.
  unfold groupby_str.
  rewrite (groupby_fst _ String.eqb String.leb (str_key i) rs).
  apply (group_keys_NoDup _ String.eqb String.leb string_eqb_eq).
Qed.

Lemma nat_geb_total (A : Type) (f : A -> nat) (x y : A) :
  (f y <=? f x)%nat = false -> (f x <=? f y)%nat = true.
Proof.
  intros H. apply Nat.leb_gt in H. apply Nat.leb_le. lia.
Qed.

Section BatchTableFacts.

Context {Num : Numeric}.

(** X20.  The rows of the batch table: one row per batch name, no name
    twice; the count of a row is the number of filtered rows that carry
    its name; rows come in descending order of count; the caption counts
    the rows of the table. *)
Theorem batch_table_rows (fdf : DataFrame) (t : BatchTable) :
  batch_table fdf = Table t ->
  NoDup (map batch_name (table_rows t))
  /\ Sorted (fun a b => (total_enrollments b <= total_enrollments a)%nat)
            (table_rows t)
  /\ (forall row, In row (table_rows t) ->
                  total_enrollments row
                  = List.length (filter (labelled fdf "name" (batch_name row))
                                        (rows fdf)))
  /\ caption_batches t = List.length (table_rows t).
Proof.
  unfold batch_table.
  destruct (Pandas.col_index "name" (columns fdf)) as [i|] eqn:Ei;
    [|discriminate].
  destruct (Pandas.col_index "Exam_2" (columns fdf)) as [j|]; [|discriminate].
  intros [= <-]. unfold summary_table.
  cbn [table_rows caption_batches].
  set (mk := fun g : string * list Row => mkSummaryRow (fst g) _ _ _ _ _).
  split; [|split; [|split]].
  - apply (Permutation_NoDup
             (l := map batch_name (map mk (groupby_str i (rows fdf))))).
    + apply Permutation_map. symmetry. apply sort_perm.
    + rewrite map_map. cbn [mk batch_name].
      exact (groupby_str_keys_NoDup i (rows fdf)).
  - apply (Sorted_weaken
             _ (fun a b => (total_enrollments b <=? total_enrollments a)%nat
                           = true)).
    + intros a b Hab. now apply Nat.leb_le.
    + unfold sort_rows_desc. apply sort_sorted.
      intros x y. apply nat_geb_total.
  - intros row Hrow. apply in_sort, in_map_iff in Hrow as [g [<- Hg]].
    cbn [mk total_enrollments batch_name].
    unfold enrollment_counts.
    rewrite merged_count_group;
      [|exact (groupby_str_keys_NoDup i (rows fdf)) | exact Hg].
    now rewrite (label_group_rows fdf i g Ei Hg).
  - reflexivity.
Qed.

End BatchTableFacts.

Lemma batch_table_rows_witness :
  match batch_table (Num := Reference.numeric) Tables.unnamed_row with
  | Table t => NoDup (map batch_name (table_rows t))
  | _ => False
  end.
Proof.
  destruct (batch_table (Num := Reference.numeric) Tables.unnamed_row)
    as [| |t] eqn:E; [discriminate E | discriminate E |].
  exact (proj1 (batch_table_rows _ t E)).
Defined.

Lemma footer_count_unique (total : nat) (revenue : Q)
      (shown : list TableColumn) (n : nat) :
  In (FCount n) (map (footer_cell total revenue) shown) -> n = total.
Proof.
  intros H. apply in_map_iff in H as [col [Hc _]].
  destruct col; try discriminate Hc. now injection Hc.
Qed.

Section TotalsFacts.

Context {Num : Numeric}.

(** X21.  The count of the totals row is the number of filtered rows that
    have a batch name, in the table shown (where it is the only count
    cell) and in the exported sheet (where it is the second cell).  It is
    the number of rows of the filtered table exactly when no row lacks a
    batch name; the caption under the table always gives the number of
    rows. *)
Theorem totals_count_is_named_rows (fdf : DataFrame) :
  (forall t, batch_table fdf = Table t ->
             (forall n, In (FCount n) (footer_cells t) <-> n = named_rows fdf)
             /\ caption_enrollments t = Pandas.len fdf)
  /\ (forall dtype sh,
         export_table dtype fdf = Some (Some sh) ->
         nth 1 (total_row sh) (XText EmptyString)
         = XCount (named_rows fdf))
  /\ (named_rows fdf <= Pandas.len fdf)%nat
  /\ (forall i, Pandas.col_index "name" (columns fdf) = Some i ->
                (named_rows fdf = Pandas.len fdf <->
                 Forall (fun r => exists s, Pandas.cell_at i r = CStr s)
                        (rows fdf))).
Proof.
  split; [|split; [|split]].
  - intros t Ht. unfold batch_table in Ht. unfold named_rows.
    destruct (Pandas.col_index "name" (columns fdf)) as [i|]; [|discriminate].
    destruct (Pandas.col_index "Exam_2" (columns fdf)) as [j|];
      [|discriminate].
    injection Ht as <-. split; [|reflexivity].
    intros n. split.
    + intros Hin. pose proof (summary_table_count i j fdf) as Hc.
      unfold summary_table in Hin, Hc. cbn [footer_cells] in Hin, Hc.
      apply footer_count_unique in Hin. apply footer_count_unique in Hc.
      congruence.
    + intros ->. apply summary_table_count.
  - intros dtype sh Hs. unfold export_table in Hs. unfold named_rows.
    destruct (Pandas.col_index "name" (columns fdf)) as [i|]; [|discriminate].
    assert (E : nth 1 (total_row (export_sheet dtype i fdf))
                    (XText EmptyString)
                = XCount (List.length (filter (keyed (str_key i)) (rows fdf)))).
    { unfold export_sheet. cbn [total_row]. cbn [app map nth total_cell].
      unfold sort_export_desc.
      rewrite list_sum_map_sort, map_map. cbn [x_total_enrollments].
      now rewrite merged_counts_sum. }
    destruct (Pandas.col_index "Exam_2" (columns fdf)),
      (Pandas.col_index "net_amount" (columns fdf)),
      (Pandas.col_index "leader_fin" (columns fdf));
      try discriminate Hs; injection Hs as <-; exact E.
  - unfold named_rows, Pandas.len.
    destruct (Pandas.col_index "name" (columns fdf));
      [apply filter_length_le | lia].
  - intros i Hi. unfold named_rows, Pandas.len. rewrite Hi.
    assert (Hk : forall r, keyed (str_key i) r = true
                           <-> exists s, Pandas.cell_at i r = CStr s).
    { intros r. unfold keyed, str_key.
      destruct (Pandas.cell_at i r); split; try discriminate; eauto;
        intros [s Hs]; discriminate Hs. }
    split.
    + intros E. apply Forall_forall. intros r Hr. apply Hk.
      assert (Hf : forall l : list Row,
                 List.length (filter (keyed (str_key i)) l) = List.length l ->
                 forall x, In x l -> keyed (str_key i) x = true).
      { induction l as [|y l IH]; intros El x Hx; [destruct Hx|].
        simpl in El. destruct (keyed (str_key i) y) eqn:Ey.
        - simpl in El. destruct Hx as [<-|Hx]; [exact Ey|].
          apply IH; [lia | exact Hx].
        - pose proof (filter_length_le (keyed (str_key i)) l). lia. }
      now apply (Hf (rows fdf) E).
    + intros Hall. f_equal. apply filter_all.
      rewrite Forall_forall in *. intros r Hr. apply Hk. now apply Hall.
Qed.

End TotalsFacts.

(* ================================================================== *)
(** * Properties: the options of the check lists *)
(* ================================================================== *)

Module OptionFacts.

Import Pandas.

Lemma count_label_has (df : DataFrame) (c : string) :
  has_col df c = true -> (1 <= count_label c (columns df))%nat.
Proof.
  unfold has_col. induction (columns df) as [|d cols IH]; simpl;
    [discriminate|].
  destruct (String.eqb c d); simpl; [lia | exact IH].
Qed.

Lemma series_of_label (df : DataFrame) (c : string) :
  (count_label c (columns df) <= 1)%nat -> has_col df c = true ->
  exists i, col_index c (columns df) = Some i
            /\ series df c = Some (map (cell_at i) (rows df)).
Proof.
  intros Hle Hc. pose proof (count_label_has df c Hc) as Hge.
  unfold series.
  replace (count_label c (columns df)) with 1%nat by lia. simpl.
  destruct (col_index c (columns df)) as [i|] eqn:Ei.
  - exists i. split; reflexivity.
  - apply PandasFacts.has_col_index in Ei. congruence.
Qed.

Lemma cell_of_index (df : DataFrame) (c : string) (i : nat) (r : Row) :
  col_index c (columns df) = Some i -> cell df c r = Some (cell_at i r).
Proof. intros Hi. unfold cell. now rewrite Hi. Qed.

Lemma in_column (df : DataFrame) (c : string) (i : nat) (v : Cell) :
  col_index c (columns df) = Some i ->
  In v (map (cell_at i) (rows df))
  <-> exists r, In r (rows df) /\ cell df c r = Some v.
Proof.
  intros Hi. rewrite in_map_iff. split.
  - intros [r [<- Hr]]. exists r. split; [exact Hr|].
    now apply cell_of_index.
  - intros [r [Hr Hv]]. exists r. split; [|exact Hr].
    rewrite (cell_of_index df c i r Hi) in Hv. congruence.
Qed.

Lemma strings_of_In (s : string) (cells : list Cell) :
  In s (strings_of cells) <-> In (CStr s) cells.
Proof.
  unfold strings_of. rewrite in_flat_map. split.
  - intros [c [Hc Hs]]. destruct c; try destruct Hs as [Hs|[]];
      try destruct Hs. now subst.
  - intros H. exists (CStr s). split; [exact H | now left].
Qed.

Lemma string_leb_total (x y : string) :
  String.leb x y = false -> String.leb y x = true.
Proof.
  intros H. destruct (String.leb_total x y) as [E|E]; congruence.
Qed.

Lemma sorted_unique_mixed (cells : list Cell) :
  sorted_unique cells = None
  <-> In CNull cells /\ exists s, In (CStr s) cells.
Proof.
  unfold sorted_unique.
  destruct (existsb (fun c => negb (notna c)) cells && existsb is_str cells)
    eqn:E.
  - split; [intros _ | reflexivity].
    apply andb_true_iff in E as [E1 E2].
    apply existsb_exists in E1 as [c1 [H1 N1]].
    apply existsb_exists in E2 as [c2 [H2 N2]].
    destruct c1; try discriminate N1.
    destruct c2; try discriminate N2. eauto.
  - split; [discriminate|]. intros [Hn [s Hs]].
    assert (E1 : existsb (fun c => negb (notna c)) cells = true)
      by (apply existsb_exists; exists CNull; auto).
    assert (E2 : existsb is_str cells = true)
      by (apply existsb_exists; exists (CStr s); auto).
    rewrite E1, E2 in E. discriminate E.
Qed.

Lemma sorted_unique_values (cells : list Cell) (all : list string) :
  sorted_unique cells = Some all ->
  Sorted (fun a b => String.leb a b = true) all
  /\ NoDup all
  /\ forall s, In s all <-> In (CStr s) cells.
Proof.
  unfold sorted_unique. destruct (_ && _); [discriminate|].
  intros [= <-]. split; [|split].
  - apply sort_sorted. exact string_leb_total.
  - apply (Permutation_NoDup
             (l := dedupe String.eqb (strings_of cells))).
    + symmetry. apply sort_perm.
    + apply (dedupe_NoDup _ String.eqb string_eqb_eq).
  - intros s. rewrite <- strings_of_In.
    rewrite <- (dedupe_In _ String.eqb String.leb string_eqb_eq s
                          (strings_of cells)).
    split; apply Permutation_in;
      [apply sort_perm | symmetry; apply sort_perm].
Qed.

(** The values of a column of labels. *)
Lemma all_values_spec (df : DataFrame) (c : string) (all : list string) :
  label_column df c -> all_values df c = Some all ->
  Sorted (fun a b => String.leb a b = true) all
  /\ NoDup all
  /\ forall s, In s all <-> has_text df c s.
Proof.
  intros [Hu _]. unfold all_values. destruct (has_col df c) eqn:Hc.
  - destruct (series_of_label df c Hu Hc) as [i [Hi Hs]]. rewrite Hs.
    intros H. apply sorted_unique_values in H as (H1 & H2 & H3).
    split; [exact H1 | split; [exact H2|]].
    intros s. rewrite H3. now apply in_column.
  - intros [= <-]. split; [constructor | split; [constructor|]].
    intros s. split; [intros []|].
    intros [r [_ Hr]]. apply PandasFacts.has_col_index in Hc.
    unfold cell in Hr. rewrite Hc in Hr. discriminate Hr.
Qed.

Lemma all_values_none (df : DataFrame) (c : string) :
  label_column df c ->
  all_values df c = None
  <-> has_missing df c /\ exists s, has_text df c s.
Proof.
  intros [Hu _]. unfold all_values, has_missing, has_text.
  destruct (has_col df c) eqn:Hc.
  - destruct (series_of_label df c Hu Hc) as [i [Hi Hs]]. rewrite Hs.
    rewrite sorted_unique_mixed, (in_column df c i CNull Hi).
    split; intros [H1 [s H2]]; (split; [exact H1 | exists s]);
      now apply (in_column df c i (CStr s) Hi).
  - split; [discriminate|]. intros [[r [_ Hr]] _].
    apply PandasFacts.has_col_index in Hc.
    unfold cell in Hr. rewrite Hc in Hr. discriminate Hr.
Qed.

Lemma option_map_none (A B : Type) (f : A -> B) (o : option A) :
  option_map f o = None <-> o = None.
Proof. destruct o; simpl; split; congruence. Qed.

Lemma values_to_options (names : list string) :
  map option_value (to_options names) = names.
Proof.
  unfold to_options. rewrite map_map. simpl. apply map_id.
Qed.

Lemma blank_search_values (all : list string) (v : option string) :
  blank_search v = true -> search_values all v = all.
Proof.
  intros H. unfold search_values. destruct v; [|reflexivity].
  now rewrite H.
Qed.

Lemma search_values_incl (all : list string) (v : option string) :
  incl (search_values all v) all.
Proof.
  unfold search_values. destruct v as [s|]; [|apply incl_refl].
  destruct (blank_search (Some s)); [apply incl_refl|].
  intros x Hx. now apply filter_In in Hx.
Qed.

Lemma search_values_match (all : list string) (s x : string) :
  blank_search (Some s) = false ->
  In x (search_values all (Some s))
  <-> In x all
      /\ PyStr.contains (PyStr.lower (PyStr.strip s)) (PyStr.lower x) = true.
Proof.
  intros H. unfold search_values. rewrite H.
  exact (filter_In
           (fun b => PyStr.contains (search_key s) (PyStr.lower b)) x all).
Qed.

Lemma lower_empty (s : string) :
  PyStr.lower s = EmptyString <-> s = EmptyString.
Proof. destruct s; simpl; split; congruence. Qed.

Lemma blank_search_strip (s : string) :
  blank_search (Some s) = String.eqb (PyStr.strip s) EmptyString.
Proof. destruct s; reflexivity. Qed.

(** The search text counts only through its trimmed, lower-cased form. *)
Lemma search_values_key (all : list string) (s1 s2 : string) :
  search_key s1 = search_key s2 ->
  search_values all (Some s1) = search_values all (Some s2).
Proof.
  intros E. unfold search_values. rewrite !blank_search_strip.
  assert (Hb : String.eqb (PyStr.strip s1) EmptyString
               = String.eqb (PyStr.strip s2) EmptyString).
  { unfold search_key in E.
    destruct (String.eqb_spec (PyStr.strip s1) EmptyString) as [E1|N1];
      destruct (String.eqb_spec (PyStr.strip s2) EmptyString) as [E2|N2];
      try reflexivity; exfalso.
    - rewrite E1 in E. change (PyStr.lower EmptyString) with EmptyString in E.
      symmetry in E. apply (proj1 (lower_empty _)) in E. contradiction.
    - rewrite E2 in E. change (PyStr.lower EmptyString) with EmptyString in E.
      apply (proj1 (lower_empty _)) in E. contradiction. }
  rewrite Hb, E. reflexivity.
Qed.

End OptionFacts.

(** X23.  With an empty or blank search text, the batch list and the
    exam list offer the texts found in their column: each once, in
    ascending order, and no other value. *)
Theorem blank_search_lists_column_values
        (temp_df : DataFrame) (search_value : option string) :
  blank_search search_value = true ->
  (forall opts,
      label_column temp_df "name" ->
      update_batch_options temp_df search_value = Some opts ->
      Sorted (fun a b => String.leb a b = true) (map option_value opts)
      /\ NoDup (map option_value opts)
      /\ forall s, In s (map option_value opts) <-> has_text temp_df "name" s)
  /\ (forall opts,
         label_column temp_df "Exam_2" ->
         update_exam_options temp_df search_value = Some opts ->
         Sorted (fun a b => String.leb a b = true) (map option_value opts)
         /\ NoDup (map option_value opts)
         /\ forall s, In s (map option_value opts)
                      <-> has_text temp_df "Exam_2" s).
Proof.
  intros Hb.
  assert (H : forall c opts,
             label_column temp_df c ->
             option_map (fun all => to_options (search_values all search_value))
                        (all_values temp_df c) = Some opts ->
             Sorted (fun a b => String.leb a b = true) (map option_value opts)
             /\ NoDup (map option_value opts)
             /\ forall s, In s (map option_value opts) <-> has_text temp_df c s).
  { intros c opts Hl. destruct (all_values temp_df c) as [all|] eqn:Ea;
      [|discriminate].
    intros [= <-].
    rewrite OptionFacts.values_to_options,
      (OptionFacts.blank_search_values all search_value Hb).
    exact (OptionFacts.all_values_spec temp_df c all Hl Ea). }
  split; intros opts; apply H.
Qed.

Lemma label_column_plans :
  label_column Tables.plans "name" /\ label_column Tables.plans "plan"
  /\ label_column Tables.plans "Exam_2".
Proof.
  repeat split; try (vm_compute; lia);
    intros i Hi; vm_compute in Hi; try discriminate Hi;
    injection Hi as <-; repeat constructor.
Qed.

Lemma blank_search_lists_column_values_witness :
  map option_value
      (match update_batch_options Tables.plans (Some "  ") with
       | Some opts => opts
       | None => []
       end)
  = ["Arjuna NEET"; "Lakshya JEE"; "lakshya neet"]
  /\ NoDup ["Arjuna NEET"; "Lakshya JEE"; "lakshya neet"].
Proof.
  split; [reflexivity|].
  exact (proj1 (proj2 (proj1 (blank_search_lists_column_values
                                Tables.plans (Some "  ") eq_refl)
                             _ (proj1 label_column_plans) eq_refl))).
Defined.

(** X24.  A check list cannot be built when its column holds both a
    missing value and a text: sorting the distinct values raises, whatever
    the search text.  In every other case the list is built. *)
Theorem options_raise_on_mixed_column
        (temp_df : DataFrame) (search_value : option string) :
  label_column temp_df "name" ->
  label_column temp_df "Exam_2" ->
  label_column temp_df "plan" ->
  (update_batch_options temp_df search_value = None
   <-> has_missing temp_df "name" /\ exists s, has_text temp_df "name" s)
  /\ (update_exam_options temp_df search_value = None
      <-> has_missing temp_df "Exam_2" /\ exists s, has_text temp_df "Exam_2" s)
  /\ (update_plan_options temp_df search_value = None
      <-> has_missing temp_df "plan" /\ exists s, has_text temp_df "plan" s).
Proof.
  intros Hn He Hp.
  unfold update_batch_options, update_exam_options, update_plan_options.
  rewrite !OptionFacts.option_map_none.
  split; [|split]; now apply OptionFacts.all_values_none.
Qed.

Lemma label_column_enrollments :
  label_column Scenario.enrollments "name"
  /\ label_column Scenario.enrollments "Exam_2"
  /\ label_column Scenario.enrollments "plan".
Proof.
  repeat split; try (vm_compute; lia);
    intros i Hi; vm_compute in Hi; try discriminate Hi;
    injection Hi as <-; repeat constructor.
Qed.

Lemma options_raise_on_mixed_column_witness :
  has_missing Scenario.enrollments "Exam_2"
  /\ exists s, has_text Scenario.enrollments "Exam_2" s.
Proof.
  destruct label_column_enrollments as (Hn & He & Hp).
  exact (proj1 (proj1 (proj2 (options_raise_on_mixed_column
                                Scenario.enrollments None Hn He Hp)))
               eq_refl).
Defined.

(** X25.  A search text never makes a check list fail that can be built
    without one, and it only narrows the list: the options are options of
    the full list, those whose value contains the trimmed search text,
    letter case apart; a blank text keeps them all.  The label of an
    option is its value after one space. *)
Theorem search_narrows_options
        (temp_df : DataFrame) (search_value : option string)
        (full : list CheckOption) :
  update_batch_options temp_df None = Some full ->
  exists opts,
    update_batch_options temp_df search_value = Some opts
    /\ (blank_search search_value = true -> opts = full)
    /\ (forall s, search_value = Some s -> blank_search search_value = false ->
                  forall o, In o opts
                            <-> In o full
                                /\ PyStr.contains
                                     (PyStr.lower (PyStr.strip s))
                                     (PyStr.lower (option_value o)) = true)
    /\ (forall o, In o opts ->
                  option_label o = (" " ++ option_value o)%string).
Proof.
  unfold update_batch_options.
  destruct (all_values temp_df "name") as [all|]; [|discriminate].
  cbn [option_map]. intros [= <-]. eexists. split; [reflexivity|].
  split; [|split].
  - intros Hb. now rewrite (OptionFacts.blank_search_values all _ Hb).
  - intros s -> Hb o. unfold to_options. rewrite !in_map_iff. split.
    + intros [x [<- Hx]].
      apply (OptionFacts.search_values_match all s x Hb) in Hx as [Hx Hc].
      split; [exists x; auto | exact Hc].
    + intros [[x [<- Hx]] Hc]. exists x. split; [reflexivity|].
      apply (OptionFacts.search_values_match all s x Hb). auto.
  - intros o Ho. unfold to_options in Ho.
    apply in_map_iff in Ho as [x [<- _]]. reflexivity.
Qed.

Lemma search_narrows_options_witness :
  exists opts,
    update_batch_options Tables.plans (Some " NEET ") = Some opts
    /\ (forall o, In o opts ->
                  option_label o = (" " ++ option_value o)%string).
Proof.
  destruct (search_narrows_options Tables.plans (Some " NEET ") _ eq_refl)
    as [opts (H1 & _ & _ & H2)].
  exists opts. split; assumption.
Defined.

(** X26.  The three searches ignore letter case and surrounding white
    space: two search texts with the same trimmed, lower-cased form give
    the same options. *)
Theorem search_ignores_case_and_spaces
        (temp_df : DataFrame) (s1 s2 : string) :
  PyStr.lower (PyStr.strip s1) = PyStr.lower (PyStr.strip s2) ->
  update_batch_options temp_df (Some s1) = update_batch_options temp_df (Some s2)
  /\ update_exam_options temp_df (Some s1)
     = update_exam_options temp_df (Some s2)
  /\ update_plan_options temp_df (Some s1)
     = update_plan_options temp_df (Some s2).
Proof.
  intros E.
  unfold update_batch_options, update_exam_options, update_plan_options.
  split; [|split].
  - destruct (all_values temp_df "name") as [all|]; [|reflexivity].
    cbn [option_map]. now rewrite (OptionFacts.search_values_key all s1 s2 E).
  - destruct (all_values temp_df "Exam_2") as [all|]; [|reflexivity].
    cbn [option_map]. now rewrite (OptionFacts.search_values_key all s1 s2 E).
  - destruct (all_values temp_df "plan") as [all|]; [|reflexivity].
    cbn [option_map].
    now rewrite (OptionFacts.search_values_key _ s1 s2 E).
Qed.

Lemma search_ignores_case_and_spaces_witness :
  update_batch_options Tables.plans (Some " NEET ")
  = update_batch_options Tables.plans (Some "neet").
Proof.
  exact (proj1 (search_ignores_case_and_spaces
                  Tables.plans " NEET " "neet" eq_refl)).
Defined.

(** X27.  The plan list never offers a blank plan or the text "none" in
    any letter case, with or without white space around it; every plan it
    offers is the plan of some row.  With a blank search text it offers
    every other plan text of the column. *)
Theorem plan_options_skip_blank_and_none
        (temp_df : DataFrame) (search_value : option string)
        (opts : list CheckOption) :
  label_column temp_df "plan" ->
  update_plan_options temp_df search_value = Some opts ->
  (forall o, In o opts ->
             PyStr.strip (option_value o) <> EmptyString
             /\ PyStr.lower (PyStr.strip (option_value o)) <> "none"
             /\ has_text temp_df "plan" (option_value o))
  /\ (blank_search search_value = true ->
      forall p, has_text temp_df "plan" p ->
                PyStr.strip p <> EmptyString ->
                PyStr.lower (PyStr.strip p) <> "none" ->
                In p (map option_value opts)).
Proof.
  intros Hl. unfold update_plan_options.
  destruct (all_values temp_df "plan") as [all|] eqn:Ea; [|discriminate].
  cbn [option_map]. intros [= <-].
  destruct (OptionFacts.all_values_spec temp_df "plan" all Hl Ea)
    as (_ & _ & Hin).
  split.
  - intros o Ho. unfold to_options in Ho.
    apply in_map_iff in Ho as [p [<- Hp]]. cbn [option_value].
    apply OptionFacts.search_values_incl in Hp.
    apply filter_In in Hp as [Hp Hu]. unfold usable_plan in Hu.
    apply andb_true_iff in Hu as [H1 H2].
    apply negb_true_iff in H1, H2.
    apply String.eqb_neq in H1, H2.
    split; [exact H1 | split; [exact H2 | now apply Hin]].
  - intros Hb p Hp H1 H2.
    rewrite OptionFacts.values_to_options,
      (OptionFacts.blank_search_values _ search_value Hb).
    apply filter_In. split; [now apply Hin|].
    unfold usable_plan. apply andb_true_iff.
    split; apply negb_true_iff, String.eqb_neq; assumption.
Qed.

Lemma plan_options_skip_blank_and_none_witness :
  match update_plan_options Tables.plans None with
  | Some opts =>
      map option_value opts = ["Pro"; "Pro Max"]
      /\ forall o, In o opts ->
                   PyStr.strip (option_value o) <> EmptyString
                   /\ PyStr.lower (PyStr.strip (option_value o)) <> "none"
                   /\ has_text Tables.plans "plan" (option_value o)
  | None => False
  end.
Proof.
  destruct (update_plan_options Tables.plans None) as [opts|] eqn:E;
    [|discriminate E].
  split; [injection E as <-; reflexivity|].
  exact (proj1 (plan_options_skip_blank_and_none
                  Tables.plans None opts
                  (proj1 (proj2 label_column_plans)) E)).
Defined.

(* ================================================================== *)
(** * Properties: the label columns of a loaded table *)
(* ================================================================== *)

Module TextFacts.

Import Pandas.

Lemma label_cell_at (i : nat) (r : Row) :
  Forall (fun x => is_label x = true) r -> is_label (cell_at i r) = true.
Proof.
  intros H. unfold cell_at.
  destruct (nth_in_or_default i r CNull) as [Hin|E];
    [|rewrite E; reflexivity].
  rewrite Forall_forall in H. now apply H.
Qed.

Lemma label_set_nth (i : nat) (v : Cell) (r : Row) :
  is_label v = true -> Forall (fun x => is_label x = true) r ->
  Forall (fun x => is_label x = true) (set_nth i v r).
Proof.
  intros Hv H. revert i. induction H as [|x r Hx Hr IH]; intros [|i]; simpl;
    constructor; auto.
Qed.

Lemma DataFrame_of_text (data : list (list string)) (cols : list string)
      (df : DataFrame) :
  DataFrame_of data cols = Some df -> text_frame df.
Proof.
  unfold DataFrame_of, text_frame. destruct data as [|x data].
  - intros [= <-]. constructor.
  - remember (x :: data) as d eqn:Ed.
    destruct (_ =? _)%nat; [|discriminate].
    intros H; inversion H; subst df; clear H Ed. cbn [rows].
    apply Forall_forall. intros r Hr. apply in_map_iff in Hr as [r0 [<- _]].
    unfold pad. apply Forall_app. split.
    + apply Forall_forall. intros c Hc.
      apply in_map_iff in Hc as [s [<- _]]. reflexivity.
    + apply Forall_forall. intros c Hc. apply repeat_spec in Hc.
      now subst.
Qed.

Lemma assign_text (df : DataFrame) (c : string) (s : list Cell) :
  text_frame df -> Forall (fun x => is_label x = true) s ->
  text_frame (assign df c s).
Proof.
  unfold text_frame, assign. intros Hdf Hs.
  rewrite Forall_forall in Hdf, Hs.
  destruct (col_index c (columns df)) as [i|]; cbn [rows];
    apply Forall_forall; intros r Hr;
    apply in_map_iff in Hr as [[r0 v] [<- Hin]];
    pose proof (in_combine_l _ _ _ _ Hin) as Hl;
    pose proof (in_combine_r _ _ _ _ Hin) as Hr0; cbn [fst snd].
  - apply label_set_nth; auto.
  - apply Forall_app. split; [auto|]. constructor; auto.
Qed.

Lemma copy_column_text (df df' : DataFrame) (src dst : string) :
  copy_column df src dst = Some df' -> text_frame df -> text_frame df'.
Proof.
  unfold copy_column. destruct (series df src) as [s|] eqn:Es;
    [|discriminate].
  intros [= <-] Hdf. apply assign_text; [exact Hdf|].
  apply PandasFacts.series_index in Es as [i [_ ->]].
  apply Forall_forall. intros c Hc. apply in_map_iff in Hc as [r [<- Hr]].
  apply label_cell_at. unfold text_frame in Hdf.
  rewrite Forall_forall in Hdf. now apply Hdf.
Qed.

Lemma sheet_frame_text (data : list (list string)) (df : DataFrame) :
  sheet_frame data = Some df -> text_frame df.
Proof.
  unfold sheet_frame, raw_frame.
  destruct (nth_error data (header_row data)) as [hdr|]; [|discriminate].
  destruct (DataFrame_of _ hdr) as [df0|] eqn:E0; [|discriminate].
  apply DataFrame_of_text in E0.
  set (df1 := mkDataFrame (map PyStr.strip (columns df0)) (rows df0)).
  assert (T1 : text_frame df1) by exact E0.
  assert (T2 : forall df2,
             (if has_col df1 "batch_name" && negb (has_col df1 "name")
              then copy_column df1 "batch_name" "name"
              else Some df1) = Some df2 -> text_frame df2).
  { intros df2. destruct (_ && _).
    - intros H. now apply copy_column_text in H.
    - intros [= <-]. exact T1. }
  destruct (if has_col df1 "batch_name" && negb (has_col df1 "name")
            then _ else _) as [df2|]; [|discriminate].
  specialize (T2 df2 eq_refl).
  destruct (_ && _).
  - intros H. now apply copy_column_text in H.
  - destruct (_ && _).
    + intros H. now apply copy_column_text in H.
    + intros [= <-]. exact T2.
Qed.

Lemma concat_text (dfs : list DataFrame) (df : DataFrame) :
  Forall text_frame dfs -> concat dfs = Some df -> text_frame df.
Proof.
  intros Hall. unfold concat. destruct dfs as [|df0 rest]; [discriminate|].
  rewrite Forall_forall in Hall.
  destruct (forallb (fun d => nodupb (columns d)) (df0 :: rest)).
  - intros [= <-]. unfold text_frame; cbn [rows].
    apply Forall_forall. intros r Hr.
    change (In r (flat_map
                    (fun d => map (reindex (union_columns (df0 :: rest)) d)
                                  (rows d)) (df0 :: rest))) in Hr.
    apply in_flat_map in Hr as [d [Hd Hr]].
    apply in_map_iff in Hr as [r0 [<- Hr0]].
    specialize (Hall d Hd). unfold text_frame in Hall.
    rewrite Forall_forall in Hall. specialize (Hall r0 Hr0).
    unfold reindex. apply Forall_forall. intros c Hc.
    apply in_map_iff in Hc as [l [<- _]]. unfold cell.
    destruct (col_index l (columns d)); simpl; [|reflexivity].
    now apply label_cell_at.
  - destruct (forallb _ rest); [|discriminate].
    intros [= <-]. unfold text_frame; cbn [rows].
    apply Forall_forall. intros r Hr.
    change (In r (flat_map rows (df0 :: rest))) in Hr.
    apply in_flat_map in Hr as [d [Hd Hr]].
    specialize (Hall d Hd). unfold text_frame in Hall.
    rewrite Forall_forall in Hall. now apply Hall.
Qed.

Lemma text_frame_columns (df : DataFrame) (c : string) :
  text_frame df -> col_all df c (fun x => is_label x = true).
Proof.
  intros H i _. unfold text_frame in H. rewrite Forall_forall in *.
  intros r Hr. apply label_cell_at. now apply H.
Qed.

Lemma count_label_absent (df : DataFrame) (c : string) :
  has_col df c = false -> count_label c (columns df) = 0%nat.
Proof.
  unfold has_col. induction (columns df) as [|d cols IH]; simpl;
    [reflexivity|].
  destruct (String.eqb c d); simpl; [discriminate | exact IH].
Qed.

Lemma string_cols_apart (c : string) :
  In c string_cols ->
  c <> "converteddate" /\ c <> "startdate" /\ ~ In c numeric_cols.
Proof.
  intros H. unfold string_cols in H.
  repeat (destruct H as [<-|H];
          [split; [discriminate | split; [discriminate|]];
           intros Hn; repeat (destruct Hn as [Hn|Hn]; [discriminate Hn|]);
           destruct Hn|]).
  destruct H.
Qed.

Section Clean.

Context {P : Parsers}.

Lemma categorise_unique (cols : list string) (df df' : DataFrame) :
  for_each categorise cols df = Some df' ->
  forall c, In c cols -> (count_label c (columns df) <= 1)%nat.
Proof.
  induction cols as [|c0 cols IH]; intros E c Hc; [destruct Hc|].
  simpl in E. destruct (categorise c0 df) as [df1|] eqn:E1; [|discriminate].
  assert (df1 = df) as ->.
  { unfold categorise in E1. destruct (has_col df c0).
    - destruct (series df c0); [|discriminate].
      destruct (len df =? 0)%nat; [discriminate|]. now inversion E1.
    - now inversion E1. }
  destruct Hc as [<-|Hc]; [|now apply IH].
  unfold categorise in E1. destruct (has_col df c0) eqn:Hh.
  - unfold series in E1.
    destruct (Nat.eqb_spec (count_label c0 (columns df)) 1) as [->|];
      [lia | discriminate E1].
  - rewrite (count_label_absent df c0 Hh). lia.
Qed.

Lemma clean_label_columns (dfs : list DataFrame) (df : DataFrame) :
  Forall rectangular dfs -> Forall text_frame dfs -> clean dfs = Some df ->
  forall c, In c string_cols -> label_column df c.
Proof.
  intros Hrect Htext. unfold clean.
  destruct (concat dfs) as [d0|] eqn:E0; [|discriminate].
  pose proof (NormalizerFacts.concat_rectangular dfs d0 Hrect E0) as R0.
  pose proof (concat_text dfs d0 Htext E0) as T0.
  destruct (coerce_date "converteddate" d0) as [d1|] eqn:E1; [|discriminate].
  destruct (NormalizerFacts.coerce_date_spec _ _ _ R0 E1) as [[_ [R1 K1]] _].
  destruct (coerce_date "startdate" d1) as [d2|] eqn:E2; [|discriminate].
  destruct (NormalizerFacts.coerce_date_spec _ _ _ R1 E2) as [[_ [R2 K2]] _].
  destruct (for_each coerce_numeric numeric_cols d2) as [d3|] eqn:E3;
    [|discriminate].
  destruct (for_each_numeric_spec _ _ _ R2 E3) as [_ [_ [K3 _]]].
  destruct (for_each categorise string_cols d3) as [d4|] eqn:E4;
    [|discriminate].
  pose proof (categorise_unique _ _ _ E4) as U.
  apply for_each_categorise in E4. subst d4.
  intros [= <-] c Hc.
  destruct (string_cols_apart c Hc) as (N1 & N2 & N3).
  split.
  - assert (Hcols : columns (drop_invalid_dates (dropna_all d3))
                    = columns d3).
    { unfold drop_invalid_dates.
      destruct (col_index "converteddate" (columns (dropna_all d3)));
        reflexivity. }
    rewrite Hcols. now apply U.
  - apply drop_invalid_dates_keeps.
    unfold dropna_all. apply (PandasFacts.col_all_select (existsb notna) d3).
    apply K3; [exact N3|]. apply K2; [exact N2|]. apply K1; [exact N1|].
    now apply text_frame_columns.
Qed.

Lemma collect_text (R : Remote) (names : list string) :
  Forall text_frame (collect R names).
Proof.
  apply Forall_forall. intros df H. unfold collect in H.
  apply in_flat_map in H as [name [_ H]].
  destruct (worksheet R name) as [data|]; [|destruct H].
  destruct (sheet_frame data) as [d|] eqn:E; [|destruct H].
  destruct H as [<-|[]]. now apply sheet_frame_text with (data := data).
Qed.

Lemma fetch_label_columns (R : Remote) (df : DataFrame) :
  snd (fetch_and_normalize R) = Loaded df ->
  forall c, In c string_cols -> label_column df c.
Proof.
  unfold fetch_and_normalize.
  destruct (get_google_credentials R); [|discriminate].
  destruct (authorize_ok R); [|discriminate].
  destruct (open_ok R); [|discriminate].
  cbn [negb snd]. unfold normalize.
  destruct (collect R WORKSHEET_NAMES) as [|d0 rest] eqn:Ec; [discriminate|].
  destruct (clean (d0 :: rest)) as [d|] eqn:E; [|discriminate].
  destruct (len d =? 0)%nat; [discriminate|]. intros [= <-].
  apply (clean_label_columns (d0 :: rest)); [| |exact E].
  - rewrite <- Ec. apply collect_rectangular.
  - rewrite <- Ec. apply collect_text.
Qed.

Lemma empty_schema_label_columns (c : string) :
  In c string_cols -> label_column EMPTY_SCHEMA c.
Proof.
  intros H. split.
  - unfold string_cols in H.
    repeat (destruct H as [<-|H]; [vm_compute; lia|]). destruct H.
  - intros i _. constructor.
Qed.

(** A property of tables that holds of the empty schema and of every
    table an attempt loads holds of what the loader returns and of what
    it leaves in the cache. *)
Lemma load_keeps (Inv : DataFrame -> Prop) (force_refresh : bool) (t : Q)
      (R : Remote) (w : World) :
  Inv EMPTY_SCHEMA ->
  (forall df, snd (fetch_and_normalize R) = Loaded df -> Inv df) ->
  cache_allocated w ->
  (forall r, DATA_CACHE w = Some r -> Inv (deref w r)) ->
  let res := load_data_from_sheets force_refresh t R w in
  Inv (deref (snd res) (fst res))
  /\ forall r, DATA_CACHE (snd res) = Some r -> Inv (deref (snd res) r).
Proof.
  intros He Hl Hw Hn res. unfold res.
  assert (Hold : forall r, DATA_CACHE w = Some r ->
                           (r < List.length (heap w))%nat).
  { intros r Hr. unfold cache_allocated in Hw. now rewrite Hr in Hw. }
  destruct (cache_hit force_refresh t w) as [r|] eqn:Eh.
  - rewrite (load_hit _ _ R _ _ Eh). unfold copy. rewrite deref_alloc_new.
    pose proof (cache_hit_cached _ _ _ _ Eh) as Hr. split.
    + now apply Hn.
    + intros r0 Hr0. cbn [alloc snd DATA_CACHE] in Hr0.
      rewrite deref_alloc_old by auto. now apply Hn.
  - destruct (snd (fetch_and_normalize R)) as [| |df] eqn:Eo.
    + rewrite load_miss_empty by (auto; congruence).
      rewrite deref_alloc_new. split; [exact He|].
      intros r0 Hr0. cbn [alloc snd DATA_CACHE attempted] in Hr0.
      rewrite (deref_alloc_old EMPTY_SCHEMA (attempted R w))
        by (now apply Hold).
      now apply Hn.
    + rewrite load_miss_empty by (auto; congruence).
      rewrite deref_alloc_new. split; [exact He|].
      intros r0 Hr0. cbn [alloc snd DATA_CACHE attempted] in Hr0.
      rewrite (deref_alloc_old EMPTY_SCHEMA (attempted R w))
        by (now apply Hold).
      now apply Hn.
    + rewrite (load_miss_loaded _ _ _ _ df Eh Eo).
      specialize (Hl df eq_refl).
      cbn [fst snd DATA_CACHE]. unfold deref; cbn [heap]. split.
      * replace (List.length (heap w)) with (List.length (heap w) + 0)%nat
          at 1 by lia.
        now rewrite app_nth2_plus.
      * intros r0 [= <-].
        replace (S (List.length (heap w))) with (List.length (heap w) + 1)%nat
          by lia.
        now rewrite app_nth2_plus.
Qed.

Lemma reachable_label_columns (w : World) :
  reachable w ->
  forall r, DATA_CACHE w = Some r ->
            forall c, In c string_cols -> label_column (deref w r) c.
Proof.
  induction 1 as [|f t R w Hw IH].
  - intros r Hr. discriminate Hr.
  - apply (load_keeps
             (fun df => forall c, In c string_cols -> label_column df c)
             f t R w).
    + exact empty_schema_label_columns.
    + exact (fetch_label_columns R).
    + now apply reachable_allocated.
    + exact IH.
Qed.

End Clean.

End TextFacts.

Section LabelColumns.

Context {P : Parsers}.

(** X22.  In the table a call of the loader returns, and in the cached
    table, each of the nine text columns (batch name, plan, exam and the
    others the loader considers for the category type) is carried by at
    most one column, and holds in every row the text of a sheet cell or
    the missing value: the loader converts the date and amount columns
    only. *)
Theorem loaded_label_columns (w : World) (c : string) :
  reachable w ->
  In c string_cols ->
  (forall r, DATA_CACHE w = Some r -> label_column (deref w r) c)
  /\ (forall force_refresh current_time R,
         let res := load_data_from_sheets force_refresh current_time R w in
         label_column (deref (snd res) (fst res)) c).
Proof.
  intros Hw Hc. split.
  - intros r Hr. now apply (TextFacts.reachable_label_columns w Hw r Hr).
  - intros f t R res.
    exact (proj1 (TextFacts.load_keeps
                    (fun df => forall c, In c string_cols -> label_column df c)
                    f t R w TextFacts.empty_schema_label_columns
                    (TextFacts.fetch_label_columns R)
                    (reachable_allocated w Hw)
                    (TextFacts.reachable_label_columns w Hw)) c Hc).
Qed.

End LabelColumns.

Lemma loaded_label_columns_witness :
  label_column
    (deref (snd (load_data_from_sheets (P := Reference.parsers) true 2000%Q
                   Scenario.two_sheets Scenario.warm))
           (fst (load_data_from_sheets (P := Reference.parsers) true 2000%Q
                   Scenario.two_sheets Scenario.warm)))
    "Exam_2".
Proof.
  assert (H : reachable (P := Reference.parsers) Scenario.warm)
    by (apply reachable_load, reachable_initial).
  assert (Hc : In "Exam_2" string_cols) by (vm_compute; tauto).
  exact (proj2 (loaded_label_columns
                  (P := Reference.parsers) Scenario.warm "Exam_2" H Hc)
               true 2000%Q Scenario.two_sheets).
Defined.

(* ================================================================== *)
(** * Properties: the start of [update_dashboard] *)
(* ================================================================== *)

Lemma debug_lines_exam_list (df : DataFrame) :
  label_column df "name" -> label_column df "Exam_2" ->
  debug_lines_raise df = true <-> all_values df "Exam_2" = None.
Proof.
  intros [Hn _] [He _]. unfold debug_lines_raise, all_values.
  assert (N : Pandas.has_col df "name"
              && match Pandas.series df "name" with
                 | Some _ => false
                 | None => true
                 end = false).
  { destruct (Pandas.has_col df "name") eqn:Hc; [|reflexivity].
    destruct (OptionFacts.series_of_label df "name" Hn Hc) as [i [_ ->]].
    reflexivity. }
  destruct (Pandas.has_col df "Exam_2") eqn:Hc.
  - destruct (OptionFacts.series_of_label df "Exam_2" He Hc) as [i [_ Hs]].
    rewrite Hs. destruct (rows df) as [|r l] eqn:Er.
    + cbn [map]. split; discriminate.
    + rewrite N. cbn [orb andb].
      destruct (sorted_unique (map (Pandas.cell_at i) (r :: l)));
        split; congruence.
  - destruct (rows df); [split; discriminate|].
    rewrite N. cbn [orb andb]. split; discriminate.
Qed.

(** X28.  [update_dashboard] raises before it filters exactly when the
    exam column of the loaded table holds both a missing value and an
    exam, which is exactly when the exam check list cannot be built
    either; in every other case, the empty table included, the table it
    goes on with is the filter applied to the loaded table. *)
Theorem dashboard_raises_with_exam_list (df : DataFrame) (S : Selection) :
  normalized df ->
  label_column df "name" ->
  label_column df "Exam_2" ->
  (dashboard_filtered df S = None
   <-> has_missing df "Exam_2" /\ exists s, has_text df "Exam_2" s)
  /\ (dashboard_filtered df S = None <-> update_exam_options df None = None)
  /\ (dashboard_filtered df S <> None ->
      dashboard_filtered df S = Some (filter_data df S)).
Proof.
  intros _ Hn He.
  pose proof (debug_lines_exam_list df Hn He) as Hd.
  pose proof (OptionFacts.all_values_none df "Exam_2" He) as Ha.
  unfold dashboard_filtered, update_exam_options.
  rewrite OptionFacts.option_map_none.
  destruct (debug_lines_raise df).
  - split; [|split].
    + split; [intros _ | reflexivity]. apply Ha, Hd. reflexivity.
    + split; [intros _ | reflexivity]. apply Hd. reflexivity.
    + intros H. now destruct H.
  - split; [|split].
    + split; [discriminate|]. intros H. apply Ha, Hd in H. discriminate H.
    + split; [discriminate|]. intros H. apply Hd in H. discriminate H.
    + reflexivity.
Qed.

Lemma normalized_unnamed_row : normalized Tables.unnamed_row.
Proof.
  split.
  - intros i [= <-]. repeat constructor; eexists; reflexivity.
  - intros c i Hc Hi.
    destruct Hc as [<-|[<-|[<-|[<-|[]]]]]; try discriminate Hi.
    injection Hi as <-. repeat constructor; eexists; reflexivity.
Qed.

Lemma normalized_enrollments : normalized Scenario.enrollments.
Proof.
  split.
  - intros i [= <-]. repeat constructor; eexists; reflexivity.
  - intros c i Hc Hi.
    destruct Hc as [<-|[<-|[<-|[<-|[]]]]]; try discriminate Hi.
    injection Hi as <-. repeat constructor; eexists; reflexivity.
Qed.

Lemma dashboard_raises_with_exam_list_witness :
  dashboard_filtered Scenario.enrollments Scenario.first_week = None
  /\ dashboard_filtered Tables.unnamed_row Scenario.first_week
     = Some (filter_data Tables.unnamed_row Scenario.first_week).
Proof.
  split.
  - destruct label_column_enrollments as (Hn & He & _).
    exact (proj2 (proj1 (proj2 (dashboard_raises_with_exam_list
                                  Scenario.enrollments Scenario.first_week
                                  normalized_enrollments Hn He)))
                 eq_refl).
  - assert (Hn : label_column Tables.unnamed_row "name")
      by (split; [vm_compute; lia|];
          intros i Hi; vm_compute in Hi; injection Hi as <-;
          repeat constructor).
    assert (He : label_column Tables.unnamed_row "Exam_2")
      by (split; [vm_compute; lia|];
          intros i Hi; vm_compute in Hi; injection Hi as <-;
          repeat constructor).
    apply (proj2 (proj2 (dashboard_raises_with_exam_list
                           Tables.unnamed_row Scenario.first_week
                           normalized_unnamed_row Hn He))).
    discriminate.
Defined.

Lemma totals_count_is_named_rows_witness :
  match batch_table (Num := Reference.numeric) Tables.unnamed_row with
  | Table t => In (FCount 3) (footer_cells t)
               /\ caption_enrollments t = 4%nat
  | _ => False
  end.
Proof.
  destruct (batch_table (Num := Reference.numeric) Tables.unnamed_row)
    as [| |t] eqn:E; [discriminate E | discriminate E |].
  destruct (proj1 (totals_count_is_named_rows Tables.unnamed_row) t E)
    as [H1 H2].
  split; [apply H1; reflexivity | exact H2].
Defined.

(** The table of [Tables.exam_sheets] is loaded, and the dashboard goes
    on to filter it. *)
Remark unnamed_row_loaded :
  (let res := load_data_from_sheets (P := Reference.parsers) false 1000%Q
                Tables.exam_sheets initial_world in
   deref (snd res) (fst res) = Tables.unnamed_row)
  /\ dashboard_filtered Tables.unnamed_row Scenario.first_week
     = Some Tables.unnamed_row.
Proof. vm_compute. split; reflexivity. Qed.
